(** * Qeagle chatbot: the retrieval-and-answer pipeline, embedded and verified

    A shallow embedding of the Python back end ([backend/app]):
    - [services/query_utils.py]      : module [QueryUtils]
    - [services/cache_service.py]    : module [CacheService]
    - [services/lc_vector_store.py]  : module [LcVectorStore]
    - [services/document_service.py] : module [DocumentService]
    - [services/vector_search.py]    : module [VectorSearch]
    - [api/endpoints/document_chat.py] : module [DocumentChat]
    - [services/cache_service.py], maintenance : module [CacheMaintenance]
    - [services/lc_vector_store.py], embeddings : module [LocalEmbeddings]
    - [services/embedding_service.py] : module [EmbeddingService]
    - [services/reranker_service.py]  : module [Reranker]
    - [services/openrouter_service.py] : module [OpenRouter]
    - [api/endpoints/simple_chat.py]  : module [SimpleChat]
    - [services/vector_search.py], citations : module [CitationSpans]
    - [services/document_service.py], upload and deletion, and
      [api/endpoints/documents.py]    : modules [Upload] and [Deletion]
    - [services/pdf_processor.py]     : module [PdfProcessor]
    - [core/config.py]                : module [Config]
    - [api/endpoints/chat.py]         : module [ChatEndpoints]

    The embedding comes first; [Spec] and [SpecMore] hold the vocabulary of
    the theorems, [Scenario] and [ScenarioMore] the small worlds they are
    run on, and the modules named [...Facts] the proofs.

    Conventions of the embedding.
    - A Python [str] is a [text], a list of characters.  The character
      classes ([str.strip], [str.split], [str.lower], the regular expression
      classes [\b] and [\w]) are the ones Python uses on ASCII text; code
      points from 128 on are carried along unchanged and belong to no class.
    - A Python [float] is a rational number of [Q]: comparisons, sums and
      quotients are exact, and a division by zero raises as it does in
      Python.  Not-a-number and the infinities are outside the embedding.
    - A raised exception is a value [Raise e] of the type [res]; [try] /
      [except] is [try_except].  Calls to the language model are recorded in
      a log that the endpoint monad [Eff] threads through. *)

From Stdlib Require Import QArith Qabs Lqa Ascii String List Lia.
From Stdlib Require Import DecimalString.
From stdpp Require Import base list strings gmap sorting.

Set Default Proof Using "Type".

(** ** Python strings *)

Definition text := list ascii.

(** A literal of the source. *)
Definition str (s : string) : text := list_ascii_of_string s.

Module Py.

Definition code (c : ascii) : N := N_of_ascii c.

(** [str.isspace] on ASCII: tab, line feed, vertical tab, form feed,
    carriage return, the four separators 28..31 and the space. *)
Definition is_space (c : ascii) : bool :=
  let n := code c in
  ((9 <=? n) && (n <=? 13) || (28 <=? n) && (n <=? 32))%N.

Definition is_upper (c : ascii) : bool :=
  let n := code c in ((65 <=? n) && (n <=? 90))%N.

Definition is_lower (c : ascii) : bool :=
  let n := code c in ((97 <=? n) && (n <=? 122))%N.

Definition is_digit (c : ascii) : bool :=
  let n := code c in ((48 <=? n) && (n <=? 57))%N.

(** The class [\w] of [re]: letters, digits and the underscore. *)
Definition is_word_char (c : ascii) : bool :=
  is_upper c || is_lower c || is_digit c || (code c =? 95)%N.

Definition lower_char (c : ascii) : ascii :=
  if is_upper c then ascii_of_N (code c + 32) else c.

(** [s.lower()] *)
Definition lower (s : text) : text := map lower_char s.

(** [s.lstrip()], [s.rstrip()], [s.strip()] *)
Fixpoint lstrip (s : text) : text :=
  match s with
  | [] => []
  | c :: s' => if is_space c then lstrip s' else s
  end.

Definition rstrip (s : text) : text := reverse (lstrip (reverse s)).

Definition strip (s : text) : text := rstrip (lstrip s).

(** [s.startswith(p)] *)
Fixpoint startswith (p s : text) : bool :=
  match p, s with
  | [], _ => true
  | _ :: _, [] => false
  | a :: p', b :: s' => bool_decide (a = b) && startswith p' s'
  end.

(** [p in s] for two strings: [p] occurs in [s] as a substring. *)
Fixpoint contains (p s : text) : bool :=
  startswith p s ||
  match s with
  | [] => false
  | _ :: s' => contains p s'
  end.

(** [s.split()]: the maximal runs of characters that are not white space.
    [cur] is the run being read. *)
Fixpoint split_go (cur : text) (s : text) : list text :=
  match s with
  | [] => match cur with [] => [] | _ => [cur] end
  | c :: s' =>
      if is_space c
      then match cur with [] => split_go [] s' | _ => cur :: split_go [] s' end
      else split_go (cur ++ [c]) s'
  end.

Definition split (s : text) : list text := split_go [] s.

(** [sep.join(parts)] *)
Fixpoint join (sep : text) (parts : list text) : text :=
  match parts with
  | [] => []
  | [p] => p
  | p :: rest => p ++ sep ++ join sep rest
  end.

(** [s.replace(a, b)] for a one-character [a]. *)
Definition replace_char (a : ascii) (b : text) (s : text) : text :=
  flat_map (fun c => if bool_decide (c = a) then b else [c]) s.

(** [any(...)] and [len] *)
Definition any {A} (f : A -> bool) (l : list A) : bool := existsb f l.
Definition len {A} (l : list A) : Z := Z.of_nat (length l).

(** [str(n)] for an integer. *)
Definition str_of_Z (z : Z) : text :=
  str (NilEmpty.string_of_int (Z.to_int z)).

End Py.

(** ** Exceptions *)

(** The exception classes the handlers of the source tell apart.
    [RateLimitError] and [AuthenticationError] are subclasses of [APIError];
    all of them are subclasses of [Exception]. *)
Inductive exn : Type :=
  | RateLimitError (msg : text)
  | AuthenticationError (msg : text)
  | APIError (msg : text)
  | ZeroDivisionError
  | HTTPException (status : Z) (detail : text)
  | OtherException (msg : text).

(** [str(e)] *)
Definition exn_str (e : exn) : text :=
  match e with
  | RateLimitError m | AuthenticationError m | APIError m | OtherException m => m
  | ZeroDivisionError => str "float division by zero"
  | HTTPException s d => Py.str_of_Z s ++ str ": " ++ d
  end.

Inductive res (A : Type) : Type :=
  | Ret (a : A)
  | Raise (e : exn).
Arguments Ret {A} a.
Arguments Raise {A} e.

Module Res.
Definition bind {A B} (m : res A) (k : A -> res B) : res B :=
  match m with
  | Ret a => k a
  | Raise e => Raise e
  end.

(** [try: m  except Exception as e: h e] *)
Definition try_except {A} (m : res A) (h : exn -> res A) : res A :=
  match m with
  | Ret a => Ret a
  | Raise e => h e
  end.

Fixpoint mapM {A B} (f : A -> res B) (l : list A) : res (list B) :=
  match l with
  | [] => Ret []
  | a :: l' =>
      bind (f a) (fun b => bind (mapM f l') (fun bs => Ret (b :: bs)))
  end.
End Res.

(** The notation [x ← m; k] of stdpp is the sequencing of [res]. *)
#[global] Instance res_ret : MRet res := @Ret.
#[global] Instance res_bind : MBind res := fun A B k m => Res.bind m k.

(** ** [services/query_utils.py] *)

Module QueryUtils.

(** One entry of [COMMON_FIXES].  Each pattern of the table has the shape
    [\bW\b] where [W] matches word characters only, so a match is a whole
    maximal run of word characters; [alternatives] lists the strings [W]
    matches, in lower case (the substitution is called with
    [re.IGNORECASE]). *)
Record common_fix := { alternatives : list text; replacement : text }.

Definition COMMON_FIXES : list common_fix :=
  [ (* r"\bintenship\b": "internship" *)
    {| alternatives := [str "intenship"]; replacement := str "internship" |};
    (* r"\bintership\b": "internship" *)
    {| alternatives := [str "intership"]; replacement := str "internship" |};
    (* r"\bproj(?:ect)?s?\b": "project" *)
    {| alternatives := [str "proj"; str "projs"; str "project"; str "projects"];
       replacement := str "project" |} ].

(** What the substitution does to one whole word. *)
Definition fix_word (fx : common_fix) (w : text) : text :=
  if bool_decide (Py.lower w ∈ alternatives fx) then replacement fx else w.

(** Left-to-right scan of [re.sub]: [acc] is the run of word characters
    read since the last word boundary; at the end of the run the word is
    replaced by [f]. *)
Fixpoint scan (f : text -> text) (acc : text) (s : text) : text :=
  match s with
  | [] => f acc
  | c :: s' =>
      if Py.is_word_char c then scan f (acc ++ [c]) s'
      else f acc ++ c :: scan f [] s'
  end.

(** [re.sub(pat, repl, q, flags=re.IGNORECASE)] *)
Definition re_sub (fx : common_fix) (q : text) : text := scan (fix_word fx) [] q.

(** [normalize_query(q)]; [None] is the falsy argument of [q or ""]. *)
Definition normalize_query_opt (q : option text) : text :=
  let q := Py.strip (default [] q) in
  fold_left (fun q fx => re_sub fx q) COMMON_FIXES q.

Definition normalize_query (q : text) : text := normalize_query_opt (Some q).

End QueryUtils.

(** ** Python numbers and sorting *)

Module PyNum.
Local Open Scope Q_scope.

Definition Qltb (a b : Q) : bool := negb (Qle_bool b a).

(** [a / b] on floats: raises [ZeroDivisionError] when [b] is zero. *)
Definition div (a b : Q) : res Q :=
  if Qeq_bool b 0 then Raise ZeroDivisionError else Ret (a / b).

(** Rounding to the nearest integer, ties to even, as float formatting
    rounds. *)
Definition round_half_even (q : Q) : Z :=
  let n := Qnum q in
  let d := Zpos (Qden q) in
  let fl := (n / d)%Z in
  let rm := (n mod d)%Z in
  if (d <? 2 * rm)%Z then (fl + 1)%Z
  else if (2 * rm =? d)%Z then (if Z.even fl then fl else (fl + 1)%Z)
  else fl.

(** [f"{q:.2f}"] *)
Definition format_2f (q : Q) : text :=
  let r := round_half_even (Qabs q * 100) in
  let frac := (r mod 100)%Z in
  (if Qltb q 0 then str "-" else []) ++
  Py.str_of_Z (r / 100) ++ str "." ++
  (if (frac <? 10)%Z then str "0" else []) ++ Py.str_of_Z frac.
End PyNum.

Module PySort.
Section Sorted.
Context {A : Type} (key : A -> Q).

(** [x] stood before every element of [l] in the input: it is placed
    before the first element whose key is not greater than its own. *)
Fixpoint insert_desc (x : A) (l : list A) : list A :=
  match l with
  | [] => [x]
  | y :: l' =>
      if PyNum.Qltb (key x) (key y) then y :: insert_desc x l'
      else x :: y :: l'
  end.

(** [sorted(l, key=key, reverse=True)] and [l.sort(key=key,
    reverse=True)]: Python's sort is stable, also with [reverse=True];
    it is embedded as the stable insertion sort. *)
Definition sorted_desc (l : list A) : list A := foldr insert_desc [] l.
End Sorted.
End PySort.

(** ** Dictionaries of search results *)

(** The value a dictionary has at a key: the key may be absent, or hold
    [None]. *)
Inductive field (A : Type) : Type :=
  | Absent
  | PyNone
  | Py (a : A).
Arguments Absent {A}.
Arguments PyNone {A}.
Arguments Py {A} a.

(** [meta.get(k)] put under a key of a new dictionary. *)
Definition of_option {A} (o : option A) : field A :=
  match o with Some a => Py a | None => PyNone end.

(** One search result, the dictionary both retrieval paths build. *)
Record SearchResult := {
  sr_text : text;
  sr_document_id : field text;
  sr_page_number : field Z;
  sr_score : Q;
  sr_filename : field text;
  sr_chunk_id : field Z;
  sr_section : field text;
  sr_id : field text
}.

(** ** [services/cache_service.py] *)

Module CacheService.
Section WithPayload.
(** [R] is the type of cached search results, [C] of cached chat
    responses. *)
Context {R C : Type}.

(** The dictionary [cache_data] of [_generate_cache_key]. *)
Record cache_data := {
  cd_query : text;
  cd_document_id : option text;
  cd_top_k : Z
}.

(** [hashlib.md5(json.dumps(cache_data, sort_keys=True).encode()).hexdigest()] *)
Variable md5_json : cache_data -> string.

(** An entry of [self.cache]; a payload key that the entry does not have
    is [None]. *)
Record entry := {
  e_results : option R;
  e_chat_response : option C;
  e_timestamp : Q;
  e_query : text;
  e_document_id : option text;
  e_top_k : Z
}.

(** The service object: [self.cache], [self.cache_ttl] (from
    [settings.CACHE_TTL]) and [self.enabled] (from
    [settings.ENABLE_CACHING]). *)
Record t := {
  cache : gmap string entry;
  cache_ttl : Q;
  enabled : bool
}.

Definition with_cache (self : t) (m : gmap string entry) : t :=
  {| cache := m; cache_ttl := cache_ttl self; enabled := enabled self |}.

Definition _generate_cache_key (query : text) (document_id : option text)
    (top_k : Z) : string :=
  md5_json {| cd_query := Py.strip (Py.lower query);
              cd_document_id := document_id;
              cd_top_k := top_k |}.

(** [_is_expired]; [now] is the reading of [time.time()].  An entry of
    the cache always has keys, so it is never falsy. *)
Definition _is_expired (self : t) (now : Q) (cache_entry : entry) : bool :=
  PyNum.Qltb (cache_ttl self) (now - e_timestamp cache_entry).

Definition get_search_results (self : t) (now : Q) (query : text)
    (document_id : option text) (top_k : Z) : option R * t :=
  if negb (enabled self) then (None, self)
  else
    let cache_key := _generate_cache_key query document_id top_k in
    match cache self !! cache_key with
    | Some cache_entry =>
        if negb (_is_expired self now cache_entry)
        then (e_results cache_entry, self)
        else (None, with_cache self (delete cache_key (cache self)))
    | None => (None, self)
    end.

Definition set_search_results (self : t) (now : Q) (query : text)
    (document_id : option text) (top_k : Z) (results : R) : t :=
  if negb (enabled self) then self
  else
    let cache_key := _generate_cache_key query document_id top_k in
    with_cache self
      (<[cache_key := {| e_results := Some results;
                         e_chat_response := None;
                         e_timestamp := now;
                         e_query := query;
                         e_document_id := document_id;
                         e_top_k := top_k |}]> (cache self)).

Definition get_chat_response (self : t) (now : Q) (query : text)
    (document_id : option text) (top_k : Z) : option C * t :=
  if negb (enabled self) then (None, self)
  else
    let cache_key := _generate_cache_key query document_id top_k in
    match cache self !! cache_key with
    | Some cache_entry =>
        if negb (_is_expired self now cache_entry)
        then (e_chat_response cache_entry, self)
        else (None, with_cache self (delete cache_key (cache self)))
    | None => (None, self)
    end.

Definition set_chat_response (self : t) (now : Q) (query : text)
    (document_id : option text) (top_k : Z) (response : C) : t :=
  if negb (enabled self) then self
  else
    let cache_key := _generate_cache_key query document_id top_k in
    with_cache self
      (<[cache_key := {| e_results := None;
                         e_chat_response := Some response;
                         e_timestamp := now;
                         e_query := query;
                         e_document_id := document_id;
                         e_top_k := top_k |}]> (cache self)).

Definition clear_cache (self : t) : t := with_cache self ∅.

End WithPayload.
Arguments entry : clear implicits.
Arguments t : clear implicits.
End CacheService.
(** ** [services/lc_vector_store.py] *)

Module LcVectorStore.
Local Open Scope Q_scope.

(** The metadata of a LangChain document, read with [meta.get(k)]: an
    absent key reads as [None]. *)
Record Metadata := {
  md_document_id : option text;
  md_page_number : option Z;
  md_filename : option text;
  md_chunk_id : option Z;
  md_section : option text
}.

Record Document := {
  page_content : text;
  metadata : Metadata
}.

(** The score the vector store pairs a document with: an [int] or a
    [float], or a value of another type. *)
Inductive RawScore : Type :=
  | Numeric (score : Q)
  | NotNumeric.

(** The collaborators behind [LangChainVectorStoreService]: building the
    store ([get_vector_store]), [vs.similarity_search_with_score] and the
    retriever of [similarity_search]; each may raise.  The filter is the
    document id of [{"document_id": document_id}]. *)
Record Store := {
  get_vector_store : res unit;
  similarity_search_with_score :
    text -> Z -> option text -> res (list (Document * RawScore));
  retriever_invoke : text -> Z -> option text -> res (list Document)
}.

(** The body of the loop over [results]: the similarity of one raw
    score. *)
Definition normalize_score (score : RawScore) : res Q :=
  sim ← match score with
        | Numeric score =>
            if Qle_bool 0 score && Qle_bool score 1 then Ret score
            else PyNum.div 1 (1 + score)
        | NotNumeric => Ret 0
        end;
  (* clamp *)
  let sim := if PyNum.Qltb sim 0 then 0 else sim in
  let sim := if PyNum.Qltb 1 sim then 1 else sim in
  Ret sim.

Definition similarity_search (st : Store) (query : text) (k : Z)
    (metadata_filter : option text) : res (list Document) :=
  _ ← get_vector_store st;
  retriever_invoke st query k metadata_filter.

(** [for idx, doc in enumerate(docs): sim = 1.0 - (idx / total)] *)
Fixpoint rank_from (idx : Z) (total : Z) (docs : list Document)
    : res (list (Document * Q)) :=
  match docs with
  | [] => Ret []
  | doc :: docs' =>
      q ← PyNum.div (inject_Z idx) (inject_Z total);
      ranked ← rank_from (idx + 1) total docs';
      Ret ((doc, 1 - q) :: ranked)
  end.

(** [similarity_search_with_similarity]: the list of
    [{"doc": doc, "similarity": sim}]. *)
Definition similarity_search_with_similarity (st : Store) (query : text)
    (k : Z) (metadata_filter : option text) : res (list (Document * Q)) :=
  _ ← get_vector_store st;
  native ← Res.try_except
    (results ← similarity_search_with_score st query k metadata_filter;
     normalized ← Res.mapM
       (fun '(doc, score) => sim ← normalize_score score; Ret (doc, sim))
       results;
     match normalized with
     | [] => Ret None
     | _ :: _ => Ret (Some normalized)
     end)
    (fun _ => Ret None);
  match native with
  | Some normalized => Ret normalized
  | None =>
      (* Fallback: use retriever rank to synthesize similarity *)
      docs ← similarity_search st query k metadata_filter;
      let total := Z.max 1 (Py.len docs) in
      rank_from 0 total docs
  end.

End LcVectorStore.

(** ** [services/document_service.py] *)

Module DocumentService.
Import LcVectorStore.
Local Open Scope Q_scope.

(** A document of the [document_chunks] collection and one of the
    [documents] collection, with the fields the aggregation reads. *)
Record Chunk := {
  c_id : text;
  c_text : text;
  c_document_id : text;
  c_page_number : option Z;
  c_chunk_id : Z
}.

Record Upload := {
  u_document_id : text;
  u_filename : text
}.

(** The database behind [self.chunks_collection]: reading a collection
    may raise; [regex_compile] is the server's regular expression engine
    with option [i] (a pattern that does not compile fails the query). *)
Record Database := {
  document_chunks : res (list Chunk);
  documents : res (list Upload);
  regex_compile : text -> res (text -> bool)
}.

(** [if document_id] / [document_id if document_id else None] *)
Definition truthy_id (document_id : option text) : option text :=
  match document_id with
  | Some ((_ :: _) as d) => Some d
  | _ => None
  end.

(** The stages [$lookup], [$addFields] and [$project] on one matched
    chunk: [score] is the constant 0.8, [filename] is the one of the first
    upload with the chunk's [document_id], absent when there is none. *)
Definition fallback_score : Q := 0.8.

Definition project_chunk (uploads : list Upload) (c : Chunk) : SearchResult :=
  let document :=
    filter (fun u => u_document_id u = c_document_id c) uploads in
  {| sr_text := c_text c;
     sr_document_id := Py (c_document_id c);
     sr_page_number := of_option (c_page_number c);
     sr_score := fallback_score;
     sr_filename := match document with
                    | u :: _ => Py (u_filename u)
                    | [] => Absent
                    end;
     sr_chunk_id := Py (c_chunk_id c);
     sr_section := Absent;
     sr_id := Py (c_id c) |}.

(** [self.chunks_collection.aggregate(pipeline).to_list(length=top_k)]
    with the pipeline of [_fallback_text_search]: [$match] on
    [{"$or": search_filters}], restricted to [document_id] when given,
    then the three stages above, [{"$limit": top_k * 2}] (which the server
    refuses unless positive) and the first [top_k] of the cursor. *)
Definition aggregate (db : Database) (search_filters : list text)
    (document_id : option text) (top_k : Z) : res (list SearchResult) :=
  chunks ← document_chunks db;
  uploads ← documents db;
  regexes ← Res.mapM (regex_compile db) search_filters;
  if (top_k * 2 <=? 0)%Z
  then Raise (OtherException (str "the limit must be positive"))
  else
    let matches (c : Chunk) : bool :=
      existsb (fun re => re (c_text c)) regexes &&
      match truthy_id document_id with
      | Some d => bool_decide (c_document_id c = d)
      | None => true
      end in
    let matched := List.filter matches chunks in
    let limited := take (Z.to_nat (top_k * 2)) matched in
    Ret (take (Z.to_nat top_k) (map (project_chunk uploads) limited)).

(** [s.replace(" ", "\\s+")] *)
Definition flexible_spaces (s : text) : text :=
  Py.replace_char " "%char (str "\s+") s.

(** The body of the [try] of [_fallback_text_search]. *)
Definition fallback_query (db : Database) (query : text)
    (document_id : option text) (top_k : Z) : res (list SearchResult) :=
  let query_words := Py.split (Py.lower query) in
  let search_patterns :=
    [flexible_spaces query; query] ++ query_words ++
    (if (1 <? Py.len query_words)%Z
     then [Py.join [] query_words;
           Py.join (str "-") query_words;
           Py.join (str "_") query_words]
     else []) in
  let search_pattern :=
    Py.join (str "|")
      (List.filter (fun p => negb (bool_decide (p = []))) search_patterns) in
  let search_filters :=
    search_pattern ::
    (if (1 <? Py.len query_words)%Z then query_words else []) in
  aggregate db search_filters document_id top_k.

Definition _fallback_text_search (db : Database) (query : text)
    (document_id : option text) (top_k : Z) : res (list SearchResult) :=
  Res.try_except (fallback_query db query document_id top_k)
    (fun _ => Ret []).

(** The dictionary built from one [{"doc": doc, "similarity": sim}]. *)
Definition vector_result (item : Document * Q) : SearchResult :=
  let '(doc, sim) := item in
  let meta := metadata doc in
  {| sr_text := page_content doc;
     sr_document_id := of_option (md_document_id meta);
     sr_page_number := of_option (md_page_number meta);
     sr_score := sim;
     sr_filename := of_option (md_filename meta);
     sr_chunk_id := of_option (md_chunk_id meta);
     sr_section := of_option (md_section meta);
     sr_id := Absent |}.

(** [(r.get("section") or "")] *)
Definition or_empty (f : field text) : text :=
  match f with Py s => s | _ => [] end.

(** The nested function [bonus] of [search_documents]; [q] is the query in
    lower case. *)
Definition bonus (q : text) (r : SearchResult) : Q :=
  let s := Py.lower (or_empty (sr_section r)) in
  let text := Py.lower (sr_text r) in
  let b := 0 in
  let b :=
    if Py.contains (str "project") q then
      let b := if Py.contains (str "project") s || Py.contains (str "project") text
               then b + 0.2 else b in
      if Py.contains (str "internship") s || Py.contains (str "internship") text
      then b - 0.1 else b
    else b in
  if Py.contains (str "internship") q then
    let b := if Py.contains (str "internship") s || Py.contains (str "internship") text
             then b + 0.2 else b in
    if Py.contains (str "project") s || Py.contains (str "project") text
    then b - 0.1 else b
  else b.

(** [vector_results.sort(key=lambda r: (r["score"] + bonus(r)), reverse=True)] *)
Definition rerank (query : text) (vector_results : list SearchResult)
    : list SearchResult :=
  let q := Py.lower query in
  PySort.sorted_desc (fun r => sr_score r + bonus q r) vector_results.

(** The inner [try] of [search_documents]: [Some] is its [return]. *)
Definition vector_path (st : Store) (query : text)
    (document_id : option text) (top_k : Z)
    : res (option (list SearchResult)) :=
  let filter_query := truthy_id document_id in
  results ← similarity_search_with_similarity st query top_k filter_query;
  let vector_results := map vector_result results in
  match vector_results with
  | [] => Ret None
  | _ :: _ => Ret (Some (rerank query vector_results))
  end.

Definition search_documents (st : Store) (db : Database) (query : text)
    (document_id : option text) (top_k : Z) : res (list SearchResult) :=
  Res.try_except
    (found ← Res.try_except (vector_path st query document_id top_k)
               (fun _ => Ret None);
     match found with
     | Some vector_results => Ret vector_results
     | None =>
         (* Fallback to regex search *)
         _fallback_text_search db query document_id top_k
     end)
    (fun _ => Ret []).

End DocumentService.

(** ** The language model and the endpoint monad *)

(** One call of [openrouter_service.chat_completion]. *)
Record LlmCall := {
  messages : list (text * text);   (* role, content *)
  max_tokens : Z;
  temperature : Q
}.

(** The JSON object of a completion: [content] is
    [response['choices'][0]['message']['content']], [None] when that path
    does not exist; [usage] is [response.get('usage', {})]. *)
Record LlmResponse := {
  content : option text;
  usage : list (text * Z)
}.

(** The generative model, an external collaborator.  [chat_completion]
    turns every failure into an [APIError] or one of its two subclasses. *)
Definition Generator := LlmCall -> res LlmResponse.

(** A computation of an endpoint: it may raise, and it extends the log of
    the calls made to the generative model. *)
Definition Eff (A : Type) : Type := list LlmCall -> res A * list LlmCall.

Module Eff.
Definition ret {A} (a : A) : Eff A := fun log => (Ret a, log).

Definition bind {A B} (m : Eff A) (k : A -> Eff B) : Eff B :=
  fun log =>
    match m log with
    | (Ret a, log') => k a log'
    | (Raise e, log') => (Raise e, log')
    end.

Definition raise {A} (e : exn) : Eff A := fun log => (Raise e, log).

Definition lift {A} (m : res A) : Eff A := fun log => (m, log).

(** [try: m  except Exception as e: h e] *)
Definition try_except {A} (m : Eff A) (h : exn -> Eff A) : Eff A :=
  fun log =>
    match m log with
    | (Ret a, log') => (Ret a, log')
    | (Raise e, log') => h e log'
    end.

(** [await openrouter_service.chat_completion(...)] *)
Definition chat_completion (llm : Generator) (call : LlmCall)
    : Eff LlmResponse :=
  fun log => (llm call, log ++ [call]).

(** Running an endpoint on a fresh request: the result and the calls it
    made. *)
Definition run {A} (m : Eff A) : res A * list LlmCall := m [].
End Eff.

#[global] Instance eff_ret : MRet Eff := @Eff.ret.
#[global] Instance eff_bind : MBind Eff := fun A B k m => Eff.bind m k.

(** ** [utils/lang.py] *)

Module Lang.
Definition roman_hi : list text :=
  map str ["hai"; "kitna"; "kitni"; "kya"; "kyun"; "kaun"; "kahan"; "mein";
           "hain"; "tha"; "thi"; "hoga"; "hogaya"; "kripya"; "dhanyavad"]%string.

Definition roman_ta : list text :=
  map str ["irukku"; "ethana"; "evlo"; "enna"; "epdi"; "ungal"; "ungalukku";
           "nalla"; "velai"; "sapadu"]%string.

(** [detect_language_code]; the scan for Devanagari and Tamil code points
    finds none in a text of the embedding. *)
Definition detect_language_code (t : text) : text :=
  match t with
  | [] => str "en"
  | _ =>
      let t := Py.lower t in
      let t := Py.replace_char "?"%char (str " ") t in
      let t := Py.replace_char "!"%char (str " ") t in
      let t := Py.replace_char "."%char (str " ") t in
      let tokens := Py.split t in
      if existsb (fun w => bool_decide (w ∈ roman_hi)) tokens then str "hi"
      else if existsb (fun w => bool_decide (w ∈ roman_ta)) tokens then str "ta"
      else str "en"
  end.

Definition language_name (code : text) : text :=
  if bool_decide (code = str "hi") then str "Hindi"
  else if bool_decide (code = str "ta") then str "Tamil"
  else str "English".
End Lang.

Definition nl : text := [ascii_of_N 10].

(** [models/database.py]: the model [Citation]. *)
Record Citation := {
  source_id : text;
  title : text;
  cit_content : text;
  confidence : Q;
  cit_page_number : option Z;
  cit_course_id : text
}.

(** ** [services/vector_search.py] *)

Module VectorSearch.
Local Open Scope Q_scope.

Record CourseContent := {
  cc_id : text;
  cc_title : text;
  cc_content : text;
  cc_course_id : text;
  cc_page_number : option Z
}.

Record VectorSearchResult := {
  vsr_content : CourseContent;
  vsr_score : Q;
  vsr_distance : Q
}.

(** The collection behind [self.collection]: the [$vectorSearch]
    aggregation (documents with their [vectorSearchScore], already
    filtered by [min_score]) and the [$text] search (documents with their
    [textScore]); each may raise. *)
Record Collection := {
  vector_search : text -> Z -> option text -> res (list (CourseContent * Q));
  text_search : text -> Z -> option text -> res (list (CourseContent * Q))
}.

(** The score [fallback_text_search] gives a document whose [textScore]
    is [raw]. *)
Definition text_score (raw : Q) : Q :=
  if PyNum.Qltb 0 raw then 1 - (1 / (1 + raw)) else 0.

Definition fallback_text_search (coll : Collection) (query : text)
    (top_k : Z) (course_id : option text) : res (list VectorSearchResult) :=
  Res.try_except
    (docs ← text_search coll query top_k course_id;
     Ret (map (fun '(course_content, raw) =>
                 {| vsr_content := course_content;
                    vsr_score := text_score raw;
                    vsr_distance := 1 - text_score raw |}) docs))
    (fun _ => Ret []).

Definition search_similar_content (coll : Collection) (query : text)
    (top_k : Z) (course_id : option text) : res (list VectorSearchResult) :=
  Res.try_except
    (docs ← vector_search coll query top_k course_id;
     Ret (map (fun '(course_content, score) =>
                 {| vsr_content := course_content;
                    vsr_score := score;
                    vsr_distance := 1 - score |}) docs))
    (fun _ => fallback_text_search coll query top_k course_id).

(** The dictionary [search_and_generate_answer] returns ([latency_ms] and
    [answer_id] are a clock reading and a fresh identifier, left out). *)
Record Answer := {
  a_answer : text;
  a_citations : list Citation;
  a_usage : list (text * Z)
}.

Definition zero_usage : list (text * Z) :=
  [(str "prompt_tokens", 0%Z); (str "completion_tokens", 0%Z);
   (str "total_tokens", 0%Z)].

Definition no_results_answer : text :=
  str "I couldn't find relevant information to answer your question. Please try rephrasing or check if the course content is available.".

Definition error_answer : text :=
  str "I encountered an error while processing your question. Please try again.".

Definition system_prompt : text :=
  Py.join (nl ++ str "            ")
    (map str
      ["You are a helpful course assistant. Answer the user's question based on the provided course content.";
       "Requirements:";
       "- Use only the provided content; if insufficient, say so clearly.";
       "- Be accurate and concise; cite specific content when relevant.";
       "- IMPORTANT: Reply in the SAME LANGUAGE as the user's question (e.g., Hindi → Hindi, English → English)."]%string).

(** [search_and_generate_answer].  [chat_completion] returns the JSON
    object of the completion, a dictionary: reading its attribute
    [choices] raises, and the handler of the method answers with
    [error_answer]. *)
Definition search_and_generate_answer (coll : Collection) (llm : Generator)
    (settings_MAX_TOKENS : Z) (query : text) (top_k : Z)
    (course_id : option text) : Eff Answer :=
  Eff.try_except
    (search_results ← Eff.lift (search_similar_content coll query top_k course_id);
     match search_results with
     | [] =>
         mret {| a_answer := no_results_answer;
                 a_citations := [];
                 a_usage := zero_usage |}
     | _ :: _ =>
         let context_parts :=
           map (fun result =>
                  str "Title: " ++ cc_title (vsr_content result) ++ nl ++
                  str "Content: " ++ cc_content (vsr_content result))
               search_results in
         let context := Py.join (nl ++ nl) context_parts in
         let lang_name := Lang.language_name (Lang.detect_language_code query) in
         let user_prompt :=
           str "Based on the following course content, answer in " ++ lang_name ++
           str ". Question: " ++ query ++ nl ++ nl ++
           str "Course Content:" ++ nl ++ context in
         _ ← Eff.chat_completion llm
               {| messages := [(str "system", system_prompt);
                               (str "user", user_prompt)];
                  max_tokens := settings_MAX_TOKENS;
                  temperature := 0.7 |};
         Eff.raise (OtherException (str "'dict' object has no attribute 'choices'"))
     end)
    (fun _ =>
       mret {| a_answer := error_answer;
               a_citations := [];
               a_usage := zero_usage |}).

End VectorSearch.

(** ** [api/endpoints/document_chat.py] *)

Module DocumentChat.
Import LcVectorStore DocumentService.
Local Open Scope Q_scope.

(** [models/database.py]: [QueryRequest] and [QueryResponse]
    ([latency_ms] and [answer_id] are a clock reading and a fresh
    identifier, left out). *)
Record QueryRequest := {
  query : text;
  lang : option text;
  top_k : option Z;
  course_id : option text
}.

Record QueryResponse := {
  answer : text;
  citations : list Citation;
  resp_usage : list (text * Z)
}.

(** [core/config.py]: the settings the endpoint reads. *)
Record Settings := {
  RAG_MAX_CONTEXT_LENGTH : Z;
  MAX_TOKENS : Z
}.

(** The collaborators of the endpoint. *)
Record World := {
  store : Store;
  database : Database;
  llm : Generator;
  settings : Settings
}.

(** [request.top_k or 5] *)
Definition top_k_or_5 (request : QueryRequest) : Z :=
  match top_k request with
  | Some k => if (k =? 0)%Z then 5%Z else k
  | None => 5%Z
  end.

(** [l[:n]] *)
Definition slice_to {A} (n : Z) (l : list A) : list A :=
  if (0 <=? n)%Z then take (Z.to_nat n) l
  else take (Z.to_nat (Py.len l + n)) l.

(** "Convert common question patterns to more direct queries": the
    chain of [if] / [elif] on the normalized query. *)
Definition rewrite_query (query : text) : text :=
  let query_lower := Py.lower query in
  if Py.contains (str "what is the") query_lower
     && Py.contains (str "score") query_lower then
    if Py.contains (str "aws") query_lower then str "AWS score"
    else if Py.contains (str "cgpa") query_lower then str "CGPA"
    else if Py.contains (str "leetcode") query_lower then str "Leetcode rating"
    else query
  else if Py.contains (str "what is") query_lower
          && Py.contains (str "certificate") query_lower then str "certificates"
  else if Py.contains (str "what is") query_lower
          && Py.contains (str "linkedin") query_lower then str "LinkedIn"
  else if Py.contains (str "what is") query_lower
          && Py.contains (str "project") query_lower then str "projects"
  else query.

(** The query the endpoint searches and answers with. *)
Definition processed_query (request : QueryRequest) : text :=
  rewrite_query (QueryUtils.normalize_query (query request)).

Definition no_context_answer (query : text) : text :=
  str "I couldn't find any relevant information about '" ++ query ++
  str "' in the uploaded documents. Please try asking a different question or check if the relevant document has been uploaded correctly.".

Definition general_knowledge_answer (query : text) : text :=
  str "I couldn't find specific information about '" ++ query ++
  str "' in the uploaded documents. This appears to be a general knowledge question, but I can only answer based on the content in your uploaded documents.".

(** The nested function [_bonus]; [ql] is the query in lower case. *)
Definition _bonus (ql : text) (r : SearchResult) : Q :=
  let t := Py.lower (sr_text r) in
  let b := 0 in
  let b :=
    if Py.contains (str "project") ql then
      let b := if Py.contains (str "project") t then b + 0.2 else b in
      if Py.contains (str "internship") t then b - 0.1 else b
    else b in
  if Py.contains (str "internship") ql then
    let b := if Py.contains (str "internship") t then b + 0.2 else b in
    if Py.contains (str "project") t then b - 0.1 else b
  else b.

(** [sorted(relevant_results, key=lambda r: (r.get("score", 0.0) +
    _bonus(r)), reverse=True)] *)
Definition intent_rerank (query : text) (relevant_results : list SearchResult)
    : list SearchResult :=
  let ql := Py.lower query in
  PySort.sorted_desc (fun r => sr_score r + _bonus ql r) relevant_results.

Definition general_knowledge_indicators : list text :=
  map str ["what is"; "define"; "explain"; "how to cook"; "capital of";
           "general knowledge"; "common knowledge"; "everyone knows"]%string.

Definition is_general_knowledge_query (query : text) : bool :=
  let query_lower := Py.lower query in
  Py.any (fun indicator => Py.contains indicator query_lower)
         general_knowledge_indicators.

(** [any(word in document_content for word in request.query.lower().split())] *)
Definition query_word_in_documents (query : text)
    (relevant_results : list SearchResult) : bool :=
  let document_content :=
    Py.lower (Py.join (str " ") (map sr_text relevant_results)) in
  Py.any (fun word => Py.contains word document_content)
         (Py.split (Py.lower query)).

(** [result.get(key, default)] rendered in an f-string. *)
Definition get_str (f : field text) (default : text) : text :=
  match f with
  | Absent => default
  | PyNone => str "None"
  | Py s => s
  end.

Definition get_int_str (f : field Z) (default : text) : text :=
  match f with
  | Absent => default
  | PyNone => str "None"
  | Py z => Py.str_of_Z z
  end.

(** [f"Source {i} (from {filename}, page {page_number}, relevance:
    {score:.2f}):\n{text}"] *)
Definition source_text (i : Z) (result : SearchResult) : text :=
  str "Source " ++ Py.str_of_Z i ++
  str " (from " ++ get_str (sr_filename result) (str "Unknown Document") ++
  str ", page " ++ get_int_str (sr_page_number result) (str "Unknown Page") ++
  str ", relevance: " ++ PyNum.format_2f (sr_score result) ++
  str "):" ++ nl ++ sr_text result.

(** The loop that fills [context_parts]: [i] is the number of the next
    source and [total_length] the length accumulated so far; the loop
    breaks at the first source that would exceed the limit. *)
Fixpoint context_loop (limit : Z) (i : Z) (total_length : Z)
    (results : list SearchResult) : list text :=
  match results with
  | [] => []
  | result :: rest =>
      let source_text := source_text i result in
      if (limit <? total_length + Py.len source_text)%Z then []
      else source_text ::
           context_loop limit (i + 1) (total_length + Py.len source_text) rest
  end.

Definition context_parts (limit : Z) (relevant_results : list SearchResult)
    : list text :=
  context_loop limit 1 0 relevant_results.

(** [context = "\n\n".join(context_parts)] *)
Definition build_context (limit : Z) (relevant_results : list SearchResult)
    : text :=
  Py.join (nl ++ nl) (context_parts limit relevant_results).

Definition indent : text := str "                ".

Definition system_prompt : text :=
  Py.join (nl ++ indent)
    (map str
      ["You are a helpful document assistant. Answer questions based on the provided document content.";
       "";
       "Instructions:";
       "- Use only information from the provided document content";
       "- Extract and provide specific numbers, scores, ratings, and values when asked";
       "- Be helpful and direct in your responses";
       "- Look for key terms in the question and find related information in the content";
       "- If you cannot find the information, say so clearly";
       "- Don't be overly strict about exact question wording - focus on the intent";
       "- IMPORTANT: Reply in the SAME LANGUAGE as the user's question (e.g., Hindi → Hindi, English → English)."]%string).

Definition user_prompt (query : text) (context : text) : text :=
  Py.join (nl ++ indent)
    [str "Question (answer in " ++
       Lang.language_name (Lang.detect_language_code query) ++ str "): " ++ query;
     [];
     str "Answer this question using the information from the document content below. Look for specific numbers, scores, and values.";
     [];
     str "Document Content:";
     context].

Definition llm_call (w : World) (query context : text) : LlmCall :=
  {| messages := [(str "system", system_prompt);
                  (str "user", user_prompt query context)];
     max_tokens := MAX_TOKENS (settings w);
     temperature := 0.1 |}.

(** The block under [if response is None]: the context, the call of the
    generative model and its three handlers.  It yields the new values of
    [answer] and [response]. *)
Definition generate (w : World) (query : text)
    (relevant_results : list SearchResult)
    : Eff (text * option LlmResponse) :=
  let context :=
    build_context (RAG_MAX_CONTEXT_LENGTH (settings w)) relevant_results in
  Eff.try_except
    (response ← Eff.chat_completion (llm w) (llm_call w query context);
     match content response with
     | Some answer => mret (answer, Some response)
     | None => Eff.raise (OtherException (str "KeyError"))
     end)
    (fun e =>
       match e with
       | RateLimitError _ =>
           mret (str "I'm sorry, but I've reached my daily limit for free AI responses. " ++
                 exn_str e ++
                 str ". Please try again tomorrow or consider upgrading your API plan.",
                 None)
       | AuthenticationError _ =>
           mret (str "Authentication error: " ++ exn_str e ++
                 str ". Please check the API configuration.", None)
       | APIError _ =>
           mret (str "I'm experiencing technical difficulties: " ++ exn_str e ++
                 str ". Please try again later.", None)
       | _ => Eff.raise e
       end).

(** One citation; the model [Citation] refuses [None] for a string. *)
Definition citation (result : SearchResult) : res Citation :=
  let text := sr_text result in
  match sr_document_id result, sr_filename result with
  | PyNone, _ | _, PyNone => Raise (OtherException (str "validation error"))
  | document_id, filename =>
      Ret {| source_id := get_str document_id (str "unknown");
             title := get_str filename (str "Unknown Document");
             cit_content := if (200 <? Py.len text)%Z
                            then take 200 text ++ str "..." else text;
             confidence := sr_score result;
             cit_page_number := match sr_page_number result with
                                | Py n => Some n
                                | _ => None
                                end;
             cit_course_id := get_str document_id (str "unknown") |}
  end.

(** The body of the [try] of [document_chat_answer].  [relevant_results]
    is [None] while the local variable is not bound. *)
Definition answer_body (w : World) (request : QueryRequest) : Eff QueryResponse :=
  let query := processed_query request in
  search_results ← Eff.lift
    (search_documents (store w) (database w) query (course_id request)
                      (top_k_or_5 request));
  (* Initialize variables *)
  let answer : text := [] in
  let response : option LlmResponse := None in
  '(answer, response, relevant_results) ←
    match search_results with
    | [] =>
        (* No relevant content found - return immediately without using LLM *)
        mret (no_context_answer query, None, None)
    | _ :: _ =>
        let relevant_results := slice_to (top_k_or_5 request) search_results in
        let relevant_results := intent_rerank query relevant_results in
        let '(answer, response) :=
          if is_general_knowledge_query query then
            if negb (query_word_in_documents query relevant_results)
            then (general_knowledge_answer query, None)
            else (answer, response)
          else (answer, response) in
        '(answer, response) ←
          match response with
          | None => generate w query relevant_results
          | Some _ => mret (answer, response)
          end;
        mret (answer, response, Some relevant_results)
    end;
  (* Create citations from relevant search results only *)
  let results_to_cite :=
    match search_results with
    | [] => []
    | _ :: _ =>
        match relevant_results with
        | Some ((_ :: _) as r) => r
        | _ => search_results
        end
    end in
  citations ← Eff.lift (Res.mapM citation results_to_cite);
  mret {| answer := answer;
          citations := citations;
          resp_usage := match response with
                        | Some r => usage r
                        | None => []
                        end |}.

Definition document_chat_answer (w : World) (request : QueryRequest)
    : Eff QueryResponse :=
  Eff.try_except (answer_body w request)
    (fun e => Eff.raise (HTTPException 500
                (str "Error generating answer: " ++ exn_str e))).

End DocumentChat.

(** ** More of Python's strings and lists *)

Module PyMore.

(** [s.find(p)]: the least index at which [p] occurs in [s], [None] for
    Python's -1. *)
Fixpoint find (p s : text) : option nat :=
  if Py.startswith p s then Some 0%nat
  else match s with
       | [] => None
       | _ :: s' => S <$> find p s'
       end.

(** [s.find(p, start)] for a [start] that is not negative. *)
Definition find_from (p s : text) (start : nat) : option nat :=
  (fun i => (start + i)%nat) <$> find p (drop start s).

(** [s.endswith(p)] *)
Definition endswith (p s : text) : bool :=
  Py.startswith (reverse p) (reverse s).

(** [s[a:b]] for indices that are not negative. *)
Definition slice {A} (a b : nat) (l : list A) : list A :=
  take (b - a) (drop a l).

(** [s.strip(chars)] *)
Fixpoint lstrip_chars (chars : text) (s : text) : text :=
  match s with
  | [] => []
  | c :: s' => if bool_decide (c ∈ chars) then lstrip_chars chars s' else s
  end.

Definition strip_chars (chars : text) (s : text) : text :=
  reverse (lstrip_chars chars (reverse (lstrip_chars chars s))).

(** [s.split(sep)] for a one-character separator; [cur] is the part being
    read. *)
Fixpoint split_sep_go (sep : ascii) (cur : text) (s : text) : list text :=
  match s with
  | [] => [cur]
  | c :: s' =>
      if bool_decide (c = sep) then cur :: split_sep_go sep [] s'
      else split_sep_go sep (cur ++ [c]) s'
  end.

Definition split_sep (sep : ascii) (s : text) : list text :=
  split_sep_go sep [] s.

(** [[x] * n] for an integer [n]: empty when [n] is negative. *)
Definition times {A} (x : A) (n : Z) : list A := repeat x (Z.to_nat n).

(** A text is falsy when it is empty. *)
Definition truthy (s : text) : bool := negb (bool_decide (s = [])).

End PyMore.

(** ** [services/cache_service.py]: maintenance *)

Module CacheMaintenance.
Import CacheService.
Section WithPayload.
Context {R C : Type}.

(** [expired_keys] of [cleanup_expired]: the keys of the entries that are
    expired at the time [now]. *)
Definition expired_keys (self : t R C) (now : Q) : list string :=
  (List.filter (fun kv => _is_expired self now (snd kv))
               (map_to_list (cache self))).*1.

(** [cleanup_expired]: [for key in expired_keys: del self.cache[key]]. *)
Definition cleanup_expired (self : t R C) (now : Q) : t R C :=
  with_cache self
    (fold_left (fun m key => delete key m) (expired_keys self now) (cache self)).

(** The dictionary of [get_cache_stats]. *)
Record stats := {
  total_entries : Z;
  active_entries : Z;
  expired_entries : Z;
  cache_size_mb : Q;
  stats_enabled : bool;
  ttl_seconds : Q
}.

(** [len(json.dumps(self.cache))], which raises on a payload that JSON
    cannot hold. *)
Variable json_dumps_len : gmap string (entry R C) -> res Z.

Definition get_cache_stats (self : t R C) (now : Q) : res stats :=
  let total_entries := Py.len (map_to_list (cache self)) in
  let expired_entries :=
    Py.len (List.filter (fun kv => _is_expired self now (snd kv))
                        (map_to_list (cache self))) in
  let active_entries := (total_entries - expired_entries)%Z in
  size ← json_dumps_len (cache self);
  Ret {| total_entries := total_entries;
         active_entries := active_entries;
         expired_entries := expired_entries;
         cache_size_mb := (inject_Z size / inject_Z (1024 * 1024))%Q;
         stats_enabled := enabled self;
         ttl_seconds := cache_ttl self |}.

End WithPayload.
End CacheMaintenance.

(** ** [services/lc_vector_store.py]: [LocalSentenceTransformerEmbeddings] *)

Module LocalEmbeddings.

(** A vector of floats. *)
Definition vector := list Q.

(** [self.target_dim] as [__init__] sets it: the length of the probe
    embedding, or the configured dimension when the probe is empty or the
    model raises. *)
Definition init_target_dim (probe : res vector) (EMBEDDING_DIMENSION : Z) : Z :=
  match probe with
  | Ret v => if (Py.len v =? 0)%Z then EMBEDDING_DIMENSION else Py.len v
  | Raise _ => EMBEDDING_DIMENSION
  end.

(** [_normalize_dim] *)
Definition _normalize_dim (target_dim : Z) (vec : vector) : vector :=
  if (Py.len vec =? target_dim)%Z then vec
  else if (Py.len vec <? target_dim)%Z
       then vec ++ PyMore.times 0%Q (target_dim - Py.len vec)
       else DocumentChat.slice_to target_dim vec.

(** [embed_documents] and [embed_query]; [encode_many] and [encode] are
    the two uses of [self.model.encode], and a text that is [None] is
    embedded as the empty one. *)
Definition embed_documents (target_dim : Z)
    (encode_many : list text -> res (list vector))
    (texts : list (option text)) : res (list vector) :=
  let inputs := map (default []) texts in
  embeddings ← encode_many inputs;
  Ret (map (_normalize_dim target_dim) embeddings).

Definition embed_query (target_dim : Z) (encode : text -> res vector)
    (t : option text) : res vector :=
  vec ← encode (default [] t);
  Ret (_normalize_dim target_dim vec).

End LocalEmbeddings.

(** ** [services/embedding_service.py] *)

Module EmbeddingService.
Import LocalEmbeddings.

Definition dimension_map : list (string * Z) :=
  [ ("sentence-transformers/all-MiniLM-L6-v2", 384);
    ("sentence-transformers/paraphrase-multilingual-mpnet-base-v2", 768);
    ("sentence-transformers/paraphrase-multilingual-MiniLM-L12-v2", 384);
    ("sentence-transformers/LaBSE", 768);
    ("sentence-transformers/distiluse-base-multilingual-cased", 512) ]%Z%string.

(** [d.get(k, default)] on a dictionary given by its items. *)
Fixpoint dict_get {V} (d : list (string * V)) (k : string) (default : V) : V :=
  match d with
  | [] => default
  | (k', v) :: d' => if bool_decide (k' = k) then v else dict_get d' k default
  end.

(** [_get_embedding_dimension] *)
Definition _get_embedding_dimension (model_name : string) : Z :=
  dict_get dimension_map model_name 768%Z.

(** The service object: the name of its model and the model itself, which
    may fail to load and to encode. *)
Record t := {
  model_name : string;
  _load_model : res unit;
  encode : text -> res vector;
  encode_batch : list text -> res (list vector)
}.

Definition embedding_dimension (self : t) : Z :=
  _get_embedding_dimension (model_name self).

(** "Pad or truncate as needed" *)
Definition fit (self : t) (embedding_list : vector) : vector :=
  if negb (Py.len embedding_list =? embedding_dimension self)%Z then
    if (Py.len embedding_list <? embedding_dimension self)%Z
    then embedding_list ++
         PyMore.times 0%Q (embedding_dimension self - Py.len embedding_list)
    else DocumentChat.slice_to (embedding_dimension self) embedding_list
  else embedding_list.

Definition zero_vector (self : t) : vector :=
  PyMore.times 0%Q (embedding_dimension self).

(** [generate_embedding]; [None] is a missing text. *)
Definition generate_embedding (self : t) (t : option text) : res vector :=
  Res.try_except
    (_ ← _load_model self;
     match t with
     | Some t =>
         if negb (PyMore.truthy t) || negb (PyMore.truthy (Py.strip t))
         then Ret (zero_vector self)
         else
           let t := Py.strip t in
           embedding ← encode self t;
           Ret (fit self embedding)
     | None => Ret (zero_vector self)
     end)
    (fun _ => Ret (zero_vector self)).

(** [generate_embeddings_batch] *)
Definition generate_embeddings_batch (self : t) (texts : list (option text))
    : res (list vector) :=
  Res.try_except
    (_ ← _load_model self;
     match texts with
     | [] => Ret []
     | _ :: _ =>
         let cleaned_texts :=
           map (fun t => match t with
                         | Some ((_ :: _) as t) => Py.strip t
                         | _ => []
                         end) texts in
         embeddings ← encode_batch self cleaned_texts;
         Ret (map (fit self) embeddings)
     end)
    (fun _ => Ret (map (fun _ => zero_vector self) texts)).

(** [VectorSearchService.generate_embedding] of
    [services/vector_search.py], which wraps the call in a handler of its
    own. *)
Definition vector_search_generate_embedding (self : t) (t : text) : res vector :=
  Res.try_except (generate_embedding self (Some t))
    (fun _ => Ret (PyMore.times 0%Q (embedding_dimension self))).

End EmbeddingService.

(** ** [services/reranker_service.py] *)

Module Reranker.

(** The cross-encoder: loading it and scoring pairs may raise. *)
Record CrossEncoder := {
  _load : res unit;
  predict : list (text * text) -> res (list Q)
}.

(** [range(n)] as a list of indices. *)
Definition range (n : nat) : list nat := seq 0 n.

(** [indices.sort(key=lambda i: float(scores[i]), reverse=True)]: the keys
    are computed first, and [scores[i]] raises when the scorer returned
    fewer scores than passages. *)
Definition keyed (scores : list Q) (indices : list nat) : res (list (nat * Q)) :=
  Res.mapM (fun i => match scores !! i with
                     | Some s => Ret (i, s)
                     | None => Raise (OtherException (str "IndexError"))
                     end) indices.

(** [rerank]: the indices of the passages, by relevance descending. *)
Definition rerank (model : CrossEncoder) (query : text) (passages : list text)
    : res (list nat) :=
  match passages with
  | [] => Ret []
  | _ :: _ =>
      _ ← _load model;
      let pairs := map (fun p => (query, p)) passages in
      scores ← predict model pairs;
      let indices := range (length passages) in
      ks ← keyed scores indices;
      Ret (map fst (PySort.sorted_desc snd ks))
  end.

End Reranker.

(** ** [services/openrouter_service.py] *)

Module OpenRouter.

(** What the handlers read of the HTTP response: [json] is
    [response.json()] read as a completion, [error_message] is
    [response.json().get("error", {}).get("message")]; both raise on a body
    that is not the JSON they expect. *)
Record HttpResponse := {
  status_code : Z;
  body_text : text;
  json : res LlmResponse;
  error_message : res (option text)
}.

(** The outcome of [client.post]. *)
Inductive PostOutcome : Type :=
  | Responded (response : HttpResponse)
  | TimeoutException
  | RequestError (msg : text)
  | PostFailed (msg : text).

Definition Client := LlmCall -> PostOutcome.

(** [error_data.get("error", {}).get("message", default)] with
    [error_data = response.json() if response.text else {}] *)
Definition error_message_or (response : HttpResponse) (fallback : text)
    : res text :=
  if PyMore.truthy (body_text response)
  then m ← error_message response; Ret (default fallback m)
  else Ret fallback.

(** The body of the [try] of [chat_completion], after the post. *)
Definition on_response (response : HttpResponse) : res LlmResponse :=
  if (status_code response =? 200)%Z then json response
  else if (status_code response =? 429)%Z then
    m ← error_message_or response (str "Rate limit exceeded");
    Raise (RateLimitError (str "API rate limit exceeded. " ++ m))
  else if (status_code response =? 401)%Z then
    Raise (AuthenticationError
             (str "Invalid API key. Please check your OpenRouter configuration."))
  else if (status_code response =? 400)%Z then
    m ← error_message_or response (str "Bad request");
    Raise (APIError (str "Bad request: " ++ m))
  else
    Raise (APIError (str "OpenRouter API error: " ++
                     Py.str_of_Z (status_code response) ++ str " - " ++
                     body_text response)).

(** [chat_completion]: the handlers re-raise the three exceptions of the
    service and wrap every other one. *)
Definition chat_completion (client : Client) : Generator := fun call =>
  match client call with
  | TimeoutException => Raise (APIError (str "Request timed out. Please try again."))
  | RequestError m => Raise (APIError (str "Network error: " ++ m))
  | PostFailed m => Raise (APIError (str "Unexpected error: " ++ m))
  | Responded response =>
      Res.try_except (on_response response)
        (fun e =>
           match e with
           | RateLimitError _ | AuthenticationError _ | APIError _ => Raise e
           | _ => Raise (APIError (str "Unexpected error: " ++ exn_str e))
           end)
  end.

(** [min(max(64, len(text) // 2), settings.MAX_TOKENS)] *)
Definition translate_max_tokens (MAX_TOKENS : Z) (t : text) : Z :=
  Z.min (Z.max 64 (Py.len t / 2)) MAX_TOKENS.

Definition translate_call (MAX_TOKENS : Z) (t target_lang : text) : LlmCall :=
  {| messages :=
       [(str "system",
         str "You are a translation engine. Translate the user's text to the specified language. Only return the translated text, no explanations. Preserve meaning and tone.");
        (str "user",
         str "Target language: " ++ target_lang ++ nl ++ nl ++
         str "Text to translate:" ++ nl ++ t)];
     max_tokens := translate_max_tokens MAX_TOKENS t;
     temperature := 0.3%Q |}.

(** [translate_text]: any failure gives the text back. *)
Definition translate_text (llm : Generator) (MAX_TOKENS : Z)
    (t target_lang : text) : Eff text :=
  Eff.try_except
    (response ← Eff.chat_completion llm (translate_call MAX_TOKENS t target_lang);
     match content response with
     | Some translated => mret (Py.strip translated)
     | None => Eff.raise (OtherException (str "KeyError"))
     end)
    (fun _ => mret t).

End OpenRouter.

(** ** [api/endpoints/simple_chat.py] *)

Module SimpleChat.

(** The body of the request, a dictionary: its key [query], and its keys
    [text] and [target_lang] for the translation. *)
Record Request := {
  rq_query : option text;
  rq_text : option text;
  rq_target_lang : option text
}.

Record Response := {
  sc_answer : text;
  sc_model : text;
  sc_usage : list (string * Z);
  sc_cost : text
}.

(** [usage.get(k, 0)] on the usage of a completion. *)
Fixpoint usage_get (usage : list (text * Z)) (k : text) : Z :=
  match usage with
  | [] => 0%Z
  | (k', v) :: usage' => if bool_decide (k' = k) then v else usage_get usage' k
  end.

Definition system_message : text :=
  str "You are a helpful course assistant. Answer questions clearly and provide examples when helpful. IMPORTANT: Always reply in the SAME LANGUAGE as the user's message (e.g., Hindi → Hindi, Tamil → Tamil, English → English).".

Definition chat_call (MAX_TOKENS : Z) (query : text) : LlmCall :=
  {| messages := [(str "system", system_message); (str "user", query)];
     max_tokens := MAX_TOKENS;
     temperature := 0.7%Q |}.

(** The inner [try] of [simple_chat]: the answer and the usage. *)
Definition complete (llm : Generator) (MAX_TOKENS : Z) (query : text)
    : Eff (text * list (text * Z)) :=
  Eff.try_except
    (response ← Eff.chat_completion llm (chat_call MAX_TOKENS query);
     match content response with
     | Some answer => mret (answer, usage response)
     | None => Eff.raise (OtherException (str "KeyError"))
     end)
    (fun e =>
       match e with
       | RateLimitError _ =>
           mret (str "I'm sorry, but I've reached my daily limit for free AI responses. " ++
                 exn_str e ++
                 str ". Please try again tomorrow or consider upgrading your API plan.",
                 [])
       | AuthenticationError _ =>
           mret (str "Authentication error: " ++ exn_str e ++
                 str ". Please check the API configuration.", [])
       | APIError _ =>
           mret (str "I'm experiencing technical difficulties: " ++ exn_str e ++
                 str ". Please try again later.", [])
       | _ => Eff.raise e
       end).

(** [simple_chat] ([latency_ms] and [answer_id] are left out). *)
Definition simple_chat (llm : Generator) (MAX_TOKENS : Z)
    (OPENROUTER_MODEL : text) (request : Request) : Eff Response :=
  Eff.try_except
    (let query := default [] (rq_query request) in
     if negb (PyMore.truthy query)
     then Eff.raise (HTTPException 400 (str "Query is required"))
     else
       '(answer, usage) ← complete llm MAX_TOKENS query;
       mret {| sc_answer := answer;
               sc_model := OPENROUTER_MODEL;
               sc_usage :=
                 [("prompt_tokens", usage_get usage (str "prompt_tokens"));
                  ("completion_tokens", usage_get usage (str "completion_tokens"));
                  ("total_tokens", usage_get usage (str "total_tokens"))]%string;
               sc_cost := str "$0.00 (FREE with Llama 3.3 70B)" |})
    (fun e => Eff.raise (HTTPException 500
                (str "Error generating answer: " ++ exn_str e))).

(** [translate_text] of the endpoint: the translated text. *)
Definition translate_endpoint (llm : Generator) (MAX_TOKENS : Z)
    (request : Request) : Eff text :=
  Eff.try_except
    (let t := default [] (rq_text request) in
     let target_lang := default (str "en") (rq_target_lang request) in
     if negb (PyMore.truthy t)
     then Eff.raise (HTTPException 400 (str "text is required"))
     else OpenRouter.translate_text llm MAX_TOKENS t target_lang)
    (fun e => Eff.raise (HTTPException 500
                (str "Error translating text: " ++ exn_str e))).

End SimpleChat.

(** ** [services/vector_search.py]: [get_citations_from_results] *)

Module CitationSpans.
Import VectorSearch.

(** The span around the first occurrence of [word], which is at [start_pos]:
    fifty characters of context on either side, with an ellipsis where the
    content goes on. *)
Definition span_at (content : text) (word : text) (start_pos : nat) : text :=
  let start := (start_pos - 50)%nat in
  let end_ := Nat.min (length content) (start_pos + length word + 50) in
  let best_span := PyMore.slice start end_ content in
  let best_span := if (0 <? start)%nat then str "..." ++ best_span else best_span in
  if (end_ <? length content)%nat then best_span ++ str "..." else best_span.

(** The loop over the words of the query: the first word that occurs in
    the content decides the span. *)
Fixpoint first_match (content content_lower : text) (words : list text)
    : option text :=
  match words with
  | [] => None
  | word :: words' =>
      if Py.contains word content_lower then
        match PyMore.find word content_lower with
        | Some start_pos => Some (span_at content word start_pos)
        | None => first_match content content_lower words'
        end
      else first_match content content_lower words'
  end.

(** [best_span] for one content. *)
Definition best_span (content : text) (query : text) : text :=
  let words := Py.split (Py.lower query) in
  let content_lower := Py.lower content in
  let default_span :=
    if (200 <? length content)%nat then take 200 content ++ str "..."
    else content in
  default default_span (first_match content content_lower words).

(** [get_citations_from_results] *)
Definition get_citations_from_results (search_results : list VectorSearchResult)
    (query : text) : list Citation :=
  map (fun result =>
         let c := vsr_content result in
         {| source_id := cc_id c;
            title := cc_title c;
            cit_content := best_span (cc_content c) query;
            confidence := vsr_score result;
            cit_page_number := cc_page_number c;
            cit_course_id := cc_course_id c |})
      search_results.

End CitationSpans.

(** ** [services/document_service.py]: upload and deletion *)

Module Upload.

(** [_infer_section] *)
Definition _infer_section (t : text) : text :=
  let t := Py.lower t in
  if Py.contains (str "project") t then str "projects"
  else if Py.contains (str "internship") t || Py.contains (str "internships") t
       then str "internships"
  else if Py.contains (str "education") t then str "education"
  else if Py.contains (str "skill") t then str "skills"
  else if Py.contains (str "experience") t then str "experience"
  else str "other".

(** One element of [chunks]. *)
Record Piece := {
  chunk_id : nat;
  piece_text : text;
  start_pos : nat;
  end_pos : nat;
  char_count : nat
}.

(** The loop over [enumerate(pieces)]: [idx] is the index of the next
    piece and [cursor] the end of the last chunk. *)
Fixpoint locate (full_text : text) (idx cursor : nat) (pieces : list text)
    : list Piece :=
  match pieces with
  | [] => []
  | piece :: rest =>
      let piece := Py.strip piece in
      match piece with
      | [] => locate full_text (S idx) cursor rest
      | _ :: _ =>
          let start_pos :=
            default cursor (PyMore.find_from piece full_text cursor) in
          let end_pos := (start_pos + length piece)%nat in
          {| chunk_id := idx; piece_text := piece;
             start_pos := start_pos; end_pos := end_pos;
             char_count := length piece |}
          :: locate full_text (S idx) end_pos rest
      end
  end.

(** [chunks] for the pieces the splitter made of [full_text]. *)
Definition chunks_of (full_text : text) (pieces : list text) : list Piece :=
  locate full_text 0 0 pieces.

(** The metadata [upload_document] gives the vector store for one chunk. *)
Definition chunk_metadata (document_id filename : text) (c : Piece)
    : LcVectorStore.Metadata :=
  {| LcVectorStore.md_document_id := Some document_id;
     LcVectorStore.md_page_number := None;
     LcVectorStore.md_filename := Some filename;
     LcVectorStore.md_chunk_id := Some (Z.of_nat (chunk_id c));
     LcVectorStore.md_section := Some (_infer_section (piece_text c)) |}.

(** [page_number] of a chunk: the number of the first page whose text
    contains the chunk. *)
Fixpoint page_of (page_texts : list (Z * text)) (chunk_text : text) : option Z :=
  match page_texts with
  | [] => None
  | (page_number, t) :: rest =>
      if Py.contains chunk_text t then Some page_number
      else page_of rest chunk_text
  end.

End Upload.

Module Deletion.
Import DocumentService.

(** The two collections, each of which may be out of reach. *)
Record Mongo := {
  chunks : list Chunk;
  uploads : list Upload;
  chunks_up : bool;
  uploads_up : bool
}.

(** [delete_one]: the first document that matches is deleted. *)
Fixpoint delete_first (document_id : text) (l : list Upload)
    : list Upload * Z :=
  match l with
  | [] => ([], 0%Z)
  | u :: l' =>
      if bool_decide (u_document_id u = document_id) then (l', 1%Z)
      else let '(l'', n) := delete_first document_id l' in (u :: l'', n)
  end.

(** [delete_document]: the answer and the collections afterwards. *)
Definition delete_document (m : Mongo) (document_id : text) : bool * Mongo :=
  if negb (chunks_up m) then (false, m)
  else
    let m1 := {| chunks := List.filter
                   (fun c => negb (bool_decide (c_document_id c = document_id)))
                   (chunks m);
                 uploads := uploads m;
                 chunks_up := chunks_up m; uploads_up := uploads_up m |} in
    if negb (uploads_up m) then (false, m1)
    else
      let '(uploads', deleted_count) := delete_first document_id (uploads m) in
      ((0 <? deleted_count)%Z,
       {| chunks := chunks m1; uploads := uploads';
          chunks_up := chunks_up m; uploads_up := uploads_up m |}).

(** The collections as [_fallback_text_search] reads them. *)
Definition as_database (m : Mongo) (regex : text -> res (text -> bool))
    : Database :=
  {| document_chunks :=
       if chunks_up m then Ret (chunks m)
       else Raise (OtherException (str "AutoReconnect"));
     documents :=
       if uploads_up m then Ret (uploads m)
       else Raise (OtherException (str "AutoReconnect"));
     regex_compile := regex |}.

(** [delete_document] of [api/endpoints/documents.py]: the message, or the
    exception; the handler re-raises an [HTTPException]. *)
Definition delete_endpoint (m : Mongo) (document_id : text)
    : res text * Mongo :=
  let '(success, m') := delete_document m document_id in
  (Res.try_except
     (if success then Ret (str "Document deleted successfully")
      else Raise (HTTPException 404 (str "Document not found")))
     (fun e =>
        match e with
        | HTTPException _ _ => Raise e
        | _ => Raise (HTTPException 500
                        (str "Error deleting document: " ++ exn_str e))
        end),
   m').

End Deletion.

(** ** [services/pdf_processor.py] *)

Module PdfProcessor.

Definition max_file_size : Z := 10 * 1024 * 1024.
Definition allowed_extensions : list text := [str ".pdf"].

(** [validate_file]; the file is its name and its content. *)
Definition validate_file (filename : option text) (file_content : list Byte.byte)
    : res bool :=
  match filename with
  | None | Some [] => Raise (HTTPException 400 (str "No file provided"))
  | Some filename =>
      if negb (Py.any (fun ext => PyMore.endswith ext (Py.lower filename))
                      allowed_extensions)
      then Raise (HTTPException 400
                    (str "Only PDF files are allowed. Got: " ++ filename))
      else if (max_file_size <? Py.len file_content)%Z
      then Raise (HTTPException 400
                    (str "File too large. Maximum size: " ++
                     Py.str_of_Z (max_file_size / (1024 * 1024)) ++ str "MB"))
      else Ret true
  end.

(** One element of [page_texts]. *)
Record Page := {
  page_number : Z;
  page_text : text;
  page_char_count : Z
}.

(** The loop over [enumerate(pdf_reader.pages)]: a page is its
    [extract_text()], which may raise or give [None]. *)
Fixpoint read_pages (page_num : Z) (pages : list (res (option text)))
    (full_text : text) (page_texts : list Page) : text * list Page :=
  match pages with
  | [] => (full_text, page_texts)
  | page :: rest =>
      match page with
      | Ret t =>
          let t := default [] t in
          if PyMore.truthy (Py.strip t)
          then read_pages (page_num + 1) rest (full_text ++ t ++ nl ++ nl)
                 (page_texts ++
                  [{| page_number := page_num + 1;
                      page_text := Py.strip t;
                      page_char_count := Py.len (Py.strip t) |}])
          else read_pages (page_num + 1) rest full_text page_texts
      | Raise _ => read_pages (page_num + 1) rest full_text page_texts
      end
  end.

(** The other extractor: tried when the first found fewer than fifty
    characters; its failure is logged and nothing else. *)
Definition with_pdfminer (pdfminer : res (option text))
    (extracted : text * list Page) : text * list Page :=
  let '(full_text, page_texts) := extracted in
  if (Py.len (Py.strip full_text) <? 50)%Z then
    match pdfminer with
    | Ret t =>
        let pdfminer_text := default [] t in
        if PyMore.truthy (Py.strip pdfminer_text)
        then (pdfminer_text,
              [{| page_number := 1;
                  page_text := Py.strip pdfminer_text;
                  page_char_count := Py.len (Py.strip pdfminer_text) |}])
        else (full_text, page_texts)
    | Raise _ => (full_text, page_texts)
    end
  else (full_text, page_texts).

(** What [extract_text_from_pdf] returns ([document_id], [file_hash] and
    [uploaded_at] are a fresh identifier, a digest and a clock reading,
    left out). *)
Record Extracted := {
  filename : text;
  file_size : Z;
  total_pages : option Z;
  extracted_pages : Z;
  total_characters : Z;
  full_text : text;
  page_texts : list Page
}.

(** [extract_text_from_pdf]; [reader] is [PyPDF2.PdfReader(...)] with its
    pages, which raises on a file that is no PDF. *)
Definition extract_text_from_pdf (name : option text)
    (file_content : list Byte.byte)
    (reader : res (list (res (option text))))
    (pdfminer : res (option text)) : res Extracted :=
  Res.try_except
    (_ ← validate_file name file_content;
     pages ← reader;
     let '(text_read, pages_read) :=
       with_pdfminer pdfminer (read_pages 0 pages [] []) in
     Ret {| filename := default [] name;
            file_size := Py.len file_content;
            total_pages := if (Py.len pages =? 0)%Z then None
                           else Some (Py.len pages);
            extracted_pages := Py.len pages_read;
            total_characters := Py.len text_read;
            full_text := Py.strip text_read;
            page_texts := pages_read |})
    (fun e =>
       match e with
       | HTTPException _ _ => Raise e
       | _ => Raise (HTTPException 500
                       (str "Error processing PDF: " ++ exn_str e))
       end).

End PdfProcessor.

(** ** [core/config.py]: [get_cors_origins] *)

Module Config.

Definition _CORS_DEFAULT : list text :=
  [str "http://localhost:3000"; str "http://localhost:3001"].

(** The double quote. *)
Definition quote : ascii := ascii_of_N 34.

(** [[i.strip() for i in parts if i.strip()]] and the variant that also
    strips the quotes. *)
Definition stripped_parts (parts : list text) : list text :=
  List.filter PyMore.truthy (map Py.strip parts).

Definition unquoted_parts (parts : list text) : list text :=
  List.filter PyMore.truthy
    (map (fun i => PyMore.strip_chars [quote] (Py.strip i)) parts).

(** [get_cors_origins]; [value] is [self.CORS_ORIGINS], and [json_loads]
    is [json.loads] on a text that is bracketed: the string of each item
    when it parses to a list, [None] when it parses to something else. *)
Definition get_cors_origins (value : option text)
    (json_loads : text -> res (option (list text))) : list text :=
  match value with
  | None | Some [] => _CORS_DEFAULT
  | Some value =>
      let s := Py.strip value in
      match s with
      | [] => []
      | _ :: _ =>
          if Py.startswith (str "[") s && PyMore.endswith (str "]") s then
            match json_loads s with
            | Ret (Some parsed) => stripped_parts parsed
            | _ =>
                let inner := PyMore.strip_chars (str "[]") s in
                unquoted_parts (PyMore.split_sep ","%char inner)
            end
          else stripped_parts (PyMore.split_sep ","%char s)
      end
  end.

End Config.

(** ** [api/endpoints/chat.py] *)

Module ChatEndpoints.

Definition required_fields : list string := ["title"; "content"; "course_id"]%string.

(** The loop over [required_fields]. *)
Fixpoint check_required {V} (fields : list string) (content_data : gmap string V)
    : res unit :=
  match fields with
  | [] => Ret tt
  | field :: rest =>
      match content_data !! field with
      | None => Raise (HTTPException 400
                         (str "Missing required field: " ++ str field))
      | Some _ => check_required rest content_data
      end
  end.

(** [add_course_content]: [add] is
    [vector_search_service.add_course_content], which returns the
    identifier of the stored content or raises; the result is the
    [content_id] of the answer. *)
Definition add_course_content {V} (add : gmap string V -> res text)
    (content_data : gmap string V) : res text :=
  Res.try_except
    (_ ← check_required required_fields content_data;
     add content_data)
    (fun e => Raise (HTTPException 500
                (str "Error adding course content: " ++ exn_str e))).

(** The [content] of one result of [search_content]. *)
Definition preview (content : text) : text :=
  if (200 <? Py.len content)%Z then take 200 content ++ str "..." else content.

End ChatEndpoints.

(** * Specification vocabulary

    The predicates and functions the theorems below are stated with. *)

Module Spec.
Import LcVectorStore.
Local Open Scope Q_scope.

(** A text with no white space at either end. *)
Definition stripped (s : text) : Prop :=
  (forall c, head s = Some c -> Py.is_space c = false) /\
  (forall c, last s = Some c -> Py.is_space c = false).

(** A run of word characters. *)
Abbreviation is_word w := (Forall (fun c => Py.is_word_char c = true) w).

(** What the scan of [re.sub] needs of the function applied to the words:
    it keeps the empty word, and turns a word into a word that is not
    empty. *)
Record word_map (f : text -> text) : Prop := {
  wm_nil : f [] = [];
  wm_word : forall w, is_word w -> is_word (f w);
  wm_nonempty : forall w, w <> [] -> f w <> []
}.

(** The three substitutions of [COMMON_FIXES], applied to one word in the
    order of the table. *)
Definition all_fixes (w : text) : text :=
  fold_left (fun w fx => QueryUtils.fix_word fx w) QueryUtils.COMMON_FIXES w.


(** The normalization in the words of the specification: a score of
    [0,1] as it is, another one through [1 / (1 + score)], clamped. *)
Definition clamp (q : Q) : Q :=
  if PyNum.Qltb q 0 then 0 else if PyNum.Qltb 1 q then 1 else q.

Definition spec_similarity (score : Q) : Q :=
  if Qle_bool 0 score && Qle_bool score 1 then score
  else clamp (1 / (1 + score)).



(** [a] may stand before [b] in a list sorted by [key], descending: its key
    is not smaller. *)
Definition ge_key {A} (key : A -> Q) (a b : A) : Prop := key b <= key a.




(** The keyword queries the endpoint rewrites a question to. *)
Definition rewrite_targets : list text :=
  map str ["AWS score"; "CGPA"; "Leetcode rating"; "certificates";
           "LinkedIn"; "projects"]%string.

End Spec.

(** * Scenarios

    Small worlds (stores, databases, generators) and requests on which the
    embedding is run. *)

Module Scenario.
Import LcVectorStore DocumentService DocumentChat.
Local Open Scope Q_scope.

(** ** Caches *)

(** A stand-in for the hash of the key: the normalized query itself. *)
Definition demo_hash (d : CacheService.cache_data) : string :=
  string_of_list_ascii (CacheService.cd_query d).

(** A cache with a TTL of 300 seconds, and the same after a payload was
    stored at time 1000. *)
Definition demo_cache : CacheService.t (list nat) unit :=
  {| CacheService.cache := ∅;
     CacheService.cache_ttl := 300;
     CacheService.enabled := true |}.

Definition demo_cache_stored : CacheService.t (list nat) unit :=
  CacheService.set_search_results demo_hash demo_cache 1000
    (str "AWS score") None 5 [7%nat].

(** ** Vector stores *)

Definition meta0 : Metadata :=
  {| md_document_id := Some (str "doc-1"); md_page_number := None;
     md_filename := Some (str "cv.pdf"); md_chunk_id := Some 0%Z;
     md_section := None |}.

Definition d1 : Document :=
  {| page_content := str "AWS score: 87/100"; metadata := meta0 |}.

Definition d2 : Document :=
  {| page_content := str "CGPA 8.9"; metadata := meta0 |}.

Definition d_trees : Document :=
  {| page_content := str "Binary search trees keep their keys in order.";
     metadata := meta0 |}.

(** A store that scores two passages 0.5 and 2. *)
Definition store_distance : Store :=
  {| get_vector_store := Ret tt;
     similarity_search_with_score := fun _ _ _ =>
       Ret [(d1, Numeric 0.5); (d2, Numeric 2)];
     retriever_invoke := fun _ _ _ => Ret [d1; d2] |}.




(** A store that finds nothing. *)
Definition store_empty : Store :=
  {| get_vector_store := Ret tt;
     similarity_search_with_score := fun _ _ _ => Ret [];
     retriever_invoke := fun _ _ _ => Ret [] |}.

(** A store whose only passage is about search trees. *)
Definition store_trees : Store :=
  {| get_vector_store := Ret tt;
     similarity_search_with_score := fun _ _ _ => Ret [(d_trees, Numeric 0.4)];
     retriever_invoke := fun _ _ _ => Ret [d_trees] |}.

(** ** Databases *)

(** [s.split(sep)] for a one-character separator. *)
Fixpoint split_on (sep : ascii) (cur : text) (s : text) : list text :=
  match s with
  | [] => [cur]
  | c :: s' =>
      if bool_decide (c = sep) then cur :: split_on sep [] s'
      else split_on sep (cur ++ [c]) s'
  end.

(** A regular expression engine for patterns that are alternatives of
    literal words: the subject matches when it contains one of them,
    whatever the case. *)
Definition regex_literals (pattern : text) : res (text -> bool) :=
  Ret (fun subject =>
         existsb (fun alt => Py.contains (Py.lower alt) (Py.lower subject))
                 (split_on "|"%char [] pattern)).


(** A database that cannot be reached, and one with no document. *)
Definition db_down : Database :=
  {| document_chunks := Raise (OtherException (str "AutoReconnect"));
     documents := Raise (OtherException (str "AutoReconnect"));
     regex_compile := regex_literals |}.

Definition db_empty : Database :=
  {| document_chunks := Ret [];
     documents := Ret [];
     regex_compile := regex_literals |}.

Definition coll_empty : VectorSearch.Collection :=
  {| VectorSearch.vector_search := fun _ _ _ => Ret [];
     VectorSearch.text_search := fun _ _ _ => Ret [] |}.

(** ** Search results *)

Definition passage (t : text) (score : Q) : SearchResult :=
  {| sr_text := t; sr_document_id := Py (str "doc-1");
     sr_page_number := PyNone; sr_score := score;
     sr_filename := Py (str "cv.pdf"); sr_chunk_id := PyNone;
     sr_section := PyNone; sr_id := Absent |}.


(** A passage of 4000 characters: with its header the source block has
    4052 characters, more than the default budget of 4000. *)
Definition long_passage : SearchResult :=
  passage (repeat "a"%char 4000) 0.9.

Definition short_passage : SearchResult :=
  passage (str "AWS score: 87/100") 0.9.

(** ** Worlds and requests *)

Definition llm_recursion : Generator := fun _ =>
  Ret {| content := Some (str "Recursion is when a function calls itself.");
         usage := [(str "total_tokens", 42%Z)] |}.

(** [RAG_MAX_CONTEXT_LENGTH] has the default of [core/config.py]. *)
Definition default_settings : Settings :=
  {| RAG_MAX_CONTEXT_LENGTH := 4000; MAX_TOKENS := 500 |}.

(** A world with no document at all, and one whose only passage is about
    search trees. *)
Definition world_empty : World :=
  {| store := store_empty; database := db_empty;
     llm := llm_recursion; settings := default_settings |}.

Definition world_trees : World :=
  {| store := store_trees; database := db_empty;
     llm := llm_recursion; settings := default_settings |}.

Definition ask (q : string) : QueryRequest :=
  {| query := str q; lang := Some (str "en"); top_k := Some 5%Z;
     course_id := None |}.

End Scenario.

(** * Further vocabulary and scenarios *)

Module SpecMore.

(** The exceptions of [openrouter_service]: [APIError] and its two
    subclasses. *)
Definition is_api_error (e : exn) : bool :=
  match e with
  | RateLimitError _ | AuthenticationError _ | APIError _ => true
  | _ => false
  end.

(** An HTTP error with status 500. *)
Definition is_http_500 (e : exn) : Prop :=
  exists detail, e = HTTPException 500 detail.

(** The blocks [Source i ...] of a list of results, numbered from [i]. *)
Fixpoint numbered (i : Z) (results : list SearchResult) : list text :=
  match results with
  | [] => []
  | r :: rest => DocumentChat.source_text i r :: numbered (i + 1) rest
  end.

(** The sum of the lengths of the parts. *)
Definition total_length (parts : list text) : Z :=
  foldr (fun p n => (Py.len p + n)%Z) 0%Z parts.

(** A result pydantic accepts as a citation: neither its document id nor
    its file name is [None]. *)
Definition citable (r : SearchResult) : Prop :=
  sr_document_id r <> PyNone /\ sr_filename r <> PyNone.

(** What the endpoint cites: the ranked results, or all of them when the
    slice left none. *)
Definition cited (query : text) (k : Z) (search_results : list SearchResult)
    : list SearchResult :=
  match DocumentChat.intent_rerank query
          (DocumentChat.slice_to k search_results) with
  | (_ :: _) as ranked => ranked
  | [] => search_results
  end.

(** A result whose section is the one [upload_document] infers from its
    text. *)
Definition ingested (r : SearchResult) : Prop :=
  sr_section r = Py (Upload._infer_section (sr_text r)).

(** The result the vector path builds for a chunk that [upload_document]
    gave the vector store. *)
Definition result_of_chunk (document_id filename : text) (c : Upload.Piece)
    (sim : Q) : SearchResult :=
  DocumentService.vector_result
    ({| LcVectorStore.page_content := Upload.piece_text c;
        LcVectorStore.metadata := Upload.chunk_metadata document_id filename c |},
     sim).

End SpecMore.

Module ScenarioMore.
Import Scenario.
Local Open Scope Q_scope.

(** The stored cache of the scenarios, read with the switch off. *)
Definition demo_cache_off : CacheService.t (list nat) unit :=
  {| CacheService.cache := CacheService.cache demo_cache_stored;
     CacheService.cache_ttl := 300;
     CacheService.enabled := false |}.

(** The length of the JSON of the cache, for a cache that JSON can hold:
    a stand-in that counts two characters. *)
Definition two_chars : gmap string (CacheService.entry (list nat) unit) -> res Z :=
  fun _ => Ret 2%Z.

(** A generator that has reached its rate limit, and the world of the
    search trees with it. *)
Definition llm_limited : Generator := fun _ =>
  Raise (RateLimitError (str "API rate limit exceeded. Rate limit exceeded")).

Definition world_limited : DocumentChat.World :=
  {| DocumentChat.store := store_trees;
     DocumentChat.database := db_empty;
     DocumentChat.llm := llm_limited;
     DocumentChat.settings := default_settings |}.

End ScenarioMore.

(** * Verification *)

(** ** Facts about Python strings *)

Module PyFacts.
Import Py Spec.

Lemma word_char_not_space c : is_word_char c = true -> is_space c = false.
Proof.
  destruct c as [[] [] [] [] [] [] [] []]; vm_compute; congruence.
Qed.

Lemma lstrip_id s :
  (forall c, head s = Some c -> is_space c = false) -> lstrip s = s.
Proof.
  destruct s as [|c s]; simpl; [done|].
  intros H. by rewrite (H c eq_refl).
Qed.

Lemma rstrip_id s :
  (forall c, last s = Some c -> is_space c = false) -> rstrip s = s.
Proof.
  intros H. unfold rstrip. rewrite lstrip_id.
  - apply reverse_involutive.
  - intros c Hc. apply H. by rewrite <- head_reverse.
Qed.

Lemma head_lstrip s c : head (lstrip s) = Some c -> is_space c = false.
Proof.
  induction s as [|a s IH]; simpl; [done|].
  destruct (is_space a) eqn:Ha; [done|].
  simpl. by intros [= <-].
Qed.

Lemma last_lstrip s : lstrip s = [] \/ last (lstrip s) = last s.
Proof.
  induction s as [|a s IH]; simpl; [by left|].
  destruct (is_space a) eqn:Ha; [|by right].
  destruct IH as [IH|IH]; [by left|].
  destruct s as [|b s]; [by left|].
  right. by rewrite IH, last_cons_cons.
Qed.

Lemma last_rstrip s c : last (rstrip s) = Some c -> is_space c = false.
Proof.
  unfold rstrip. rewrite last_reverse. apply head_lstrip.
Qed.

Lemma head_rstrip s : rstrip s = [] \/ head (rstrip s) = head s.
Proof.
  unfold rstrip.
  destruct (last_lstrip (reverse s)) as [H|H].
  - left. by rewrite H.
  - right. by rewrite head_reverse, H, last_reverse.
Qed.

Lemma strip_stripped s : stripped (strip s).
Proof.
  unfold strip. split.
  - intros c Hc. destruct (head_rstrip (lstrip s)) as [H|H].
    + by rewrite H in Hc.
    + rewrite H in Hc. by apply head_lstrip in Hc.
  - apply last_rstrip.
Qed.

Lemma stripped_strip s : stripped s -> strip s = s.
Proof.
  intros [Hh Hl]. unfold strip. rewrite (lstrip_id s Hh). by apply rstrip_id.
Qed.

Lemma strip_nil : strip [] = [].
Proof. reflexivity. Qed.

End PyFacts.

(** ** [normalize_query] *)

Module QueryUtilsFacts.
Import Py PyFacts QueryUtils Spec.

Lemma scan_word_prefix f p acc s :
  is_word acc -> scan f p (acc ++ s) = scan f (p ++ acc) s.
Proof.
  intros Hacc. revert p.
  induction Hacc as [|a acc Ha _ IH]; intros p; simpl.
  - by rewrite app_nil_r.
  - rewrite Ha, IH. by rewrite <- app_assoc.
Qed.

Lemma scan_compose g h p s :
  (forall w, is_word w -> is_word (h w)) ->
  is_word p ->
  scan g [] (scan h p s) = scan (fun w => g (h w)) p s.
Proof.
  intros Hh. revert p.
  induction s as [|c s IH]; intros p Hp; simpl.
  - pose proof (scan_word_prefix g [] (h p) [] (Hh p Hp)) as H.
    by rewrite app_nil_r in H.
  - destruct (is_word_char c) eqn:Hc.
    + apply IH. apply Forall_app; auto.
    + rewrite scan_word_prefix by auto. simpl. rewrite Hc.
      by rewrite IH.
Qed.

Lemma scan_ext f g p s :
  (forall w, is_word w -> f w = g w) ->
  is_word p -> scan f p s = scan g p s.
Proof.
  intros Hfg. revert p.
  induction s as [|c s IH]; intros p Hp; simpl.
  - auto.
  - destruct (is_word_char c) eqn:Hc.
    + apply IH. apply Forall_app; auto.
    + rewrite (Hfg p Hp). f_equal. f_equal. by apply IH.
Qed.

Lemma scan_nil_inv f p s :
  word_map f -> scan f p s = [] -> p = [] /\ s = [].
Proof.
  intros Hf. revert p.
  induction s as [|c s IH]; intros p; simpl.
  - intros H. split; [|done].
    destruct p as [|a p]; [done|]. by apply (wm_nonempty f Hf) in H.
  - destruct (is_word_char c).
    + intros H. apply IH in H as [H _]. by destruct p.
    + intros H. by apply app_eq_nil in H as [_ H].
Qed.

Lemma scan_head f p s c :
  word_map f -> is_word p ->
  (forall a, head (p ++ s) = Some a -> is_space a = false) ->
  head (scan f p s) = Some c -> is_space c = false.
Proof.
  intros Hf. revert p.
  induction s as [|c0 s IH]; intros p Hp Hin; simpl.
  - intros Hc. apply word_char_not_space.
    apply (wm_word f Hf) in Hp.
    destruct (f p) as [|a r]; [done|]. simpl in Hc. injection Hc as <-.
    by apply Forall_cons in Hp as [? _].
  - destruct (is_word_char c0) eqn:Hc0.
    + apply IH.
      * apply Forall_app; auto.
      * intros a. rewrite <- app_assoc. apply Hin.
    + intros Hc. destruct p as [|a p].
      * rewrite (wm_nil f Hf) in Hc. simpl in Hc. injection Hc as <-.
        by apply Hin.
      * apply word_char_not_space.
        pose proof (wm_nonempty f Hf (a :: p)) as Hne.
        apply (wm_word f Hf) in Hp.
        destruct (f (a :: p)) as [|b r]; [by destruct Hne|].
        simpl in Hc. injection Hc as <-.
        by apply Forall_cons in Hp as [? _].
Qed.

Lemma scan_last f p s c :
  word_map f -> is_word p ->
  (forall a, last (p ++ s) = Some a -> is_space a = false) ->
  last (scan f p s) = Some c -> is_space c = false.
Proof.
  intros Hf. revert p.
  induction s as [|c0 s IH]; intros p Hp Hin; simpl.
  - intros Hc. apply word_char_not_space.
    apply (wm_word f Hf) in Hp.
    apply last_Some in Hc as [l' Hc]. rewrite Hc in Hp.
    apply Forall_app in Hp as [_ Hp]. by apply Forall_cons in Hp as [? _].
  - destruct (is_word_char c0) eqn:Hc0.
    + apply IH.
      * apply Forall_app; auto.
      * intros a. rewrite <- app_assoc. apply Hin.
    + rewrite last_app_cons, last_cons.
      destruct (last (scan f [] s)) as [y|] eqn:Hy.
      * intros [= <-]. apply (IH [] (Forall_nil_2 _)); [|done].
        intros a Ha. apply Hin. simpl in Ha.
        by rewrite last_app_cons, last_cons, Ha.
      * intros [= <-]. apply last_None in Hy.
        apply (scan_nil_inv f [] s Hf) in Hy as [_ ->].
        apply Hin. by rewrite last_snoc.
Qed.

Lemma scan_stripped f s :
  word_map f -> stripped s -> stripped (scan f [] s).
Proof.
  intros Hf [Hh Hl]. split; intros c.
  - by apply scan_head.
  - by apply scan_last.
Qed.

Lemma fix_word_word_map fx :
  replacement fx <> [] ->
  is_word (replacement fx) ->
  [] ∉ alternatives fx ->
  word_map (fix_word fx).
Proof.
  intros Hne Hw Hnil. unfold fix_word. split.
  - rewrite bool_decide_eq_false_2; done.
  - intros w Hword. by destruct (bool_decide _).
  - intros w Hw0. by destruct (bool_decide _).
Qed.

Lemma COMMON_FIXES_word_map :
  Forall (fun fx => word_map (fix_word fx)) COMMON_FIXES.
Proof.
  repeat apply Forall_cons_2; try apply Forall_nil_2;
    (apply fix_word_word_map;
     [ done
     | repeat apply Forall_cons_2; try apply Forall_nil_2; reflexivity
     | apply (bool_decide_eq_false_1 _); vm_compute; reflexivity ]).
Qed.

Lemma word_map_compose g h :
  word_map g -> word_map h -> word_map (fun w => g (h w)).
Proof.
  intros Hg Hh. split.
  - by rewrite (wm_nil _ Hh), (wm_nil _ Hg).
  - intros w Hw. by apply (wm_word _ Hg), (wm_word _ Hh).
  - intros w Hw. by apply (wm_nonempty _ Hg), (wm_nonempty _ Hh).
Qed.

Lemma fold_fix_word_map fxs :
  Forall (fun fx => word_map (fix_word fx)) fxs ->
  word_map (fun w => fold_left (fun w fx => fix_word fx w) fxs w).
Proof.
  induction 1 as [|fx fxs Hfx _ IH]; simpl.
  - by split.
  - by apply (word_map_compose _ (fix_word fx)).
Qed.

Lemma all_fixes_word_map : word_map all_fixes.
Proof. apply fold_fix_word_map, COMMON_FIXES_word_map. Qed.

Lemma all_fixes_idempotent w : all_fixes (all_fixes w) = all_fixes w.
Proof.
  unfold all_fixes, COMMON_FIXES. cbn [fold_left].
  unfold fix_word. cbn [alternatives replacement].
  destruct (bool_decide (lower w ∈ [str "intenship"])) eqn:H1;
    [reflexivity|].
  destruct (bool_decide (lower w ∈ [str "intership"])) eqn:H2;
    [reflexivity|].
  destruct (bool_decide
              (lower w ∈ [str "proj"; str "projs"; str "project";
                          str "projects"])) eqn:H3;
    [reflexivity|].
  by rewrite H1, H2, H3.
Qed.

Lemma scan_id p s : scan (fun w => w) p s = p ++ s.
Proof.
  revert p. induction s as [|c s IH]; intros p; simpl.
  - by rewrite app_nil_r.
  - destruct (is_word_char c).
    + by rewrite IH, <- app_assoc.
    + by rewrite IH.
Qed.

Lemma fold_re_sub fxs q :
  Forall (fun fx => word_map (fix_word fx)) fxs ->
  fold_left (fun q fx => re_sub fx q) fxs q =
  scan (fun w => fold_left (fun w fx => fix_word fx w) fxs w) [] q.
Proof.
  intros H. revert q. induction H as [|fx fxs Hfx _ IH]; intros q; simpl.
  - by rewrite scan_id.
  - rewrite IH. unfold re_sub.
    apply scan_compose; [apply (wm_word _ Hfx)|constructor].
Qed.

Lemma normalize_query_scan q :
  normalize_query q = scan all_fixes [] (strip q).
Proof. apply fold_re_sub, COMMON_FIXES_word_map. Qed.

(** The table at work: whole words only, whatever their case. *)
Example normalize_query_words :
  normalize_query (str "  What are my Projs and intenship? ") =
    str "What are my project and internship?" /\
  normalize_query (str "PROJECTS, projectile, my_proj, proj-s") =
    str "project, projectile, my_proj, project-s".
Proof. split; reflexivity. Qed.

(** C8.  The query normalizer is idempotent: normalizing a normalized
    query changes nothing.  It is a total function to strings, and the
    empty query (also the missing one) is normalized to the empty
    string. *)
Theorem normalize_query_idempotent :
  (forall x, normalize_query (normalize_query x) = normalize_query x) /\
  normalize_query [] = [] /\
  normalize_query_opt None = [].
Proof.
  split; [|split; reflexivity].
  intros x. rewrite !normalize_query_scan.
  rewrite (stripped_strip (scan all_fixes [] (strip x))).
  - rewrite scan_compose;
      [|apply (wm_word _ all_fixes_word_map)|constructor].
    apply scan_ext; [|constructor].
    intros w _. apply all_fixes_idempotent.
  - apply scan_stripped; [apply all_fixes_word_map|apply strip_stripped].
Qed.

End QueryUtilsFacts.

(** ** Comparisons of numbers *)

Module PyNumFacts.
Import PyNum.
Local Open Scope Q_scope.

Lemma Qltb_lt a b : Qltb a b = true <-> a < b.
Proof.
  unfold Qltb. rewrite negb_true_iff. split.
  - intros H. apply Qnot_le_lt. intros Hle.
    apply Qle_bool_iff in Hle. congruence.
  - intros H. destruct (Qle_bool b a) eqn:E; [|done].
    apply Qle_bool_iff in E. by apply Qlt_not_le in H.
Qed.

Lemma Qltb_ge a b : Qltb a b = false <-> b <= a.
Proof.
  unfold Qltb. rewrite negb_false_iff. apply Qle_bool_iff.
Qed.
End PyNumFacts.

(** ** The cache *)

Module CacheServiceFacts.
Import CacheService PyNumFacts Scenario.
Local Open Scope Q_scope.

Section WithPayload.
Context {R C : Type} (md5_json : cache_data -> string).

Abbreviation key_of := (_generate_cache_key md5_json).
Abbreviation get := (get_search_results (R:=R) (C:=C) md5_json).
Abbreviation put := (set_search_results (R:=R) (C:=C) md5_json).

Lemma put_lookup (self : t R C) now query document_id top_k results :
  enabled self = true ->
  exists e,
    cache (put self now query document_id top_k results)
      !! key_of query document_id top_k = Some e /\
    e_results e = Some results /\ e_timestamp e = now.
Proof.
  intros Hen. unfold set_search_results. rewrite Hen. simpl.
  eexists. rewrite lookup_insert_eq. eauto.
Qed.

Lemma get_fresh (self : t R C) now query document_id top_k e :
  enabled self = true ->
  cache self !! key_of query document_id top_k = Some e ->
  now - e_timestamp e <= cache_ttl self ->
  get self now query document_id top_k = (e_results e, self).
Proof.
  intros Hen He Hfresh. unfold get_search_results.
  rewrite Hen, He. simpl. unfold _is_expired.
  apply Qltb_ge in Hfresh. by rewrite Hfresh.
Qed.

Lemma get_expired (self : t R C) now query document_id top_k e :
  enabled self = true ->
  cache self !! key_of query document_id top_k = Some e ->
  cache_ttl self < now - e_timestamp e ->
  get self now query document_id top_k =
    (None, with_cache self
             (delete (key_of query document_id top_k) (cache self))).
Proof.
  intros Hen He Hold. unfold get_search_results.
  rewrite Hen, He. simpl. unfold _is_expired.
  apply Qltb_lt in Hold. by rewrite Hold.
Qed.

(** C9.  With caching enabled, for a key derived from a query, a scope and
    a result count: a put followed by a get with the same key, no later
    than the TTL after the put, returns the stored payload and leaves the
    store as it is, in particular a get at the very time of the put when
    the TTL is not negative; and a get on an entry whose age exceeds the
    TTL returns absent and deletes the entry from the store. *)
Theorem put_get_and_expiry (self : t R C) (query query' : text)
    (document_id document_id' : option text) (top_k top_k' : Z) :
  enabled self = true ->
  key_of query' document_id' top_k' = key_of query document_id top_k ->
  (forall t0 t1 results,
     t1 - t0 <= cache_ttl self ->
     let self1 := put self t0 query document_id top_k results in
     get self1 t1 query' document_id' top_k' = (Some results, self1)) /\
  (forall t0 results,
     0 <= cache_ttl self ->
     let self1 := put self t0 query document_id top_k results in
     get self1 t0 query' document_id' top_k' = (Some results, self1)) /\
  (forall now e,
     cache self !! key_of query document_id top_k = Some e ->
     cache_ttl self < now - e_timestamp e ->
     exists self2,
       get self now query' document_id' top_k' = (None, self2) /\
       cache self2 = delete (key_of query document_id top_k) (cache self) /\
       cache self2 !! key_of query document_id top_k = None).
Proof.
  intros Hen Hkey.
  assert (Hfresh : forall t0 t1 results,
    t1 - t0 <= cache_ttl self ->
    let self1 := put self t0 query document_id top_k results in
    get self1 t1 query' document_id' top_k' = (Some results, self1)).
  { intros t0 t1 results Hfresh self1.
    destruct (put_lookup self t0 query document_id top_k results Hen)
      as (e & He & Hres & Hts).
    fold self1 in He. rewrite <- Hkey in He.
    assert (Hen1 : enabled self1 = true).
    { unfold self1, set_search_results. by rewrite Hen. }
    assert (Httl : cache_ttl self1 = cache_ttl self).
    { unfold self1, set_search_results. by rewrite Hen. }
    rewrite (get_fresh self1 t1 query' document_id' top_k' e Hen1 He).
    - by rewrite Hres.
    - by rewrite Hts, Httl. }
  split; [exact Hfresh|split].
  - intros t0 results Httl. apply Hfresh. lra.
  - intros now e He Hold. rewrite <- Hkey in *. eexists. split; [|split].
    + by apply (get_expired self now query' document_id' top_k' e).
    + reflexivity.
    + simpl. apply lookup_delete_eq.
Qed.

End WithPayload.

(** A payload stored at time 1000 with a TTL of 300 under "AWS score" is
    returned at time 1200 to the query " aws SCORE", which has the same
    key, and evicted by the read at time 1400. *)
Lemma put_get_and_expiry_witness :
  get_search_results demo_hash demo_cache_stored 1200 (str " aws SCORE") None 5
    = (Some [7%nat], demo_cache_stored) /\
  exists self2,
    get_search_results demo_hash demo_cache_stored 1400 (str " aws SCORE") None 5
      = (None, self2) /\
    cache self2 !! _generate_cache_key demo_hash (str "AWS score") None 5 = None.
Proof.
  split.
  - apply (proj1 (put_get_and_expiry demo_hash demo_cache
                    (str "AWS score") (str " aws SCORE") None None 5 5
                    eq_refl eq_refl) 1000 1200 [7%nat]).
    vm_compute. discriminate.
  - destruct (put_lookup demo_hash demo_cache 1000 (str "AWS score") None 5
                [7%nat] eq_refl) as (e & He & _ & Hts).
    destruct (proj2 (proj2 (put_get_and_expiry demo_hash demo_cache_stored
                       (str "AWS score") (str " aws SCORE") None None 5 5
                       eq_refl eq_refl)) 1400 e He)
      as (self2 & Hget & _ & Hgone).
    + rewrite Hts. reflexivity.
    + exists self2. split; assumption.
Defined.

End CacheServiceFacts.

(** ** The similarity scale of the vector store *)

Module LcVectorStoreFacts.
Import LcVectorStore PyNum PyNumFacts Spec Scenario.
Local Open Scope Q_scope.











End LcVectorStoreFacts.

(** ** The stable descending sort *)

Module PySortFacts.
Import PySort PyNum PyNumFacts Spec.
Local Open Scope Q_scope.

Section Sorted.
Context {A : Type} (key : A -> Q).

Lemma insert_desc_perm x l : insert_desc key x l ≡ₚ x :: l.
Proof.
  induction l as [|y l IH]; simpl; [done|].
  destruct (Qltb (key x) (key y)); [|done].
  rewrite IH. apply Permutation_swap.
Qed.

Lemma sorted_desc_perm l : sorted_desc key l ≡ₚ l.
Proof.
  induction l as [|x l IH]; simpl; [done|].
  unfold sorted_desc in *. simpl. by rewrite insert_desc_perm, IH.
Qed.

Lemma insert_desc_HdRel a x l :
  ge_key key a x -> HdRel (ge_key key) a l -> HdRel (ge_key key) a (insert_desc key x l).
Proof.
  intros Hax Hal. destruct l as [|y l]; simpl.
  - by constructor.
  - destruct (Qltb (key x) (key y)).
    + constructor. by inversion Hal.
    + by constructor.
Qed.

Lemma insert_desc_sorted x l :
  Sorted (ge_key key) l -> Sorted (ge_key key) (insert_desc key x l).
Proof.
  induction 1 as [|y l Hs IH Hhd]; simpl.
  - repeat constructor.
  - destruct (Qltb (key x) (key y)) eqn:E.
    + constructor; [done|].
      apply insert_desc_HdRel; [|done].
      apply Qltb_lt in E. by apply Qlt_le_weak.
    + apply Qltb_ge in E. constructor.
      * by constructor.
      * by constructor.
Qed.

Lemma sorted_desc_sorted l : Sorted (ge_key key) (sorted_desc key l).
Proof.
  induction l as [|x l IH]; simpl; [constructor|].
  by apply insert_desc_sorted.
Qed.

Lemma Sorted_adjacent l : Sorted (ge_key key) l ->
  forall (i : nat) a b, l !! i = Some a -> l !! S i = Some b -> key b <= key a.
Proof.
  induction 1 as [|y l Hs IH Hhd]; intros i a b Ha Hb; [done|].
  destruct i as [|i]; simpl in *.
  - injection Ha as <-. destruct l as [|z l]; [done|].
    simpl in Hb. injection Hb as <-. by inversion Hhd.
  - by apply (IH i).
Qed.



End Sorted.
End PySortFacts.

(** ** Retrieval: [search_documents] and its fallback *)

Module DocumentServiceFacts.
Import LcVectorStore DocumentService PySortFacts LcVectorStoreFacts Spec Scenario.
Local Open Scope Q_scope.










End DocumentServiceFacts.

(** ** The intent-based re-sort *)

Module RankingFacts.
Import PySortFacts Spec Scenario.
Local Open Scope Q_scope.



End RankingFacts.

(** ** The endpoint [document_chat_answer] *)

Module DocumentChatFacts.
Import LcVectorStore DocumentService DocumentChat.
Import LcVectorStoreFacts DocumentServiceFacts Spec Scenario.
Local Open Scope Q_scope.

Ltac unfold_eff :=
  unfold Eff.run, Eff.try_except, Eff.lift, Eff.raise, Eff.chat_completion,
    mbind, mret, eff_bind, eff_ret, Eff.bind, Eff.ret in *.

(** C1.  When retrieval returns no candidate, the document-chat endpoint
    answers with the fixed no-context message about the processed query,
    with no citation, and its log of calls to the generative model is
    empty; so does [search_and_generate_answer] of the course pipeline,
    with its own fixed message. *)
Theorem no_context_no_generator :
  (forall (w : World) (request : QueryRequest),
     search_documents (store w) (database w) (processed_query request)
       (course_id request) (top_k_or_5 request) = Ret [] ->
     Eff.run (document_chat_answer w request) =
       (Ret {| answer := no_context_answer (processed_query request);
               citations := [];
               resp_usage := [] |}, [])) /\
  (forall coll (llm : Generator) max_tokens query top_k course_id,
     VectorSearch.search_similar_content coll query top_k course_id = Ret [] ->
     Eff.run (VectorSearch.search_and_generate_answer coll llm max_tokens
                query top_k course_id) =
       (Ret {| VectorSearch.a_answer := VectorSearch.no_results_answer;
               VectorSearch.a_citations := [];
               VectorSearch.a_usage := VectorSearch.zero_usage |}, [])).
Proof.
  split.
  - intros w request H.
    unfold document_chat_answer, answer_body. unfold_eff. by rewrite H.
  - intros coll llm max_tokens query top_k course_id H.
    unfold VectorSearch.search_and_generate_answer. unfold_eff.
    by rewrite H.
Qed.

(** In the world with no document, both pipelines answer "What is the
    AWS score?" with their fixed message and call no model. *)
Lemma no_context_no_generator_witness :
  Eff.run (document_chat_answer world_empty (ask "What is the AWS score?")) =
    (Ret {| answer := no_context_answer (str "AWS score");
            citations := [];
            resp_usage := [] |}, []) /\
  Eff.run (VectorSearch.search_and_generate_answer coll_empty llm_recursion
             500 (str "What is the AWS score?") 5 None) =
    (Ret {| VectorSearch.a_answer := VectorSearch.no_results_answer;
            VectorSearch.a_citations := [];
            VectorSearch.a_usage := VectorSearch.zero_usage |}, []).
Proof.
  destruct no_context_no_generator as [Hchat Hcourse]. split.
  - apply (Hchat world_empty (ask "What is the AWS score?")). reflexivity.
  - apply Hcourse. reflexivity.
Defined.

(** *** The general-knowledge short-circuit *)

(** Once retrieval has found something, the block under
    [if response is None] always runs: [response] is still [None] after
    the general-knowledge check, whatever the check found.  The endpoint
    then calls the generative model exactly once. *)
Lemma generator_called_once (w : World) (request : QueryRequest) r rs :
  search_documents (store w) (database w) (processed_query request)
    (course_id request) (top_k_or_5 request) = Ret (r :: rs) ->
  exists out call,
    Eff.run (document_chat_answer w request) = (out, [call]).
Proof.
  intros H. unfold document_chat_answer, answer_body. unfold_eff.
  rewrite H. cbn beta iota.
  set (ranked := intent_rerank _ _).
  assert (Hgen : exists out call,
    generate w (processed_query request) ranked [] = (out, [call])).
  { unfold generate. unfold_eff. simpl.
    destruct (llm w _) as [response|e].
    - destruct (content response); eauto.
    - destruct e; eauto. }
  destruct Hgen as (out & call & Hgen).
  assert (Hcases :
    (let '(answer, response) :=
       if is_general_knowledge_query (processed_query request)
       then if negb (query_word_in_documents (processed_query request) ranked)
            then (general_knowledge_answer (processed_query request), None)
            else ([], None)
       else ([], None : option LlmResponse) in
     response) = None).
  { destruct (is_general_knowledge_query _); [|done].
    by destruct (negb _). }
  destruct (if is_general_knowledge_query (processed_query request)
            then _ else _) as [answer0 response0].
  simpl in Hcases. subst response0. rewrite Hgen.
  destruct out as [[answer1 response1]|e]; [|eauto].
  destruct (Res.mapM citation _); eauto.
Qed.

(** C2, the code at the failing input.  The query "define recursion" has
    a general-knowledge phrasing and none of its words occurs in the one
    retrieved passage; still the endpoint calls the generative model and
    answers with the model's text, not with the general-knowledge
    message. *)
Theorem general_knowledge_query_reaches_generator :
  let request := ask "define recursion" in
  let q := processed_query request in
  is_general_knowledge_query q = true /\
  (exists r,
     search_documents store_trees db_empty q None 5 = Ret [r] /\
     query_word_in_documents q (intent_rerank q [r]) = false) /\
  (exists response call,
     Eff.run (document_chat_answer world_trees request)
       = (Ret response, [call]) /\
     answer response = str "Recursion is when a function calls itself." /\
     answer response <> general_knowledge_answer q).
Proof.
  split; [reflexivity|]. split.
  - eexists. split; reflexivity.
  - eexists. eexists. split; [vm_compute; reflexivity|].
    split; [reflexivity|]. vm_compute. discriminate.
Qed.

(** *** Context assembly *)

Lemma join_cons_nonempty sep p rest : p <> [] -> Py.join sep (p :: rest) <> [].
Proof.
  intros Hp. destruct rest as [|p' rest]; simpl; [done|].
  destruct p; [done|]. discriminate.
Qed.

Lemma source_text_nonempty i r : source_text i r <> [].
Proof. unfold source_text. discriminate. Qed.

(** C4, amended.  For a non-empty ranked candidate list, context assembly
    includes the first passage exactly when its serialized source block
    fits the character budget, and the assembled context is then not
    empty; when the first block alone exceeds the budget, no passage is
    included and the assembled context is the empty string. *)
Theorem first_passage_iff_it_fits (limit : Z) (r : SearchResult)
    (rest : list SearchResult) :
  ((Py.len (source_text 1 r) <= limit)%Z ->
     (exists parts,
        context_parts limit (r :: rest) = source_text 1 r :: parts) /\
     build_context limit (r :: rest) <> []) /\
  ((limit < Py.len (source_text 1 r))%Z ->
     context_parts limit (r :: rest) = [] /\
     build_context limit (r :: rest) = []).
Proof.
  unfold build_context, context_parts. simpl context_loop.
  split; intros H.
  - destruct (limit <? 0 + Py.len (source_text 1 r))%Z eqn:E; [lia|].
    split; [eauto|]. apply join_cons_nonempty, source_text_nonempty.
  - destruct (limit <? 0 + Py.len (source_text 1 r))%Z eqn:E; [done|lia].
Qed.

(** The short passage first: it is included.  The long passage first:
    nothing is. *)
Lemma first_passage_iff_it_fits_witness :
  (exists parts,
     context_parts 4000 [short_passage; long_passage]
       = source_text 1 short_passage :: parts) /\
  context_parts 4000 [long_passage; short_passage] = [].
Proof.
  split.
  - apply (proj1 (first_passage_iff_it_fits 4000 short_passage [long_passage])).
    vm_compute. discriminate.
  - apply (proj2 (first_passage_iff_it_fits 4000 long_passage [short_passage])).
    vm_compute. reflexivity.
Defined.

(** With the default budget, a first passage of 4000 characters leaves
    the context empty although there are two candidates. *)
Lemma long_first_passage_counterexample :
  Py.len (source_text 1 long_passage) = 4052%Z /\
  context_parts (RAG_MAX_CONTEXT_LENGTH default_settings)
    [long_passage; short_passage] = [] /\
  build_context (RAG_MAX_CONTEXT_LENGTH default_settings)
    [long_passage; short_passage] = [].
Proof. vm_compute. auto. Qed.

(** *** The rewriting of question patterns *)

(** C10, amended.  [q] is the normalized query and [has p] says that
    [p] occurs in it, whatever the case.  A query with "what is the" and
    "score" becomes "AWS score" when it has "aws", else "CGPA" when it has
    "cgpa", else "Leetcode rating" when it has "leetcode", and is left as
    it is otherwise.  A query without that pair but with "what is"
    becomes "certificates" when it has "certificate", else "LinkedIn"
    when it has "linkedin", else "projects" when it has "project".  The
    rewritten query is the query itself or one of the six keyword
    queries, and on each of these the general-knowledge check finds none
    of its indicators. *)
Theorem rewritten_query_is_not_general_knowledge (q : text) :
  let has (p : string) := Py.contains (str p) (Py.lower q) in
  let score_shape := has "what is the" && has "score" in
  (score_shape = true ->
     (has "aws" = true -> rewrite_query q = str "AWS score") /\
     (has "aws" = false -> has "cgpa" = true -> rewrite_query q = str "CGPA") /\
     (has "aws" = false -> has "cgpa" = false -> has "leetcode" = true ->
        rewrite_query q = str "Leetcode rating") /\
     (has "aws" = false -> has "cgpa" = false -> has "leetcode" = false ->
        rewrite_query q = q)) /\
  (score_shape = false -> has "what is" = true ->
     (has "certificate" = true -> rewrite_query q = str "certificates") /\
     (has "certificate" = false -> has "linkedin" = true ->
        rewrite_query q = str "LinkedIn") /\
     (has "certificate" = false -> has "linkedin" = false ->
        has "project" = true -> rewrite_query q = str "projects")) /\
  (rewrite_query q = q \/ rewrite_query q ∈ rewrite_targets) /\
  (rewrite_query q ∈ rewrite_targets ->
     is_general_knowledge_query (rewrite_query q) = false).
Proof.
  intros has score_shape.
  assert (Hgk : forall t, t ∈ rewrite_targets ->
                          is_general_knowledge_query t = false).
  { intros t Ht. unfold rewrite_targets in Ht. simpl in Ht.
    repeat (apply elem_of_cons in Ht as [->|Ht]; [reflexivity|]).
    by apply elem_of_nil in Ht. }
  split; [|split; [|split]].
  - intros Hs. unfold rewrite_query. fold (has "what is the") (has "score").
    fold score_shape. rewrite Hs.
    fold (has "aws") (has "cgpa") (has "leetcode").
    repeat split; intros; repeat match goal with H : has _ = _ |- _ => rewrite H; clear H end; reflexivity.
  - intros Hs Hw. unfold rewrite_query.
    fold (has "what is the") (has "score"). fold score_shape. rewrite Hs.
    fold (has "what is") (has "certificate") (has "linkedin") (has "project").
    rewrite Hw. simpl.
    repeat split; intros; repeat match goal with H : has _ = _ |- _ => rewrite H; clear H end; reflexivity.
  - unfold rewrite_query, rewrite_targets.
    repeat match goal with
           | |- context [if ?b then _ else _] => destruct b
           end;
      (by left) || (right; simpl; set_solver).
  - apply Hgk.
Qed.

(** "What is the AWS score?" becomes "AWS score", on which the check is
    silent. *)
Lemma rewritten_query_is_not_general_knowledge_witness :
  processed_query (ask "What is the AWS score?") = str "AWS score" /\
  is_general_knowledge_query (processed_query (ask "What is the AWS score?"))
    = false.
Proof.
  pose proof (rewritten_query_is_not_general_knowledge
                (QueryUtils.normalize_query (str "What is the AWS score?")))
    as (Hscore & _ & _ & Hgk).
  split.
  - apply Hscore; reflexivity.
  - apply Hgk. vm_compute. constructor.
Defined.

(** The query "what is the score of my project" has "what is" and
    "project"; it also has "what is the" and "score", so the first branch
    is taken and, for want of "aws", "cgpa" and "leetcode", nothing is
    rewritten: the general-knowledge check still sees "what is". *)
Lemma score_of_project_counterexample :
  let request := ask "what is the score of my project" in
  let ql := Py.lower (QueryUtils.normalize_query (query request)) in
  Py.contains (str "what is") ql = true /\
  Py.contains (str "project") ql = true /\
  processed_query request = str "what is the score of my project" /\
  processed_query request <> str "projects" /\
  is_general_knowledge_query (processed_query request) = true.
Proof. vm_compute. repeat split; discriminate. Qed.

End DocumentChatFacts.

(** * Further properties of the code *)

(** ** The cache: switch, key space, frame and maintenance *)

Module CacheMoreFacts.
Import CacheService CacheMaintenance PyNumFacts Scenario ScenarioMore.
Local Open Scope Q_scope.

Section WithPayload.
Context {R C : Type} (md5_json : cache_data -> string).

Abbreviation key_of := (_generate_cache_key md5_json).

(** X1.  With caching switched off, every get misses and every put is a no-op:
    the service object stays as it is, whatever was stored before the
    switch went off. *)
Theorem disabled_cache_is_inert (self : t R C) (now : Q) (query : text)
    (document_id : option text) (top_k : Z) (results : R) (response : C) :
  enabled self = false ->
  get_search_results md5_json self now query document_id top_k = (None, self) /\
  get_chat_response md5_json self now query document_id top_k = (None, self) /\
  set_search_results md5_json self now query document_id top_k results = self /\
  set_chat_response md5_json self now query document_id top_k response = self.
Proof.
  intros Hen.
  unfold get_search_results, get_chat_response, set_search_results,
    set_chat_response.
  by rewrite Hen.
Qed.

Lemma enabled_set_search (self : t R C) now query document_id top_k results :
  enabled (set_search_results md5_json self now query document_id top_k results)
    = enabled self /\
  cache_ttl (set_search_results md5_json self now query document_id top_k results)
    = cache_ttl self.
Proof. unfold set_search_results. by destruct (enabled self) eqn:E. Qed.

Lemma enabled_set_chat (self : t R C) now query document_id top_k response :
  enabled (set_chat_response md5_json self now query document_id top_k response)
    = enabled self /\
  cache_ttl (set_chat_response md5_json self now query document_id top_k response)
    = cache_ttl self.
Proof. unfold set_chat_response. by destruct (enabled self) eqn:E. Qed.

(** X2.  Search results and chat responses live under the same keys.  A read of
    the other kind, within the TTL, misses and leaves the entry in place;
    and a put of one kind replaces what the other kind had stored under the
    key. *)
Theorem search_and_chat_share_keys (self : t R C) (query : text)
    (document_id : option text) (top_k : Z) (t0 t1 t2 : Q)
    (results : R) (response : C) :
  enabled self = true ->
  t1 - t0 <= cache_ttl self ->
  t2 - t1 <= cache_ttl self ->
  let self1 := set_search_results md5_json self t0 query document_id top_k results in
  let self2 := set_chat_response md5_json self1 t1 query document_id top_k response in
  get_chat_response md5_json self1 t1 query document_id top_k = (None, self1) /\
  get_search_results md5_json self2 t2 query document_id top_k = (None, self2) /\
  get_chat_response md5_json self2 t2 query document_id top_k = (Some response, self2).
Proof.
  intros Hen H01 H12 self1 self2.
  destruct (enabled_set_search self t0 query document_id top_k results)
    as [Hen1 Httl1]. fold self1 in Hen1, Httl1.
  destruct (enabled_set_chat self1 t1 query document_id top_k response)
    as [Hen2 Httl2]. fold self2 in Hen2, Httl2.
  rewrite Hen in Hen1. rewrite Hen1 in Hen2.
  assert (H1 : cache self1 !! key_of query document_id top_k =
    Some {| e_results := Some results; e_chat_response := None;
            e_timestamp := t0; e_query := query;
            e_document_id := document_id; e_top_k := top_k |}).
  { unfold self1, set_search_results. rewrite Hen. simpl.
    apply lookup_insert_eq. }
  assert (H2 : cache self2 !! key_of query document_id top_k =
    Some {| e_results := None; e_chat_response := Some response;
            e_timestamp := t1; e_query := query;
            e_document_id := document_id; e_top_k := top_k |}).
  { unfold self2, set_chat_response. rewrite Hen1. simpl.
    apply lookup_insert_eq. }
  assert (E1 : PyNum.Qltb (cache_ttl self1) (t1 - t0) = false).
  { apply Qltb_ge. by rewrite Httl1. }
  assert (E2 : PyNum.Qltb (cache_ttl self2) (t2 - t1) = false).
  { apply Qltb_ge. by rewrite Httl2, Httl1. }
  repeat split.
  - unfold get_chat_response. rewrite Hen1, H1. simpl.
    unfold _is_expired. simpl. by rewrite E1.
  - unfold get_search_results. rewrite Hen2, H2. simpl.
    unfold _is_expired. simpl. by rewrite E2.
  - unfold get_chat_response. rewrite Hen2, H2. simpl.
    unfold _is_expired. simpl. by rewrite E2.
Qed.

(** X3.  A put under one key changes what no other key reads, and a get that
    misses because the key is absent changes nothing. *)
Theorem put_leaves_other_keys (self : t R C) (query query' : text)
    (document_id document_id' : option text) (top_k top_k' : Z)
    (t0 now : Q) (results : R) :
  key_of query' document_id' top_k' <> key_of query document_id top_k ->
  let self1 := set_search_results md5_json self t0 query document_id top_k results in
  cache self1 !! key_of query' document_id' top_k'
    = cache self !! key_of query' document_id' top_k' /\
  (get_search_results md5_json self1 now query' document_id' top_k').1
    = (get_search_results md5_json self now query' document_id' top_k').1 /\
  (cache self !! key_of query' document_id' top_k' = None ->
   get_search_results md5_json self now query' document_id' top_k' = (None, self)).
Proof.
  intros Hne self1.
  destruct (enabled_set_search self t0 query document_id top_k results)
    as [Hen1 Httl1]. fold self1 in Hen1, Httl1.
  assert (Hl : cache self1 !! key_of query' document_id' top_k'
               = cache self !! key_of query' document_id' top_k').
  { unfold self1, set_search_results. destruct (enabled self); [|done].
    simpl. by rewrite lookup_insert_ne. }
  split; [exact Hl|split].
  - unfold get_search_results. rewrite Hen1, Hl.
    destruct (enabled self); [|done]. simpl.
    destruct (cache self !! _) as [e|]; [|done].
    unfold _is_expired. rewrite Httl1. by destruct (PyNum.Qltb _ _).
  - intros Hnone. unfold get_search_results. rewrite Hnone.
    by destruct (enabled self).
Qed.

Lemma lookup_fold_delete (m : gmap string (entry R C)) ks k :
  fold_left (fun m key => delete key m) ks m !! k =
  if decide (k ∈ ks) then None else m !! k.
Proof.
  revert m. induction ks as [|k0 ks IH]; intros m; simpl.
  - done.
  - rewrite IH. repeat case_decide; try done.
    + exfalso. auto using list_elem_of_further.
    + destruct (decide (k = k0)) as [->|Hne].
      * apply lookup_delete_eq.
      * exfalso.
        match goal with H : k ∈ k0 :: ks |- _ =>
          apply elem_of_cons in H as [?|?]; done end.
    + destruct (decide (k = k0)) as [->|Hne].
      * exfalso. auto using list_elem_of_here.
      * by apply lookup_delete_ne.
Qed.

Lemma elem_of_expired_keys (self : t R C) now k :
  k ∈ expired_keys self now <->
  exists e, cache self !! k = Some e /\ _is_expired self now e = true.
Proof.
  unfold expired_keys. rewrite list_elem_of_fmap. split.
  - intros [[k' e] [-> Hin]]. apply list_elem_of_In, filter_In in Hin as [Hin He].
    apply list_elem_of_In, elem_of_map_to_list in Hin. eauto.
  - intros (e & He & Hexp). exists (k, e). split; [done|].
    apply list_elem_of_In, filter_In. split; [|done].
    by apply list_elem_of_In, elem_of_map_to_list.
Qed.

Lemma lookup_cleanup (self : t R C) (now : Q) (k : string) :
  cache (cleanup_expired self now) !! k =
    match cache self !! k with
    | Some e => if _is_expired self now e then None else Some e
    | None => None
    end.
Proof.
  unfold cleanup_expired. simpl. rewrite lookup_fold_delete.
  destruct (decide (k ∈ expired_keys self now)) as [Hin|Hnin].
  - apply elem_of_expired_keys in Hin as (e & -> & ->). done.
  - destruct (cache self !! k) as [e|] eqn:He; [|done].
    destruct (_is_expired self now e) eqn:Hexp; [|done].
    destruct Hnin. apply elem_of_expired_keys. eauto.
Qed.

(** X4.  [cleanup_expired] removes exactly the expired entries: afterwards a
    key holds what it held before if that entry is not expired, and
    nothing otherwise; the switch and the TTL are as before, and a second
    clean-up at the same time changes nothing. *)
Theorem cleanup_removes_exactly_expired (self : t R C) (now : Q) :
  (forall k,
     cache (cleanup_expired self now) !! k =
       match cache self !! k with
       | Some e => if _is_expired self now e then None else Some e
       | None => None
       end) /\
  enabled (cleanup_expired self now) = enabled self /\
  cache_ttl (cleanup_expired self now) = cache_ttl self /\
  cache (cleanup_expired (cleanup_expired self now) now)
    = cache (cleanup_expired self now).
Proof.
  split; [apply lookup_cleanup|]. split; [done|]. split; [done|].
  apply map_eq. intros k. rewrite !lookup_cleanup.
  destruct (cache self !! k) as [e|]; [|done].
  assert (Hsame : forall e', _is_expired (cleanup_expired self now) now e'
                             = _is_expired self now e') by done.
  destruct (_is_expired self now e) eqn:Hexp; [done|].
  by rewrite Hsame, Hexp.
Qed.

Lemma filter_bool_length {A} (f : A -> bool) (l : list A) :
  (length (List.filter f l) + length (List.filter (fun x => negb (f x)) l)
   = length l)%nat.
Proof.
  induction l as [|x l IH]; simpl; [done|].
  destruct (f x); simpl; lia.
Qed.

Lemma filter_bool_nil {A} (f : A -> bool) (l : list A) :
  (forall x, x ∈ l -> f x = false) -> List.filter f l = [].
Proof.
  induction l as [|x l IH]; intros H; simpl; [done|].
  rewrite (H x) by apply list_elem_of_here.
  apply IH. intros y Hy. apply H. by apply list_elem_of_further.
Qed.

Lemma filter_prop_bool {A} (f : A -> bool) (l : list A) :
  filter (fun x => f x = true) l = List.filter f l.
Proof.
  induction l as [|x l IH]; [done|].
  rewrite filter_cons. simpl. rewrite IH.
  destruct (f x); by case_decide.
Qed.

Lemma cleanup_is_filter (self : t R C) (now : Q) :
  cache (cleanup_expired self now) =
  filter (fun kv => negb (_is_expired self now kv.2) = true) (cache self).
Proof.
  apply map_eq. intros k. rewrite lookup_cleanup.
  destruct (cache self !! k) as [e|] eqn:He.
  - destruct (_is_expired self now e) eqn:Hexp; symmetry.
    + apply map_lookup_filter_None. right. intros x Hx.
      rewrite He in Hx. injection Hx as <-. simpl. by rewrite Hexp.
    + apply map_lookup_filter_Some. split; [done|]. simpl. by rewrite Hexp.
  - symmetry. apply map_lookup_filter_None. by left.
Qed.

Lemma length_cleanup (self : t R C) (now : Q) :
  length (map_to_list (cache (cleanup_expired self now))) =
  length (List.filter (fun kv => negb (_is_expired self now kv.2))
                      (map_to_list (cache self))).
Proof.
  rewrite cleanup_is_filter, map_filter_alt.
  rewrite map_to_list_to_map.
  - by rewrite filter_prop_bool.
  - eapply sublist_NoDup; [apply (NoDup_fst_map_to_list (cache self))|].
    apply fmap_sublist, sublist_filter.
Qed.

Variable json_dumps_len : gmap string (entry R C) -> res Z.

(** X5.  The statistics taken right after a clean-up count no expired entry,
    and their total is the number of entries that were active before it;
    before and after, the total is the active plus the expired entries. *)
Theorem stats_after_cleanup (self : t R C) (now : Q) (before after : stats) :
  get_cache_stats json_dumps_len self now = Ret before ->
  get_cache_stats json_dumps_len (cleanup_expired self now) now = Ret after ->
  total_entries before = (active_entries before + expired_entries before)%Z /\
  expired_entries after = 0%Z /\
  total_entries after = active_entries before /\
  active_entries after = active_entries before.
Proof.
  assert (Hnone : List.filter
            (fun kv => _is_expired (cleanup_expired self now) now kv.2)
            (map_to_list (cache (cleanup_expired self now))) = []).
  { apply filter_bool_nil. intros [k e] Hin.
    apply elem_of_map_to_list in Hin. rewrite lookup_cleanup in Hin.
    destruct (cache self !! k) as [e0|]; [|done].
    destruct (_is_expired self now e0) eqn:Hexp; [done|].
    by injection Hin as <-. }
  pose proof (length_cleanup self now) as Hlen.
  pose proof (filter_bool_length
                (fun kv : string * entry R C => _is_expired self now kv.2)
                (map_to_list (cache self))) as Hsum.
  set (self' := cleanup_expired self now) in *. clearbody self'.
  unfold get_cache_stats, mbind, res_bind, Res.bind.
  destruct (json_dumps_len (cache self)); [|done].
  destruct (json_dumps_len (cache self')); [|done].
  intros [= <-] [= <-].
  cbn [total_entries active_entries expired_entries].
  rewrite Hnone. unfold Py.len. rewrite Hlen. simpl length. lia.
Qed.

End WithPayload.

Lemma disabled_cache_is_inert_witness :
  get_search_results demo_hash demo_cache_off 1001 (str "AWS score") None 5
    = (None, demo_cache_off) /\
  set_search_results demo_hash demo_cache_off 1001 (str "CGPA") None 5 [8%nat]
    = demo_cache_off.
Proof.
  destruct (disabled_cache_is_inert demo_hash demo_cache_off 1001
              (str "AWS score") None 5 [8%nat] tt eq_refl) as (Hg & _ & _ & _).
  destruct (disabled_cache_is_inert demo_hash demo_cache_off 1001
              (str "CGPA") None 5 [8%nat] tt eq_refl) as (_ & _ & Hs & _).
  split; assumption.
Defined.

Lemma search_and_chat_share_keys_witness :
  get_chat_response demo_hash demo_cache_stored 1100 (str "AWS score") None 5
    = (None, demo_cache_stored).
Proof.
  refine (proj1 (search_and_chat_share_keys demo_hash demo_cache
                   (str "AWS score") None 5 1000 1100 1200 [7%nat] tt
                   eq_refl _ _)); vm_compute; discriminate.
Defined.

Lemma put_leaves_other_keys_witness :
  (get_search_results demo_hash demo_cache_stored 1100 (str "CGPA") None 5).1
    = None.
Proof.
  refine (proj1 (proj2 (put_leaves_other_keys demo_hash demo_cache
                          (str "AWS score") (str "CGPA") None None 5 5
                          1000 1100 [7%nat] _))).
  vm_compute. discriminate.
Defined.

End CacheMoreFacts.

(** ** Embedding vectors always have the dimension of the model *)

Module EmbeddingFacts.
Import LocalEmbeddings EmbeddingService.

Lemma length_times {A} (x : A) (n : Z) :
  (0 <= n)%Z -> Py.len (PyMore.times x n) = n.
Proof.
  intros H. unfold Py.len, PyMore.times. rewrite repeat_length. lia.
Qed.

Lemma length_slice_to {A} (n : Z) (l : list A) :
  (0 <= n <= Py.len l)%Z -> Py.len (DocumentChat.slice_to n l) = n.
Proof.
  unfold DocumentChat.slice_to, Py.len. intros H.
  destruct (0 <=? n)%Z eqn:E; [|lia].
  rewrite length_take. lia.
Qed.

Lemma length_pad_or_cut (dim : Z) (vec : vector) :
  (0 <= dim)%Z ->
  Py.len (if (Py.len vec <? dim)%Z
          then vec ++ PyMore.times 0%Q (dim - Py.len vec)
          else DocumentChat.slice_to dim vec) = dim.
Proof.
  intros H. destruct (Py.len vec <? dim)%Z eqn:E.
  - unfold Py.len in *. rewrite length_app.
    pose proof (length_times 0%Q (dim - Z.of_nat (length vec))) as Ht.
    unfold Py.len in Ht. lia.
  - apply length_slice_to. lia.
Qed.

(** X6.  [_normalize_dim] returns a vector of exactly [target_dim] components
    for every target that is not negative: a vector of that length is
    returned as it is, a shorter one keeps its components and is padded
    with zeros, a longer one keeps its first [target_dim] components. *)
Theorem normalize_dim_length (target_dim : Z) (vec : vector) :
  (0 <= target_dim)%Z ->
  Py.len (_normalize_dim target_dim vec) = target_dim /\
  (Py.len vec <= target_dim ->
   _normalize_dim target_dim vec
   = vec ++ repeat 0%Q (Z.to_nat (target_dim - Py.len vec)))%Z /\
  (target_dim <= Py.len vec ->
   _normalize_dim target_dim vec = take (Z.to_nat target_dim) vec)%Z.
Proof.
  intros H. unfold _normalize_dim. split; [|split].
  - destruct (Py.len vec =? target_dim)%Z eqn:E; [lia|].
    by apply length_pad_or_cut.
  - intros Hle. destruct (Py.len vec =? target_dim)%Z eqn:E.
    + assert (target_dim - Py.len vec = 0)%Z as -> by lia.
      simpl. by rewrite app_nil_r.
    + destruct (Py.len vec <? target_dim)%Z eqn:E'; [done|lia].
  - intros Hle. destruct (Py.len vec =? target_dim)%Z eqn:E.
    + rewrite take_ge; [done|]. unfold Py.len in *. lia.
    + destruct (Py.len vec <? target_dim)%Z eqn:E'; [lia|].
      unfold DocumentChat.slice_to.
      destruct (0 <=? target_dim)%Z eqn:E0; [done|lia].
Qed.

Lemma embedding_dimension_values (self : t) :
  embedding_dimension self ∈ [384; 512; 768]%Z.
Proof.
  unfold embedding_dimension, _get_embedding_dimension, dimension_map.
  simpl. repeat case_bool_decide; set_solver.
Qed.

Lemma embedding_dimension_nonneg (self : t) : (0 <= embedding_dimension self)%Z.
Proof.
  pose proof (embedding_dimension_values self) as H.
  repeat (apply elem_of_cons in H as [->|H]; [lia|]).
  by apply elem_of_nil in H.
Qed.

Lemma length_fit (self : t) (v : vector) :
  Py.len (fit self v) = embedding_dimension self.
Proof.
  unfold fit. destruct (Py.len v =? embedding_dimension self)%Z eqn:E; simpl.
  - lia.
  - apply length_pad_or_cut, embedding_dimension_nonneg.
Qed.

Lemma length_zero_vector (self : t) :
  Py.len (zero_vector self) = embedding_dimension self.
Proof. apply length_times, embedding_dimension_nonneg. Qed.

(** X7.  [generate_embedding] never raises and always returns a vector whose
    length is the dimension of the model, one of 384, 512 and 768: also for
    a missing or blank text, for a model that fails to load or to encode,
    and for a model that answers with a vector of another length.  The
    wrapper of [vector_search] does the same. *)
Theorem generate_embedding_has_model_dimension (self : t) (t : option text) :
  embedding_dimension self ∈ [384; 512; 768]%Z /\
  (exists v, generate_embedding self t = Ret v /\
             Py.len v = embedding_dimension self) /\
  (forall t', exists v,
     vector_search_generate_embedding self t' = Ret v /\
     Py.len v = embedding_dimension self).
Proof.
  assert (H : forall t, exists v, generate_embedding self t = Ret v /\
                                  Py.len v = embedding_dimension self).
  { intros t0. unfold generate_embedding, Res.try_except, mbind, res_bind, Res.bind.
    destruct (_load_model self);
      [|eexists; split; [done|apply length_zero_vector]].
    destruct t0 as [t0|];
      [|eexists; split; [done|apply length_zero_vector]].
    destruct (negb (PyMore.truthy t0) || negb (PyMore.truthy (Py.strip t0)));
      [eexists; split; [done|apply length_zero_vector]|].
    destruct (encode self (Py.strip t0));
      eexists; (split; [done|]); [apply length_fit|apply length_zero_vector]. }
  split; [apply embedding_dimension_values|]. split; [apply H|].
  intros t'. unfold vector_search_generate_embedding.
  destruct (H (Some t')) as (v & -> & Hv). eauto.
Qed.

(** X8.  [generate_embeddings_batch] never raises and every vector it returns
    has the dimension of the model.  It returns as many vectors as the
    model encoded, and when the model fails, one zero vector for each
    text. *)
Theorem batch_embeddings_have_model_dimension (self : t)
    (texts : list (option text)) :
  (exists vs, generate_embeddings_batch self texts = Ret vs /\
     Forall (fun v => Py.len v = embedding_dimension self) vs) /\
  (forall e, _load_model self = Raise e ->
     generate_embeddings_batch self texts
     = Ret (map (fun _ => zero_vector self) texts)) /\
  (forall e cleaned, _load_model self = Ret tt -> texts <> [] ->
     encode_batch self cleaned = Raise e ->
     cleaned = map (fun t => match t with
                             | Some ((_ :: _) as t) => Py.strip t
                             | _ => []
                             end) texts ->
     generate_embeddings_batch self texts
     = Ret (map (fun _ => zero_vector self) texts)).
Proof.
  assert (Hz : Forall (fun v => Py.len v = embedding_dimension self)
                 (map (fun _ => zero_vector self) texts)).
  { apply Forall_fmap, Forall_forall. intros ? _. apply length_zero_vector. }
  split; [|split].
  - unfold generate_embeddings_batch, Res.try_except, mbind, res_bind, Res.bind.
    destruct (_load_model self); [|eauto].
    destruct texts as [|t0 texts]; [eexists; split; [done|constructor]|].
    destruct (encode_batch self _) as [embeddings|]; [|eauto].
    eexists. split; [done|].
    apply Forall_fmap, Forall_forall. intros v _. apply length_fit.
  - intros e He. unfold generate_embeddings_batch. by rewrite He.
  - intros e cleaned Hl Hne He ->.
    unfold generate_embeddings_batch, Res.try_except, mbind, res_bind, Res.bind.
    rewrite Hl. destruct texts as [|t0 texts]; [done|]. by rewrite He.
Qed.

End EmbeddingFacts.

(** ** The reranker returns a sorted permutation of the indices *)

Module RerankerFacts.
Import Reranker PySortFacts Spec.
Local Open Scope Q_scope.

Lemma keyed_fst scores indices : forall ks,
  keyed scores indices = Ret ks ->
  map fst ks = indices /\
  Forall (fun p => scores !! p.1 = Some p.2) ks.
Proof.
  unfold keyed. induction indices as [|i indices IH]; intros ks; simpl.
  - intros [= <-]. by split.
  - unfold Res.bind at 1.
    destruct (scores !! i) as [s|] eqn:Hs; [|done].
    unfold Res.bind at 1.
    destruct (Res.mapM _ indices) as [ks'|] eqn:Hk; [|done].
    intros [= <-]. destruct (IH ks' eq_refl) as [IH1 IH2].
    split; simpl; [by rewrite IH1|]. by constructor.
Qed.

Lemma keyed_total scores indices :
  Forall (fun i => (i < length scores)%nat) indices ->
  exists ks, keyed scores indices = Ret ks.
Proof.
  unfold keyed.
  induction 1 as [|i indices Hi _ [ks IH]]; [by eexists|].
  destruct (lookup_lt_is_Some_2 scores i Hi) as [s Hs].
  cbn [Res.mapM]. rewrite Hs, IH. by eexists.
Qed.

(** X9.  [rerank] drops and adds nothing: whenever it returns, its result is a
    permutation of the indices 0 .. n-1 of the passages, in which the
    score of an index is never below the score of the next one.  It
    returns, when the model loads and gives one score for each passage;
    and for no passage at all it returns the empty list without loading
    the model. *)
Theorem rerank_is_sorted_permutation (model : CrossEncoder) (query : text)
    (passages : list text) :
  (forall order,
     rerank model query passages = Ret order ->
     order ≡ₚ range (length passages) /\
     exists scores,
       (passages <> [] ->
        predict model (map (fun p => (query, p)) passages) = Ret scores) /\
       forall (k : nat) i j si sj,
         order !! k = Some i -> order !! S k = Some j ->
         scores !! i = Some si -> scores !! j = Some sj -> sj <= si) /\
  (forall scores,
     _load model = Ret tt ->
     predict model (map (fun p => (query, p)) passages) = Ret scores ->
     length scores = length passages ->
     exists order, rerank model query passages = Ret order) /\
  rerank model query [] = Ret [].
Proof.
  split; [|split; [|done]].
  - intros order. unfold rerank.
    destruct passages as [|p passages]; [intros [= <-]; split; [done|]|].
    { exists []. split; [done|]. intros k i j si sj Hk. done. }
    unfold mbind, res_bind, Res.bind.
    destruct (_load model); [|done].
    destruct (predict model _) as [scores|]; [|done].
    destruct (keyed scores _) as [ks|] eqn:Hk; [|done].
    intros [= <-]. apply keyed_fst in Hk as [Hfst Hval].
    split.
    + rewrite <- Hfst. apply fmap_Permutation, sorted_desc_perm.
    + exists scores. split; [done|].
      intros k i j si sj Hi Hj Hsi Hsj.
      apply list_lookup_fmap_Some in Hi as ([i' qi] & [= <-] & Hi).
      apply list_lookup_fmap_Some in Hj as ([j' qj] & [= <-] & Hj).
      assert (Hall : Forall (fun p => scores !! p.1 = Some p.2)
                       (PySort.sorted_desc snd ks)).
      { by rewrite sorted_desc_perm. }
      pose proof (Forall_lookup_1 _ _ _ _ Hall Hi) as Ei.
      pose proof (Forall_lookup_1 _ _ _ _ Hall Hj) as Ej.
      simpl in Ei, Ej. rewrite Ei in Hsi. rewrite Ej in Hsj.
      injection Hsi as <-. injection Hsj as <-.
      exact (Sorted_adjacent snd _ (sorted_desc_sorted snd ks) k _ _ Hi Hj).
  - intros scores Hl Hp Hlen. unfold rerank.
    destruct passages as [|p passages]; [by eexists|].
    unfold mbind, res_bind, Res.bind. rewrite Hl, Hp.
    destruct (keyed_total scores (range (length (p :: passages)))) as [ks ->].
    + apply Forall_forall. intros i Hi. unfold range in Hi.
      apply elem_of_seq in Hi. lia.
    + by eexists.
Qed.

End RerankerFacts.

(** ** The client of the language model *)

Module OpenRouterFacts.
Import OpenRouter SpecMore.

(** X10.  [chat_completion] raises nothing but the three exceptions of the
    service, whatever the post does and whatever the body of the response
    holds, and it returns a completion only for status 200.  Status 401
    always gives [AuthenticationError]; status 429 with an empty body gives
    [RateLimitError] with the default message, but a 429 whose body cannot
    be read as JSON is reported as a plain [APIError], not as a rate
    limit. *)
Theorem chat_completion_outcomes (client : Client) (call : LlmCall) :
  (forall e, chat_completion client call = Raise e -> is_api_error e = true) /\
  (forall r, chat_completion client call = Ret r ->
     exists response, client call = Responded response /\
       status_code response = 200%Z /\ json response = Ret r) /\
  (forall response,
     client call = Responded response -> status_code response = 401%Z ->
     chat_completion client call
     = Raise (AuthenticationError
                (str "Invalid API key. Please check your OpenRouter configuration."))) /\
  (forall response,
     client call = Responded response -> status_code response = 429%Z ->
     body_text response = [] ->
     chat_completion client call
     = Raise (RateLimitError
                (str "API rate limit exceeded. Rate limit exceeded"))) /\
  (forall response msg,
     client call = Responded response -> status_code response = 429%Z ->
     body_text response <> [] ->
     error_message response = Raise (OtherException msg) ->
     chat_completion client call
     = Raise (APIError (str "Unexpected error: " ++ msg))).
Proof.
  unfold chat_completion.
  destruct (client call) as [response| |m0|m0] eqn:Hc.
  2-4: by repeat split; intros; simplify_eq.
  assert (Hraise : forall e,
            Res.try_except (on_response response)
              (fun e => match e with
                        | RateLimitError _ | AuthenticationError _
                        | APIError _ => Raise e
                        | _ => Raise (APIError (str "Unexpected error: " ++
                                                exn_str e))
                        end) = Raise e -> is_api_error e = true).
  { intros e. unfold Res.try_except.
    destruct (on_response response) as [r|[]]; intros; by simplify_eq. }
  split; [exact Hraise|]. clear Hraise.
  unfold on_response, error_message_or, Res.try_except,
    mbind, res_bind, Res.bind.
  split; [|split; [|split]].
  - intros r.
    destruct (status_code response =? 200)%Z eqn:E200.
    { apply Z.eqb_eq in E200. destruct (json response) as [r'|[]] eqn:Hj;
        intros; simplify_eq; eauto. }
    destruct (status_code response =? 429)%Z.
    { destruct (PyMore.truthy (body_text response)); [|done].
      by destruct (error_message response) as [m|[]]. }
    destruct (status_code response =? 401)%Z; [done|].
    destruct (status_code response =? 400)%Z; [|done].
    destruct (PyMore.truthy (body_text response)); [|done].
    by destruct (error_message response) as [m|[]].
  - intros response' [= <-] ->. done.
  - intros response' [= <-] -> ->. done.
  - intros response' msg [= <-] -> Hbody ->.
    destruct (body_text response); done.
Qed.

Lemma translate_text_frame (llm : Generator) (MAX_TOKENS : Z)
    (t target_lang : text) (log : list LlmCall) :
  let call := translate_call MAX_TOKENS t target_lang in
  (exists out, translate_text llm MAX_TOKENS t target_lang log
               = (Ret out, log ++ [call])) /\
  (forall e, llm call = Raise e ->
     translate_text llm MAX_TOKENS t target_lang log = (Ret t, log ++ [call])).
Proof.
  intros call. unfold translate_text.
  unfold Eff.try_except, Eff.raise, Eff.chat_completion,
    mbind, mret, eff_bind, eff_ret, Eff.bind, Eff.ret.
  fold call. split.
  - destruct (llm call) as [r|e]; [|by eexists].
    destruct (content r); by eexists.
  - by intros e ->.
Qed.

(** X11.  [translate_text] never raises and calls the model exactly once, asking
    for at most [MAX_TOKENS] tokens.  When the model raises, or answers
    without a content, the text comes back as it was given; otherwise the
    result is the answer of the model without the white space around it. *)
Theorem translate_text_never_raises (llm : Generator) (MAX_TOKENS : Z)
    (t target_lang : text) (log : list LlmCall) :
  let call := translate_call MAX_TOKENS t target_lang in
  (exists out, translate_text llm MAX_TOKENS t target_lang log
               = (Ret out, log ++ [call])) /\
  (max_tokens call <= MAX_TOKENS)%Z /\
  (forall e, llm call = Raise e ->
     translate_text llm MAX_TOKENS t target_lang log = (Ret t, log ++ [call])) /\
  (forall r, llm call = Ret r -> content r = None ->
     translate_text llm MAX_TOKENS t target_lang log = (Ret t, log ++ [call])) /\
  (forall r translated, llm call = Ret r -> content r = Some translated ->
     translate_text llm MAX_TOKENS t target_lang log
     = (Ret (Py.strip translated), log ++ [call])).
Proof.
  intros call. unfold translate_text.
  unfold Eff.try_except, Eff.raise, Eff.chat_completion,
    mbind, mret, eff_bind, eff_ret, Eff.bind, Eff.ret.
  fold call.
  split; [|split; [|split; [|split]]].
  - destruct (llm call) as [r|e]; [|by eexists].
    destruct (content r); by eexists.
  - subst call. simpl. unfold translate_max_tokens. lia.
  - by intros e ->.
  - by intros r -> ->.
  - by intros r translated -> ->.
Qed.

End OpenRouterFacts.

(** ** The endpoints of [simple_chat.py] and [chat.py] *)

Module SimpleChatFacts.
Import SimpleChat ChatEndpoints SpecMore.

Lemma complete_log llm MAX_TOKENS query log :
  (complete llm MAX_TOKENS query log).2 = log ++ [chat_call MAX_TOKENS query].
Proof.
  unfold complete, Eff.try_except, Eff.raise, Eff.chat_completion,
    mbind, mret, eff_bind, eff_ret, Eff.bind, Eff.ret.
  destruct (llm _) as [r|e]; [by destruct (content r)|by destruct e].
Qed.

Lemma complete_api_error llm MAX_TOKENS query log e :
  llm (chat_call MAX_TOKENS query) = Raise e -> is_api_error e = true ->
  exists answer, complete llm MAX_TOKENS query log
                 = (Ret (answer, []), log ++ [chat_call MAX_TOKENS query]).
Proof.
  intros He Ha.
  unfold complete, Eff.try_except, Eff.raise, Eff.chat_completion,
    mbind, mret, eff_bind, eff_ret, Eff.bind, Eff.ret.
  rewrite He. destruct e; try done; by eexists.
Qed.

(** X12.  [simple_chat] answers a missing or empty query with status 500, not
    with the 400 it raises first, and without calling the model; whatever
    the request and the model, it raises nothing but an HTTP error of
    status 500.  For a query that is not empty the model is called exactly
    once; when that call raises one of the exceptions of the service, the
    endpoint still answers normally, with the configured model name and a
    usage of zero tokens. *)
Theorem simple_chat_outcomes (llm : Generator) (MAX_TOKENS : Z)
    (OPENROUTER_MODEL : text) (request : Request) :
  let out := Eff.run (simple_chat llm MAX_TOKENS OPENROUTER_MODEL request) in
  let query := default [] (rq_query request) in
  (query = [] -> exists detail, out = (Raise (HTTPException 500 detail), [])) /\
  (forall e, out.1 = Raise e -> is_http_500 e) /\
  (query <> [] -> out.2 = [chat_call MAX_TOKENS query]) /\
  (forall e, query <> [] ->
     llm (chat_call MAX_TOKENS query) = Raise e -> is_api_error e = true ->
     exists r, out.1 = Ret r /\ sc_model r = OPENROUTER_MODEL /\
       sc_usage r = [("prompt_tokens", 0); ("completion_tokens", 0);
                     ("total_tokens", 0)]%Z%string).
Proof.
  intros out query.
  assert (Hout : out =
    match query with
    | [] => (Raise (HTTPException 500
                      (str "Error generating answer: " ++
                       exn_str (HTTPException 400 (str "Query is required")))),
             [])
    | _ :: _ =>
        match complete llm MAX_TOKENS query [] with
        | (Ret (answer, usage), log) =>
            (Ret {| sc_answer := answer;
                    sc_model := OPENROUTER_MODEL;
                    sc_usage :=
                      [("prompt_tokens", usage_get usage (str "prompt_tokens"));
                       ("completion_tokens",
                        usage_get usage (str "completion_tokens"));
                       ("total_tokens", usage_get usage (str "total_tokens"))]%string;
                    sc_cost := str "$0.00 (FREE with Llama 3.3 70B)" |}, log)
        | (Raise e, log) =>
            (Raise (HTTPException 500
                      (str "Error generating answer: " ++ exn_str e)), log)
        end
    end).
  { subst out. unfold Eff.run, simple_chat. fold query.
    unfold Eff.try_except at 1.
    unfold Eff.raise, mbind, mret, eff_bind, eff_ret, Eff.bind, Eff.ret.
    destruct query as [|c q]; [done|].
    change (PyMore.truthy (c :: q)) with true. cbn [negb]. cbv beta.
    by destruct (complete _ _ _ _) as [[[answer usage]|e0] log']. }
  clearbody out. subst out.
  pose proof (complete_log llm MAX_TOKENS query []) as Hlog.
  destruct query as [|c q].
  - split; [by eexists|]. split; [|done].
    intros e [= <-]. by eexists.
  - split; [done|]. split; [|split].
    + destruct (complete _ _ _ _) as [[[answer usage]|e0] log'];
        intros e He; simplify_eq/=. by eexists.
    + intros _. by destruct (complete _ _ _ _) as [[[answer usage]|e0] log'].
    + intros e _ He Ha.
      destruct (complete_api_error llm MAX_TOKENS (c :: q) [] e He Ha)
        as [answer ->].
      by eexists.
Qed.

(** X13.  The translation endpoint answers a missing or empty text with status
    500 and without calling the model.  For any other text it never raises:
    the model is called once, and when the model fails the text itself is
    returned as its translation. *)
Theorem translate_endpoint_outcomes (llm : Generator) (MAX_TOKENS : Z)
    (request : Request) :
  let out := Eff.run (translate_endpoint llm MAX_TOKENS request) in
  let t := default [] (rq_text request) in
  let target_lang := default (str "en") (rq_target_lang request) in
  let call := OpenRouter.translate_call MAX_TOKENS t target_lang in
  (t = [] -> exists detail, out = (Raise (HTTPException 500 detail), [])) /\
  (t <> [] -> exists translated, out = (Ret translated, [call])) /\
  (forall e, t <> [] -> llm call = Raise e -> out = (Ret t, [call])).
Proof.
  intros out t target_lang call.
  assert (Hout : out =
    match t with
    | [] => (Raise (HTTPException 500
                      (str "Error translating text: " ++
                       exn_str (HTTPException 400 (str "text is required")))),
             [])
    | _ :: _ => OpenRouter.translate_text llm MAX_TOKENS t target_lang []
    end).
  { subst out. unfold Eff.run, translate_endpoint. fold t target_lang.
    unfold Eff.try_except at 1. unfold Eff.raise.
    destruct t as [|c t']; [done|].
    change (PyMore.truthy (c :: t')) with true. cbn [negb]. cbv beta.
    destruct (OpenRouterFacts.translate_text_frame llm MAX_TOKENS (c :: t')
                target_lang []) as [[translated ->] _].
    done. }
  clearbody out. subst out.
  destruct (OpenRouterFacts.translate_text_frame llm MAX_TOKENS t
              target_lang []) as [[translated Hout] Hfail].
  fold call in Hout, Hfail.
  destruct t as [|c t'].
  - split; [by eexists|]. by split.
  - split; [done|]. split.
    + intros _. rewrite Hout. by eexists.
    + intros e _ He. by rewrite (Hfail e He).
Qed.

(** X14.  [add_course_content] answers a request that lacks one of the fields
    [title], [content] and [course_id] with status 500, not with the 400 it
    raises first, and stores nothing; it raises nothing but an HTTP error
    of status 500; and with all three fields present its answer is that of
    the store. *)
Theorem add_course_content_outcomes {V} (add : gmap string V -> res text)
    (content_data : gmap string V) :
  (forall field, field ∈ required_fields -> content_data !! field = None ->
     exists detail,
       add_course_content add content_data = Raise (HTTPException 500 detail) /\
       forall add', add_course_content add' content_data
                    = Raise (HTTPException 500 detail)) /\
  (forall e, add_course_content add content_data = Raise e -> is_http_500 e) /\
  (forall content_id,
     (forall field, field ∈ required_fields -> is_Some (content_data !! field)) ->
     add content_data = Ret content_id ->
     add_course_content add content_data = Ret content_id).
Proof.
  unfold add_course_content, required_fields, Res.try_except,
    mbind, res_bind, Res.bind.
  split; [|split].
  - intros field Hin Hnone. simpl.
    destruct (content_data !! "title"%string) eqn:E1; [|by eexists].
    destruct (content_data !! "content"%string) eqn:E2; [|by eexists].
    destruct (content_data !! "course_id"%string) eqn:E3; [|by eexists].
    repeat (apply elem_of_cons in Hin as [->|Hin]; [congruence|]).
    by apply elem_of_nil in Hin.
  - intros e. destruct (check_required _ _); [|intros [= <-]; by eexists].
    destruct (add content_data); [done|]. intros [= <-]. by eexists.
  - intros content_id Hall Hadd. simpl.
    destruct (Hall "title"%string) as [? ->]; [set_solver|].
    destruct (Hall "content"%string) as [? ->]; [set_solver|].
    destruct (Hall "course_id"%string) as [? ->]; [set_solver|].
    by rewrite Hadd.
Qed.

End SimpleChatFacts.

(** ** More on the endpoint [document_chat_answer] *)

Module DocumentChatMoreFacts.
Import LcVectorStore DocumentService DocumentChat PySortFacts Spec SpecMore
  Scenario.
Local Open Scope Q_scope.

Local Ltac unfold_eff :=
  unfold Eff.run, Eff.try_except, Eff.lift, Eff.raise, Eff.chat_completion,
    mbind, mret, eff_bind, eff_ret, Eff.bind, Eff.ret in *.

(** *** The character budget of the context *)

Lemma total_length_nonneg parts : (0 <= total_length parts)%Z.
Proof.
  induction parts as [|p parts IH]; simpl; [done|]. unfold Py.len. lia.
Qed.

Lemma len_join sep parts :
  Py.len (Py.join sep parts)
  = (total_length parts + Py.len sep * Z.max 0 (Py.len parts - 1))%Z.
Proof.
  induction parts as [|p [|p' rest] IH].
  - simpl. unfold Py.len. simpl. lia.
  - simpl. unfold Py.len. simpl. lia.
  - change (Py.join sep (p :: p' :: rest))
      with (p ++ sep ++ Py.join sep (p' :: rest)).
    change (total_length (p :: p' :: rest))
      with (Py.len p + total_length (p' :: rest))%Z.
    unfold Py.len in *. rewrite !length_app, !Nat2Z.inj_add, IH.
    simpl length. nia.
Qed.

Lemma context_loop_spec limit results : forall i total,
  exists n : nat,
    (n <= length results)%nat /\
    context_loop limit i total results = numbered i (take n results) /\
    (context_loop limit i total results <> [] ->
     (total + total_length (context_loop limit i total results) <= limit)%Z) /\
    (forall r, results !! n = Some r ->
       (limit < total + total_length (context_loop limit i total results)
                + Py.len (source_text (i + Z.of_nat n) r))%Z).
Proof.
  induction results as [|r rest IH]; intros i total.
  - exists 0%nat. simpl. repeat split; [lia|done|done].
  - simpl context_loop.
    destruct (limit <? total + Py.len (source_text i r))%Z eqn:E.
    + exists 0%nat. simpl. repeat split; [lia|done|].
      intros r' [= <-]. replace (i + Z.of_nat 0)%Z with i by lia. lia.
    + destruct (IH (i + 1)%Z (total + Py.len (source_text i r))%Z)
        as (n & Hn & Heq & Hle & Hnext).
      exists (S n). simpl. repeat split; [lia|by rewrite Heq| |].
      * intros _.
        destruct (context_loop limit (i + 1) _ rest) as [|p ps] eqn:El.
        -- simpl. lia.
        -- specialize (Hle ltac:(done)). simpl in *. lia.
      * intros r' Hr'. specialize (Hnext r' Hr').
        replace (i + Z.of_nat (S n))%Z with (i + 1 + Z.of_nat n)%Z by lia.
        lia.
Qed.

(** X15.  The context is made of the blocks of the first [n] ranked results, in
    order and numbered from 1, for the largest [n] whose blocks together
    have at most [RAG_MAX_CONTEXT_LENGTH] characters: their lengths sum to
    at most the limit, and the block of the next result, if there is one,
    would exceed it.  The separators are not counted: the context itself
    is longer than the blocks by two characters for each block after the
    first. *)
Theorem context_within_budget (limit : Z) (results : list SearchResult) :
  let parts := context_parts limit results in
  exists n : nat,
    (n <= length results)%nat /\
    parts = numbered 1 (take n results) /\
    (parts <> [] -> (total_length parts <= limit)%Z) /\
    (forall r, results !! n = Some r ->
       (limit < total_length parts
                + Py.len (source_text (1 + Z.of_nat n) r))%Z) /\
    Py.len (build_context limit results)
    = (total_length parts + 2 * Z.max 0 (Py.len parts - 1))%Z.
Proof.
  intros parts. subst parts. unfold build_context, context_parts.
  destruct (context_loop_spec limit results 1 0) as (n & Hn & Heq & Hle & Hnext).
  exists n. split; [done|]. split; [done|]. split; [|split].
  - intros H. specialize (Hle H). lia.
  - intros r Hr. specialize (Hnext r Hr). lia.
  - by rewrite len_join.
Qed.

(** *** Citations *)

Lemma mapM_length {A B} (f : A -> res B) l : forall out,
  Res.mapM f l = Ret out -> length out = length l.
Proof.
  induction l as [|a l IH]; intros out; simpl.
  - by intros [= <-].
  - unfold Res.bind at 1. destruct (f a) as [b|]; [|done].
    unfold Res.bind at 1. destruct (Res.mapM f l) as [bs|]; [|done].
    intros [= <-]. simpl. by rewrite (IH bs).
Qed.

Lemma mapM_Forall2 {A B} (f : A -> res B) l : forall out,
  Res.mapM f l = Ret out -> Forall2 (fun a b => f a = Ret b) l out.
Proof.
  induction l as [|a l IH]; intros out; simpl.
  - intros [= <-]. constructor.
  - unfold Res.bind at 1. destruct (f a) as [b|] eqn:Hb; [|done].
    unfold Res.bind at 1. destruct (Res.mapM f l) as [bs|]; [|done].
    intros [= <-]. constructor; [done|]. by apply IH.
Qed.

Lemma mapM_total {A B} (f : A -> res B) l :
  Forall (fun a => exists b, f a = Ret b) l -> exists out, Res.mapM f l = Ret out.
Proof.
  induction 1 as [|a l [b Hb] _ [bs IH]]; simpl; [by eexists|].
  rewrite Hb. simpl. rewrite IH. by eexists.
Qed.

Lemma truncated_facts (t : text) :
  let c := if (200 <? Py.len t)%Z then take 200 t ++ str "..." else t in
  (Py.len c <= 203)%Z /\ take 200 c = take 200 t.
Proof.
  cbv zeta. destruct (200 <? Py.len t)%Z eqn:E.
  - apply Z.ltb_lt in E. unfold Py.len in *. split.
    + rewrite length_app, length_take.
      change (length (str "...")) with 3%nat. lia.
    + rewrite take_app_le by (rewrite length_take; lia).
      by rewrite take_take.
  - apply Z.ltb_ge in E. split; [lia|done].
Qed.

Lemma citation_facts result c :
  citation result = Ret c ->
  confidence c = sr_score result /\
  (Py.len (cit_content c) <= 203)%Z /\
  take 200 (cit_content c) = take 200 (sr_text result) /\
  source_id c = cit_course_id c.
Proof.
  unfold citation. pose proof (truncated_facts (sr_text result)) as [H1 H2].
  destruct (sr_document_id result), (sr_filename result); try done;
    intros [= <-]; cbn [confidence cit_content source_id cit_course_id]; done.
Qed.

Lemma citation_total result : citable result -> exists c, citation result = Ret c.
Proof.
  intros [Hd Hf]. unfold citation.
  destruct (sr_document_id result), (sr_filename result); try done; by eexists.
Qed.

Lemma generate_log w q ranked log :
  exists out, generate w q ranked log
    = (out, log ++ [llm_call w q
                      (build_context (RAG_MAX_CONTEXT_LENGTH (settings w)) ranked)]).
Proof.
  unfold generate. unfold_eff.
  destruct (llm w _) as [response|e].
  - destruct (content response); eauto.
  - destruct e; eauto.
Qed.

(** What the endpoint does once retrieval has found something. *)
Lemma answer_body_found (w : World) (request : QueryRequest) r rs :
  let q := processed_query request in
  let k := top_k_or_5 request in
  let ranked := intent_rerank q (slice_to k (r :: rs)) in
  search_documents (store w) (database w) q (course_id request) k
    = Ret (r :: rs) ->
  answer_body w request [] =
    match generate w q ranked [] with
    | (Ret (answer, response), log) =>
        match Res.mapM citation (cited q k (r :: rs)) with
        | Ret cs =>
            (Ret {| answer := answer; citations := cs;
                    resp_usage := match response with
                                  | Some r => usage r
                                  | None => []
                                  end |}, log)
        | Raise e => (Raise e, log)
        end
    | (Raise e, log) => (Raise e, log)
    end.
Proof.
  intros q k ranked H. unfold answer_body. fold q k. unfold_eff.
  rewrite H. cbn beta iota. unfold cited. fold ranked.
  destruct (is_general_knowledge_query q);
    [destruct (negb (query_word_in_documents q ranked))|];
    (destruct (generate w q ranked []) as [[[answer1 response1]|e] log1];
     [|done]);
    destruct ranked as [|r1 ranked1]; by destruct (Res.mapM citation _).
Qed.

Lemma cited_length q k results :
  (0 < k)%Z -> results <> [] ->
  length (cited q k results) = Nat.min (Z.to_nat k) (length results) /\
  cited q k results = intent_rerank q (take (Z.to_nat k) results).
Proof.
  intros Hk Hne. unfold cited, slice_to.
  destruct (0 <=? k)%Z eqn:E; [|lia].
  pose proof (sorted_desc_perm
                (fun r => sr_score r + _bonus (Py.lower q) r)
                (take (Z.to_nat k) results)) as Hperm.
  fold (intent_rerank q (take (Z.to_nat k) results)) in Hperm.
  destruct (intent_rerank q (take (Z.to_nat k) results)) as [|r1 ranked] eqn:Er.
  - apply Permutation_nil_l in Hperm.
    destruct results as [|r rs]; [done|].
    destruct (Z.to_nat k) eqn:Ek; [lia|done].
  - split; [|done]. rewrite Hperm. by rewrite length_take.
Qed.

(** X16.  When the endpoint answers for a positive [top_k] (5 when the request
    gives none), it cites the first [top_k] retrieved results and no
    other, in the order of the intent-based re-sort: one citation for each
    of them, with the score of the result as its confidence and with at
    most 203 characters of content, which agree with the text of the
    result on the first 200. *)
Theorem citations_follow_ranking (w : World) (request : QueryRequest)
    (results : list SearchResult) (response : QueryResponse)
    (log : list LlmCall) :
  let q := processed_query request in
  let k := top_k_or_5 request in
  let ranked := intent_rerank q (take (Z.to_nat k) results) in
  search_documents (store w) (database w) q (course_id request) k
    = Ret results ->
  (0 < k)%Z ->
  Eff.run (document_chat_answer w request) = (Ret response, log) ->
  length (citations response) = Nat.min (Z.to_nat k) (length results) /\
  Forall2 (fun r c => confidence c = sr_score r /\
                      take 200 (cit_content c) = take 200 (sr_text r) /\
                      (Py.len (cit_content c) <= 203)%Z)
          ranked (citations response).
Proof.
  intros q k ranked Hs Hk Hrun.
  destruct results as [|r rs].
  - unfold document_chat_answer, answer_body in Hrun. fold q k in Hrun.
    unfold_eff. rewrite Hs in Hrun. simpl in Hrun.
    injection Hrun as <- <-. subst ranked. rewrite take_nil. simpl.
    split; [lia|constructor].
  - unfold document_chat_answer, Eff.run, Eff.try_except in Hrun.
    rewrite (answer_body_found w request r rs Hs) in Hrun.
    fold q k in Hrun.
    destruct (cited_length q k (r :: rs) Hk ltac:(done)) as [Hlen Hcited].
    fold ranked in Hcited.
    destruct (generate w q _ []) as [[[answer1 response1]|e] log1];
      [|done].
    destruct (Res.mapM citation (cited q k (r :: rs))) as [cs|e] eqn:Hm;
      [|done].
    injection Hrun as <- <-. simpl citations.
    split; [by rewrite (mapM_length _ _ _ Hm)|].
    apply mapM_Forall2 in Hm. rewrite Hcited in Hm.
    eapply Forall2_impl; [exact Hm|].
    intros r0 c Hc. apply citation_facts in Hc. tauto.
Qed.

(** *** A model that fails *)

Lemma cited_subset q k results :
  Forall citable results -> Forall citable (cited q k results).
Proof.
  intros H. unfold cited.
  pose proof (sorted_desc_perm
                (fun r => sr_score r + _bonus (Py.lower q) r)
                (slice_to k results)) as Hperm.
  fold (intent_rerank q (slice_to k results)) in Hperm.
  destruct (intent_rerank q (slice_to k results)) as [|r1 ranked]; [done|].
  rewrite Hperm. unfold slice_to.
  destruct (0 <=? k)%Z; by apply Forall_take.
Qed.

(** X17.  When retrieval has found something and the generative model fails
    with one of the exceptions of the service, the endpoint still answers:
    the model was called once, the answer is an apology that quotes the
    message of the exception, the usage is empty, and the results are
    cited all the same (given that pydantic accepts them as citations).
    Any other exception of the model is answered with status 500. *)
Theorem model_failure_is_answered (w : World) (request : QueryRequest)
    (r : SearchResult) (rs : list SearchResult) (e : exn) :
  let q := processed_query request in
  let k := top_k_or_5 request in
  search_documents (store w) (database w) q (course_id request) k
    = Ret (r :: rs) ->
  (forall call, llm w call = Raise e) ->
  (is_api_error e = true ->
   Forall citable (r :: rs) ->
   exists response call before after,
     Eff.run (document_chat_answer w request) = (Ret response, [call]) /\
     answer response = before ++ exn_str e ++ after /\
     resp_usage response = [] /\
     length (citations response) = length (cited q k (r :: rs))) /\
  (is_api_error e = false ->
   exists call,
     Eff.run (document_chat_answer w request)
     = (Raise (HTTPException 500
                 (str "Error generating answer: " ++ exn_str e)), [call])).
Proof.
  intros q k Hs Hllm.
  unfold document_chat_answer, Eff.run, Eff.try_except.
  rewrite (answer_body_found w request r rs Hs). fold q k.
  set (ranked := intent_rerank q (slice_to k (r :: rs))).
  set (log1 := [llm_call w q
                  (build_context (RAG_MAX_CONTEXT_LENGTH (settings w)) ranked)]).
  assert (Hgen : generate w q ranked [] =
    match e with
    | RateLimitError _ =>
        (Ret (str "I'm sorry, but I've reached my daily limit for free AI responses. " ++
              exn_str e ++
              str ". Please try again tomorrow or consider upgrading your API plan.",
              None), log1)
    | AuthenticationError _ =>
        (Ret (str "Authentication error: " ++ exn_str e ++
              str ". Please check the API configuration.", None), log1)
    | APIError _ =>
        (Ret (str "I'm experiencing technical difficulties: " ++ exn_str e ++
              str ". Please try again later.", None), log1)
    | _ => (Raise e, log1)
    end).
  { unfold generate. unfold_eff. rewrite Hllm. destruct e; reflexivity. }
  split.
  - intros Ha Hc.
    destruct (mapM_total citation (cited q k (r :: rs))) as [cs Hcs].
    { eapply Forall_impl; [apply cited_subset, Hc|].
      intros r0. apply citation_total. }
    rewrite Hgen, Hcs. apply mapM_length in Hcs.
    destruct e; try done.
    + eexists _, _,
        (str "I'm sorry, but I've reached my daily limit for free AI responses. "),
        (str ". Please try again tomorrow or consider upgrading your API plan.").
      by repeat split.
    + eexists _, _, (str "Authentication error: "),
        (str ". Please check the API configuration.").
      by repeat split.
    + eexists _, _, (str "I'm experiencing technical difficulties: "),
        (str ". Please try again later.").
      by repeat split.
  - intros Ha. rewrite Hgen. destruct e; try done; by eexists.
Qed.

(** *** The rewriting of question patterns, again *)

(** X18.  Rewriting a query twice is rewriting it once: none of the six keyword
    queries is rewritten further, and a query that is left unchanged is
    left unchanged again. *)
Theorem rewrite_query_idempotent (query : text) :
  rewrite_query (rewrite_query query) = rewrite_query query.
Proof.
  unfold rewrite_query at 2 3.
  destruct (Py.contains (str "what is the") (Py.lower query)
            && Py.contains (str "score") (Py.lower query)) eqn:E1.
  { destruct (Py.contains (str "aws") (Py.lower query)) eqn:E2;
      [reflexivity|].
    destruct (Py.contains (str "cgpa") (Py.lower query)) eqn:E3;
      [reflexivity|].
    destruct (Py.contains (str "leetcode") (Py.lower query)) eqn:E4;
      [reflexivity|].
    unfold rewrite_query. by rewrite E1, E2, E3, E4. }
  destruct (Py.contains (str "what is") (Py.lower query)
            && Py.contains (str "certificate") (Py.lower query)) eqn:E2;
    [reflexivity|].
  destruct (Py.contains (str "what is") (Py.lower query)
            && Py.contains (str "linkedin") (Py.lower query)) eqn:E3;
    [reflexivity|].
  destruct (Py.contains (str "what is") (Py.lower query)
            && Py.contains (str "project") (Py.lower query)) eqn:E4;
    [reflexivity|].
  unfold rewrite_query. by rewrite E1, E2, E3, E4.
Qed.

End DocumentChatMoreFacts.

(** ** More on retrieval *)

Module RetrievalMoreFacts.
Import LcVectorStore DocumentService PySortFacts LcVectorStoreFacts
  DocumentServiceFacts Spec SpecMore Scenario.
Local Open Scope Q_scope.





(** X20.  As soon as the vector store returns one item, the answer of
    [search_documents] is made of the vector results alone: it is a
    permutation of the results built from the items, it is the same for
    every database (the chunks collection is not read), and it does not
    change when the empty document id is given in place of none. *)
Theorem vector_results_take_precedence (st : Store) (db : Database)
    (query : text) (document_id : option text) (top_k : Z)
    (items : list (Document * Q)) :
  similarity_search_with_similarity st query top_k (truthy_id document_id)
    = Ret items ->
  items <> [] ->
  (exists results,
     search_documents st db query document_id top_k = Ret results /\
     results ≡ₚ map vector_result items /\
     forall db', search_documents st db' query document_id top_k = Ret results) /\
  search_documents st db query (Some []) top_k
  = search_documents st db query None top_k.
Proof.
  intros Hi Hne. split; [|done].
  assert (Hv : forall db', search_documents st db' query document_id top_k
                           = Ret (rerank query (map vector_result items))).
  { intros db'. unfold search_documents, vector_path, mbind, res_bind, Res.bind.
    rewrite Hi. by destruct items. }
  eexists. split; [apply Hv|]. split; [|apply Hv].
  unfold rerank. apply sorted_desc_perm.
Qed.

Lemma aggregate_scope db search_filters document_id top_k results :
  aggregate db search_filters document_id top_k = Ret results ->
  (0 < top_k)%Z /\
  (length results <= Z.to_nat top_k)%nat /\
  exists chunks,
    document_chunks db = Ret chunks /\
    Forall (fun r => exists c, c ∈ chunks /\ sr_text r = c_text c /\
                       sr_document_id r = Py (c_document_id c) /\
                       forall d, truthy_id document_id = Some d ->
                                 c_document_id c = d) results.
Proof.
  unfold aggregate, mbind, res_bind, Res.bind.
  destruct (document_chunks db) as [chunks|]; [|done].
  destruct (documents db) as [uploads|]; [|done].
  destruct (Res.mapM _ _) as [regexes|]; [|done].
  destruct (top_k * 2 <=? 0)%Z eqn:E; [done|].
  intros [= <-]. split; [lia|]. split; [rewrite length_take; lia|].
  exists chunks. split; [done|].
  apply Forall_take, Forall_fmap, Forall_take.
  apply Forall_forall. intros c Hc.
  apply list_elem_of_In, filter_In in Hc as [Hin Hm].
  apply list_elem_of_In in Hin.
  exists c. repeat split; [done|].
  intros d Hd. rewrite Hd in Hm.
  apply andb_true_iff in Hm as [_ Hm]. by apply bool_decide_eq_true in Hm.
Qed.

(** X21.  The regex fallback always answers, with at most [top_k] results; each
    of them is a stored chunk with its text and its document id, and when
    a document id that is not empty is given, every result belongs to that
    document.  For a [top_k] that is not positive the answer is empty. *)
Theorem fallback_respects_scope (db : Database) (query : text)
    (document_id : option text) (top_k : Z) :
  exists results,
    _fallback_text_search db query document_id top_k = Ret results /\
    (length results <= Z.to_nat top_k)%nat /\
    ((top_k <= 0)%Z -> results = []) /\
    (forall d, truthy_id document_id = Some d ->
       Forall (fun r => sr_document_id r = Py d) results) /\
    (forall chunks, document_chunks db = Ret chunks ->
       Forall (fun r => exists c, c ∈ chunks /\ sr_text r = c_text c /\
                          sr_document_id r = Py (c_document_id c)) results).
Proof.
  unfold _fallback_text_search, fallback_query, Res.try_except.
  destruct (aggregate db _ document_id top_k) as [results|e] eqn:Ha.
  - apply aggregate_scope in Ha as (Hk & Hlen & chunks & Hc & Hall).
    exists results. split; [done|]. split; [done|]. split; [lia|]. split.
    + intros d Hd. eapply Forall_impl; [exact Hall|].
      intros r (c & _ & _ & -> & Hscope). by rewrite (Hscope d Hd).
    + intros chunks' Hc'. rewrite Hc in Hc'. injection Hc' as <-.
      eapply Forall_impl; [exact Hall|].
      intros r (c & ? & ? & ? & _). eauto.
  - exists []. split; [done|]. split; [simpl; lia|]. split; [done|].
    split; intros; constructor.
Qed.

(** *** How far the intent-based re-sort can move a result *)





End RetrievalMoreFacts.

(** ** Substrings: [in], [find] and [startswith] *)

Module SubstringFacts.

Lemma startswith_spec p : forall s,
  Py.startswith p s = true <-> exists post, s = p ++ post.
Proof.
  induction p as [|a p IH]; intros s; simpl.
  - split; [eauto|done].
  - destruct s as [|b s]; simpl.
    + split; [done|]. by intros [post ?].
    + rewrite andb_true_iff, bool_decide_eq_true, IH. split.
      * intros [-> [post ->]]. by exists post.
      * intros [post [= -> ->]]. eauto.
Qed.

Lemma startswith_nil p : Py.startswith p [] = true -> p = [].
Proof. by destruct p. Qed.

Lemma find_spec p : forall s i,
  PyMore.find p s = Some i ->
  exists pre post, s = pre ++ p ++ post /\ length pre = i.
Proof.
  induction s as [|c s IH]; intros i; simpl.
  - destruct (Py.startswith p []) eqn:E; [|done].
    intros [= <-]. apply startswith_spec in E as [post ->]. by exists [], post.
  - destruct (Py.startswith p (c :: s)) eqn:E.
    + intros [= <-]. apply startswith_spec in E as [post ->]. by exists [], post.
    + destruct (PyMore.find p s) as [i'|] eqn:Hf; [|done].
      intros [= <-]. destruct (IH i' eq_refl) as (pre & post & -> & <-).
      by exists (c :: pre), post.
Qed.

Lemma find_contains p : forall s,
  Py.contains p s = true <-> is_Some (PyMore.find p s).
Proof.
  induction s as [|c s IH]; simpl.
  - rewrite orb_false_r. destruct (Py.startswith p []); split;
      try done; try (by eexists); by intros [? ?].
  - destruct (Py.startswith p (c :: s)); simpl.
    + split; [by eexists|done].
    + rewrite IH. destruct (PyMore.find p s); simpl; split;
        try done; try (by eexists); by intros [? ?].
Qed.

Lemma contains_app p pre : forall post,
  Py.contains p (pre ++ p ++ post) = true.
Proof.
  induction pre as [|c pre IH]; intros post.
  - simpl app.
    assert (H : Py.startswith p (p ++ post) = true)
      by (apply startswith_spec; eauto).
    destruct (p ++ post); simpl in *; by rewrite H.
  - simpl. by rewrite IH, orb_true_r.
Qed.

Lemma contains_spec p s :
  Py.contains p s = true <-> exists pre post, s = pre ++ p ++ post.
Proof.
  split.
  - intros H. apply find_contains in H as [i Hi].
    apply find_spec in Hi as (pre & post & -> & _). eauto.
  - intros (pre & post & ->). apply contains_app.
Qed.

Lemma lower_app s t : Py.lower (s ++ t) = Py.lower s ++ Py.lower t.
Proof. unfold Py.lower. apply map_app. Qed.

Lemma lower_length s : length (Py.lower s) = length s.
Proof. unfold Py.lower. apply length_map. Qed.

End SubstringFacts.

(** ** Chunks and their positions *)

Module UploadFacts.
Import Upload Spec SpecMore PyFacts SubstringFacts.

Lemma locate_bounds full_text pieces : forall idx cursor,
  Forall (fun c => (idx <= chunk_id c)%nat /\ (cursor <= start_pos c)%nat)
         (locate full_text idx cursor pieces).
Proof.
  induction pieces as [|piece rest IH]; intros idx cursor; simpl; [constructor|].
  destruct (Py.strip piece) as [|ch p] eqn:Hp.
  - eapply Forall_impl; [apply IH|]. intros c [? ?]. simpl. lia.
  - assert (Hle : (cursor <= default cursor
                            (PyMore.find_from (ch :: p) full_text cursor))%nat).
    { unfold PyMore.find_from.
      destruct (PyMore.find _ _); simpl; lia. }
    constructor; [simpl; lia|].
    eapply Forall_impl; [apply IH|]. intros c [? ?]. simpl in *. lia.
Qed.

Lemma find_from_slice p s start i :
  PyMore.find_from p s start = Some i ->
  PyMore.slice i (i + length p) s = p.
Proof.
  unfold PyMore.find_from, PyMore.slice.
  destruct (PyMore.find p (drop start s)) as [j|] eqn:Hf; [|done].
  intros [= <-]. apply find_spec in Hf as (pre & post & Hs & <-).
  rewrite <- drop_drop, Hs, drop_app_length.
  replace (start + length pre + length p - (start + length pre))%nat
    with (length p) by lia.
  by rewrite take_app_length.
Qed.

Lemma locate_chunks full_text pieces : forall idx cursor,
  Forall (fun c =>
            piece_text c <> [] /\ stripped (piece_text c) /\
            char_count c = length (piece_text c) /\
            end_pos c = (start_pos c + char_count c)%nat /\
            (exists p, pieces !! (chunk_id c - idx)%nat = Some p /\
                       piece_text c = Py.strip p) /\
            (PyMore.slice (start_pos c) (end_pos c) full_text = piece_text c \/
             PyMore.find_from (piece_text c) full_text (start_pos c) = None))
         (locate full_text idx cursor pieces).
Proof.
  induction pieces as [|piece rest IH]; intros idx cursor; simpl; [constructor|].
  assert (Hrest : forall cursor',
    Forall (fun c =>
            piece_text c <> [] /\ stripped (piece_text c) /\
            char_count c = length (piece_text c) /\
            end_pos c = (start_pos c + char_count c)%nat /\
            (exists p, (piece :: rest) !! (chunk_id c - idx)%nat = Some p /\
                       piece_text c = Py.strip p) /\
            (PyMore.slice (start_pos c) (end_pos c) full_text = piece_text c \/
             PyMore.find_from (piece_text c) full_text (start_pos c) = None))
         (locate full_text (S idx) cursor' rest)).
  { intros cursor'.
    pose proof (locate_bounds full_text rest (S idx) cursor') as Hb.
    pose proof (IH (S idx) cursor') as Hc.
    rewrite Forall_forall in Hb, Hc. apply Forall_forall. intros c Hin.
    destruct (Hb c Hin) as [Hid _].
    destruct (Hc c Hin) as (? & ? & ? & ? & (p & Hp & ?) & ?).
    do 4 (split; [done|]). split; [|done]. exists p. split; [|done].
    replace (chunk_id c - idx)%nat with (S (chunk_id c - S idx)) by lia.
    done. }
  destruct (Py.strip piece) as [|ch p] eqn:Hp; [apply Hrest|].
  constructor; [|apply Hrest]. simpl.
  split; [done|]. split; [rewrite <- Hp; apply strip_stripped|].
  split; [done|]. split; [done|]. split.
  - exists piece. by rewrite Nat.sub_diag.
  - destruct (PyMore.find_from (ch :: p) full_text cursor) as [i|] eqn:Hf; simpl.
    + left. by apply find_from_slice in Hf.
    + by right.
Qed.

Lemma locate_adjacent full_text pieces : forall idx cursor (i : nat) a b,
  locate full_text idx cursor pieces !! i = Some a ->
  locate full_text idx cursor pieces !! S i = Some b ->
  (chunk_id a < chunk_id b)%nat /\ (end_pos a <= start_pos b)%nat.
Proof.
  induction pieces as [|piece rest IH]; intros idx cursor i a b; simpl; [done|].
  destruct (Py.strip piece) as [|ch p]; [apply IH|].
  destruct i as [|i]; simpl.
  - intros [= <-] Hb. simpl.
    pose proof (locate_bounds full_text rest (S idx)
                  (default cursor (PyMore.find_from (ch :: p) full_text cursor)
                   + length (ch :: p))) as Hall.
    apply (Forall_lookup_1 _ _ _ _ Hall) in Hb. simpl in *. lia.
  - apply IH.
Qed.

Lemma locate_length full_text pieces : forall idx cursor,
  (length (locate full_text idx cursor pieces) <= length pieces)%nat.
Proof.
  induction pieces as [|piece rest IH]; intros idx cursor; simpl; [lia|].
  destruct (Py.strip piece) as [|ch p]; simpl.
  - specialize (IH (S idx) cursor). lia.
  - specialize (IH (S idx)
                  (default cursor (PyMore.find_from (ch :: p) full_text cursor)
                   + S (length p))%nat). lia.
Qed.

(** X23.  The chunks [upload_document] records for the pieces of the splitter:
    each is a piece with the white space around it removed, never empty,
    under the index of its piece; its character count is the length of its
    text and its end is its start plus that count.  Chunk indices
    increase and the recorded ranges never overlap: a chunk starts at or
    after the end of the chunk before it, also when the pieces themselves
    overlap in the text.  The text between the recorded positions is the
    chunk whenever the chunk was found; otherwise the chunk does not occur
    from its recorded start on. *)
Theorem chunk_positions (full_text : text) (pieces : list text) :
  let chunks := chunks_of full_text pieces in
  Forall (fun c =>
            piece_text c <> [] /\ stripped (piece_text c) /\
            char_count c = length (piece_text c) /\
            end_pos c = (start_pos c + char_count c)%nat /\
            (exists p, pieces !! chunk_id c = Some p /\
                       piece_text c = Py.strip p) /\
            (PyMore.slice (start_pos c) (end_pos c) full_text = piece_text c \/
             PyMore.find_from (piece_text c) full_text (start_pos c) = None))
         chunks /\
  (forall (i : nat) a b,
     chunks !! i = Some a -> chunks !! S i = Some b ->
     (chunk_id a < chunk_id b)%nat /\ (end_pos a <= start_pos b)%nat) /\
  (length chunks <= length pieces)%nat.
Proof.
  intros chunks. subst chunks. unfold chunks_of. split; [|split].
  - eapply Forall_impl; [apply (locate_chunks full_text pieces 0 0)|].
    intros c (? & ? & ? & ? & (p & Hp & ?) & ?).
    do 4 (split; [done|]). split; [|done].
    exists p. by rewrite Nat.sub_0_r in Hp.
  - apply locate_adjacent.
  - apply locate_length.
Qed.

Lemma infer_section_cases (t : text) :
  (Py.contains (str "project") (Py.lower t) = true <->
   _infer_section t = str "projects") /\
  (_infer_section t = str "internships" <->
   Py.contains (str "project") (Py.lower t) = false /\
   Py.contains (str "internship") (Py.lower t) = true) /\
  _infer_section t ∈ map str ["projects"; "internships"; "education";
                               "skills"; "experience"; "other"]%string.
Proof.
  unfold _infer_section.
  assert (Hs : Py.contains (str "internships") (Py.lower t) = true ->
               Py.contains (str "internship") (Py.lower t) = true).
  { intros H. apply contains_spec in H as (pre & post & ->).
    change (str "internships") with (str "internship" ++ str "s").
    rewrite <- app_assoc. apply contains_app. }
  destruct (Py.contains (str "project") (Py.lower t)).
  { split; [done|]. split; [|set_solver]. split; [done|by intros []]. }
  destruct (Py.contains (str "internship") (Py.lower t)) eqn:Ei.
  { cbn [orb]. split; [done|]. split; [done|set_solver]. }
  destruct (Py.contains (str "internships") (Py.lower t)) eqn:Eis.
  { by specialize (Hs eq_refl). }
  cbn [orb].
  destruct (Py.contains (str "education") (Py.lower t));
    [split; [done|]; split; [split; [done|by intros []]|set_solver]|].
  destruct (Py.contains (str "skill") (Py.lower t));
    [split; [done|]; split; [split; [done|by intros []]|set_solver]|].
  destruct (Py.contains (str "experience") (Py.lower t));
    split; try done; (split; [split; [done|by intros []]|set_solver]).
Qed.

End UploadFacts.

(** ** Ingested chunks and the two re-sorts *)

Module IngestionFacts.
Import LcVectorStore DocumentService Upload PySortFacts SubstringFacts
  UploadFacts Spec SpecMore.
Local Open Scope Q_scope.

Lemma sorted_desc_id {A} (key : A -> Q) l :
  Sorted (ge_key key) l -> PySort.sorted_desc key l = l.
Proof.
  induction 1 as [|x l Hs IH Hhd]; [done|].
  unfold PySort.sorted_desc in *. simpl. rewrite IH.
  destruct Hhd as [|y l' Hxy]; [done|]. simpl.
  unfold ge_key in Hxy. unfold PyNum.Qltb.
  apply Qle_bool_iff in Hxy. by rewrite Hxy.
Qed.

Lemma Sorted_key_ext {A} (f g : A -> Q) l :
  Forall (fun r => f r = g r) l ->
  Sorted (ge_key f) l -> Sorted (ge_key g) l.
Proof.
  intros Hall Hs. induction Hs as [|x l Hs IH Hhd]; [constructor|].
  apply Forall_cons in Hall as [Hx Hall]. constructor; [by apply IH|].
  destruct Hhd as [|y l' Hxy]; constructor.
  apply Forall_cons in Hall as [Hy _].
  unfold ge_key in *. by rewrite <- Hx, <- Hy.
Qed.

Lemma Sorted_take {A} (R : A -> A -> Prop) n l :
  Sorted R l -> Sorted R (take n l).
Proof.
  intros Hs. revert n. induction Hs as [|x l Hs IH Hhd]; intros [|n]; simpl;
    try constructor; [apply IH|].
  destruct Hhd as [|y l' Hxy]; destruct n; simpl; by constructor.
Qed.

Lemma ingested_bonus q r :
  ingested r -> bonus q r = DocumentChat._bonus q r.
Proof.
  unfold ingested, bonus, DocumentChat._bonus. intros ->. simpl or_empty.
  destruct (infer_section_cases (sr_text r)) as (Hp & Hi & _).
  assert (E1 : Py.contains (str "project") (Py.lower (_infer_section (sr_text r)))
               || Py.contains (str "project") (Py.lower (sr_text r))
               = Py.contains (str "project") (Py.lower (sr_text r))).
  { destruct (Py.contains (str "project") (Py.lower (sr_text r))) eqn:E;
      [apply orb_true_r|]. rewrite orb_false_r.
    unfold _infer_section. rewrite E.
    repeat match goal with
           | |- context [if ?b then _ else _] => destruct b
           end; reflexivity. }
  assert (E2 : Py.contains (str "internship")
                 (Py.lower (_infer_section (sr_text r)))
               || Py.contains (str "internship") (Py.lower (sr_text r))
               = Py.contains (str "internship") (Py.lower (sr_text r))).
  { destruct (Py.contains (str "internship") (Py.lower (sr_text r))) eqn:E;
      [apply orb_true_r|]. rewrite orb_false_r.
    destruct (Py.contains (str "internship")
                (Py.lower (_infer_section (sr_text r)))) eqn:E'; [|done].
    assert (Hs : _infer_section (sr_text r) = str "internships").
    { revert E'. unfold _infer_section.
      repeat match goal with
             | |- context [if ?b then _ else _] => destruct b
             end; try reflexivity; vm_compute; discriminate. }
    apply Hi in Hs as [_ Hs]. congruence. }
  by rewrite E1, E2.
Qed.

(** X24.  For chunks that [upload_document] gave the vector store, the section
    adds nothing to the text: the bonus of [search_documents] is the bonus
    of the endpoint, and the second re-sort, which the endpoint applies to
    the first [top_k] results of [search_documents], leaves them in the
    order [search_documents] gave them. *)
Theorem second_sort_keeps_order (query : text) (k : Z)
    (vector_results : list SearchResult) :
  (forall document_id filename c sim,
     ingested (result_of_chunk document_id filename c sim)) /\
  (forall r, ingested r ->
     bonus (Py.lower query) r = DocumentChat._bonus (Py.lower query) r) /\
  (Forall ingested vector_results ->
   DocumentChat.intent_rerank query
     (DocumentChat.slice_to k (rerank query vector_results))
   = DocumentChat.slice_to k (rerank query vector_results)).
Proof.
  split; [done|]. split; [intros r; apply ingested_bonus|].
  intros Hall. unfold DocumentChat.intent_rerank.
  apply sorted_desc_id.
  assert (Hs : Sorted (ge_key (fun r => sr_score r + bonus (Py.lower query) r))
                 (DocumentChat.slice_to k (rerank query vector_results))).
  { unfold DocumentChat.slice_to.
    destruct (0 <=? k)%Z; apply Sorted_take, sorted_desc_sorted. }
  eapply Sorted_key_ext; [|exact Hs].
  assert (Hin : Forall ingested
                  (DocumentChat.slice_to k (rerank query vector_results))).
  { unfold DocumentChat.slice_to.
    destruct (0 <=? k)%Z; apply Forall_take; unfold rerank;
      by rewrite sorted_desc_perm. }
  eapply Forall_impl; [exact Hin|].
  intros r Hr. simpl. by rewrite (ingested_bonus _ r Hr).
Qed.

End IngestionFacts.

(** ** Deleting a document *)

Module DeletionFacts.
Import DocumentService Deletion DocumentServiceFacts RetrievalMoreFacts Spec
  SpecMore.

Lemma delete_first_spec document_id : forall l l' n,
  delete_first document_id l = (l', n) ->
  ((0 <? n)%Z = true <-> exists u, u ∈ l /\ u_document_id u = document_id) /\
  (length l = length l' + Z.to_nat n)%nat /\ (n = 0 \/ n = 1)%Z /\
  (forall u, u_document_id u <> document_id -> u ∈ l <-> u ∈ l').
Proof.
  induction l as [|u l IH]; intros l' n; simpl.
  - intros [= <- <-]. repeat split; try done; try lia; try (by left).
    intros (u & Hu & _). by apply elem_of_nil in Hu.
  - case_bool_decide as Hd.
    + intros [= <- <-]. repeat split; try done; try lia; try (by right).
      * intros _. exists u. split; [left|done].
      * intros Hin. apply elem_of_cons in Hin as [->|Hin]; done.
    + destruct (delete_first document_id l) as [l'' n'] eqn:Hdf.
      intros [= <- <-]. destruct (IH l'' n' eq_refl) as (Hex & Hlen & Hn & Hkeep).
      split; [|split; [simpl; lia|split; [done|]]].
      * rewrite Hex. split.
        -- intros (u0 & Hu0 & Hid). exists u0. split; [by right|done].
        -- intros (u0 & Hu0 & Hid).
           apply elem_of_cons in Hu0 as [->|Hu0]; [done|eauto].
      * intros u0 Hu0. rewrite !elem_of_cons. by rewrite (Hkeep u0 Hu0).
Qed.

Lemma delete_document_chunks (m : Mongo) (document_id : text) :
  chunks_up m = true ->
  chunks_up (delete_document m document_id).2 = true /\
  Forall (fun c => c_document_id c <> document_id)
         (chunks (delete_document m document_id).2).
Proof.
  intros Hc. unfold delete_document. rewrite Hc. cbn [negb].
  assert (Hgone : Forall (fun c => c_document_id c <> document_id)
            (List.filter
               (fun c => negb (bool_decide (c_document_id c = document_id)))
               (chunks m))).
  { apply Forall_forall. intros c Hin.
    apply list_elem_of_In, filter_In in Hin as [_ Hin].
    by apply negb_true_iff, bool_decide_eq_false in Hin. }
  destruct (uploads_up m); cbn [negb]; [|done].
  by destruct (delete_first document_id (uploads m)).
Qed.

(** X25.  [delete_document] never raises.  Once the chunks collection is
    reached, no chunk of the document is left and every other chunk is
    kept, whatever happens next: when the documents collection cannot be
    reached, or holds no such document, the chunks are gone although the
    answer is [False].  The answer is [True] exactly when both collections
    are reached and the documents collection held a document of that id,
    of which one record is then deleted. *)
Theorem delete_document_effect (m : Mongo) (document_id : text) :
  let out := delete_document m document_id in
  (chunks_up m = true ->
   Forall (fun c => c_document_id c <> document_id) (chunks out.2) /\
   forall c, c_document_id c <> document_id ->
             c ∈ chunks m <-> c ∈ chunks out.2) /\
  (chunks_up m = false -> out = (false, m)) /\
  (out.1 = true <->
   chunks_up m = true /\ uploads_up m = true /\
   exists u, u ∈ uploads m /\ u_document_id u = document_id) /\
  (out.1 = true -> length (uploads m) = S (length (uploads out.2))) /\
  (forall u, u_document_id u <> document_id ->
             u ∈ uploads m <-> u ∈ uploads out.2).
Proof.
  intros out. subst out. unfold delete_document.
  destruct (chunks_up m) eqn:Hc; cbn [negb].
  2: { repeat split; try done. by intros (? & _). }
  assert (Hchunks :
    Forall (fun c => c_document_id c <> document_id)
      (List.filter (fun c => negb (bool_decide (c_document_id c = document_id)))
         (chunks m)) /\
    forall c, c_document_id c <> document_id ->
      c ∈ chunks m <->
      c ∈ List.filter
            (fun c => negb (bool_decide (c_document_id c = document_id)))
            (chunks m)).
  { split.
    - apply Forall_forall. intros c Hin.
      apply list_elem_of_In, filter_In in Hin as [_ Hin].
      apply negb_true_iff, bool_decide_eq_false in Hin. done.
    - intros c Hne. rewrite !list_elem_of_In, filter_In.
      split; [|tauto]. intros Hin. split; [done|].
      by apply negb_true_iff, bool_decide_eq_false. }
  destruct (uploads_up m) eqn:Hu; cbn [negb].
  2: { simpl. split; [intros _; exact Hchunks|]. split; [done|].
       split; [split; [done|by intros (_ & ? & _)]|]. by split. }
  destruct (delete_first document_id (uploads m)) as [uploads' n] eqn:Hdf.
  apply delete_first_spec in Hdf as (Hex & Hlen & Hn & Hkeep). simpl.
  split; [intros _; exact Hchunks|]. split; [done|]. split; [|split].
  - rewrite Hex. split; [by intros ?|by intros (_ & _ & ?)].
  - intros Hpos. destruct Hn as [-> | ->]; [done|]. simpl in Hlen. lia.
  - exact Hkeep.
Qed.

(** X26.  The endpoint answers a deletion with the message or with status 404:
    the handler for other exceptions, which would answer 500, cannot be
    reached.  It answers 404 also when the chunks of the document were
    deleted and only the documents collection could not be reached.
    After any deletion that reached the chunks collection, the regex
    fallback restricted to that document finds nothing. *)
Theorem delete_endpoint_outcomes (m : Mongo) (document_id : text) :
  let out := delete_endpoint m document_id in
  (out.1 = Ret (str "Document deleted successfully") \/
   out.1 = Raise (HTTPException 404 (str "Document not found"))) /\
  out.2 = (delete_document m document_id).2 /\
  (chunks_up m = true -> uploads_up m = false ->
   out.1 = Raise (HTTPException 404 (str "Document not found")) /\
   Forall (fun c => c_document_id c <> document_id) (chunks out.2)) /\
  (chunks_up m = true -> document_id <> [] ->
   forall regex query top_k,
     _fallback_text_search (as_database out.2 regex) query
       (Some document_id) top_k = Ret []).
Proof.
  intros out. subst out. unfold delete_endpoint.
  pose proof (delete_document_chunks m document_id) as Hc.
  destruct (delete_document m document_id) as [success m'] eqn:Hd.
  simpl in *.
  split; [destruct success; [by left|by right]|]. split; [done|]. split.
  - intros Hcu Huu. split; [|by apply Hc].
    unfold delete_document in Hd. rewrite Hcu, Huu in Hd. simpl in Hd.
    by injection Hd as <- <-.
  - intros Hcu Hne regex query top_k.
    destruct (Hc Hcu) as [Hup Hgone].
    unfold _fallback_text_search, fallback_query, Res.try_except.
    destruct (aggregate _ _ (Some document_id) top_k) as [results|e] eqn:Ha;
      [|done].
    apply aggregate_scope in Ha as (_ & _ & stored & Hst & Hall).
    simpl in Hst. rewrite Hup in Hst. injection Hst as <-.
    destruct results as [|r results]; [done|]. exfalso.
    apply Forall_cons in Hall as [(c & Hin & _ & _ & Hscope) _].
    rewrite Forall_forall in Hgone. apply (Hgone c Hin).
    apply Hscope. by destruct document_id.
Qed.

End DeletionFacts.

(** ** Validation and extraction of an uploaded PDF *)

Module PdfProcessorFacts.
Import PdfProcessor Spec SpecMore PyFacts.

Lemma validate_file_ret (name : option text) (file_content : list Byte.byte) r :
  validate_file name file_content = Ret r ->
  r = true /\ (Py.len file_content <= max_file_size)%Z.
Proof.
  unfold validate_file. destruct name as [[|c n]|]; try done.
  destruct (negb _); [done|].
  destruct (max_file_size <? Py.len file_content)%Z eqn:E; [done|].
  intros [= <-]. split; [done|]. by apply Z.ltb_ge.
Qed.

Lemma validate_file_raise (name : option text) (file_content : list Byte.byte) e :
  validate_file name file_content = Raise e ->
  exists detail, e = HTTPException 400 detail.
Proof.
  unfold validate_file. destruct name as [[|c n]|];
    try (intros [= <-]; by eexists).
  destruct (negb _); [intros [= <-]; by eexists|].
  destruct (max_file_size <? Py.len file_content)%Z; [|done].
  intros [= <-]. by eexists.
Qed.

(** X27.  [validate_file] accepts a file exactly when its name is not empty and
    ends in [.pdf], in any letter case, and its content has at most ten
    mebibytes; every rejection is an HTTP error of status 400. *)
Theorem validate_file_accepts_pdf_only (name : option text)
    (file_content : list Byte.byte) :
  (validate_file name file_content = Ret true <->
   exists n, name = Some n /\ n <> [] /\
     PyMore.endswith (str ".pdf") (Py.lower n) = true /\
     (Py.len file_content <= 10 * 1024 * 1024)%Z) /\
  (forall r, validate_file name file_content = Ret r -> r = true) /\
  (forall e, validate_file name file_content = Raise e ->
     exists detail, e = HTTPException 400 detail).
Proof.
  unfold validate_file, allowed_extensions, max_file_size, Py.any.
  destruct name as [[|c n]|]; cbn [existsb].
  - split; [|split; [done|intros e [= <-]; eauto]].
    split; [done|]. by intros (n & [= <-] & ? & _).
  - rewrite orb_false_r.
    destruct (PyMore.endswith (str ".pdf") (Py.lower (c :: n))) eqn:E;
      cbn [negb].
    + destruct (10 * 1024 * 1024 <? Py.len file_content)%Z eqn:Es.
      * apply Z.ltb_lt in Es.
        split; [|split; [done|intros e [= <-]; eauto]].
        split; [done|]. intros (n' & [= <-] & _ & _ & ?). lia.
      * apply Z.ltb_ge in Es.
        split; [|split; [by intros r [= <-]|done]].
        split; [|done]. intros _. exists (c :: n). by rewrite E.
    + split; [|split; [done|intros e [= <-]; eauto]].
      split; [done|]. intros (n' & [= <-] & _ & E' & _). congruence.
  - split; [|split; [done|intros e [= <-]; eauto]].
    split; [done|]. by intros (n & [=] & _).
Qed.

Lemma Sorted_snoc (l : list Z) (x : Z) :
  Sorted Z.lt l -> Forall (fun y => (y < x)%Z) l -> Sorted Z.lt (l ++ [x]).
Proof.
  induction 1 as [|y l Hs IH Hhd]; intros Hall; simpl.
  - repeat constructor.
  - apply Forall_cons in Hall as [Hy Hall]. constructor; [by apply IH|].
    destruct Hhd; simpl; by constructor.
Qed.

Lemma read_pages_invariant pages : forall page_num ft pts ft' pts',
  read_pages page_num pages ft pts = (ft', pts') ->
  Forall (fun p => page_text p <> [] /\ stripped (page_text p) /\
                   page_char_count p = Py.len (page_text p) /\
                   (1 <= page_number p <= page_num)%Z) pts ->
  Sorted Z.lt (map page_number pts) ->
  (0 <= page_num)%Z ->
  Forall (fun p => page_text p <> [] /\ stripped (page_text p) /\
                   page_char_count p = Py.len (page_text p) /\
                   (1 <= page_number p <= page_num + Py.len pages)%Z) pts' /\
  Sorted Z.lt (map page_number pts') /\
  (Py.len pts' <= Py.len pts + Py.len pages)%Z.
Proof.
  induction pages as [|page rest IH]; intros page_num ft pts ft' pts'; simpl.
  - intros [= <- <-] Hall Hs Hn. split; [|split; [done|unfold Py.len; simpl; lia]].
    eapply Forall_impl; [exact Hall|]. unfold Py.len. simpl.
    intros p (? & ? & ? & ?). do 3 (split; [done|]). lia.
  - assert (Hlen : Py.len (page :: rest) = (1 + Py.len rest)%Z)
      by (unfold Py.len; simpl; lia).
    assert (Hkeep : Forall (fun p => page_text p <> [] /\ stripped (page_text p) /\
                      page_char_count p = Py.len (page_text p) /\
                      (1 <= page_number p <= page_num)%Z) pts ->
              Forall (fun p => page_text p <> [] /\ stripped (page_text p) /\
                      page_char_count p = Py.len (page_text p) /\
                      (1 <= page_number p <= page_num + 1)%Z) pts).
    { intros Hall. eapply Forall_impl; [exact Hall|].
      intros p (? & ? & ? & ?). do 3 (split; [done|]). lia. }
    assert (Hskip : read_pages (page_num + 1) rest ft pts = (ft', pts') ->
              Forall (fun p => page_text p <> [] /\ stripped (page_text p) /\
                      page_char_count p = Py.len (page_text p) /\
                      (1 <= page_number p <= page_num)%Z) pts ->
              Sorted Z.lt (map page_number pts) -> (0 <= page_num)%Z ->
              Forall (fun p => page_text p <> [] /\ stripped (page_text p) /\
                      page_char_count p = Py.len (page_text p) /\
                      (1 <= page_number p
                       <= page_num + Py.len (page :: rest))%Z) pts' /\
              Sorted Z.lt (map page_number pts') /\
              (Py.len pts' <= Py.len pts + Py.len (page :: rest))%Z).
    { intros Hr Hall Hs Hn.
      destruct (IH _ _ _ _ _ Hr (Hkeep Hall) Hs ltac:(lia)) as (H1 & H2 & H3).
      split; [|split; [done|lia]].
      eapply Forall_impl; [exact H1|].
      intros p (? & ? & ? & ?). do 3 (split; [done|]). lia. }
    destruct page as [t|e]; [|exact Hskip].
    unfold PyMore.truthy. case_bool_decide as Hempty; cbn [negb];
      [exact Hskip|].
    intros Hr Hall Hs Hn.
    destruct (IH _ _ _ _ _ Hr) as (H1 & H2 & H3).
    + apply Forall_app. split; [by apply Hkeep|].
      constructor; [|constructor]. simpl.
      split; [done|]. split; [apply strip_stripped|]. split; [done|lia].
    + rewrite map_app. simpl. apply Sorted_snoc; [done|].
      apply Forall_fmap. eapply Forall_impl; [exact Hall|].
      intros p (_ & _ & _ & ?). simpl. lia.
    + lia.
    + split; [|split; [done|]].
      * eapply Forall_impl; [exact H1|].
        intros p (? & ? & ? & ?). do 3 (split; [done|]). lia.
      * unfold Py.len in *. rewrite length_app in H3. simpl in *. lia.
Qed.

Lemma len_strip_le s : (Py.len (Py.strip s) <= Py.len s)%Z.
Proof.
  assert (Hl : forall s, (length (Py.lstrip s) <= length s)%nat).
  { induction s0 as [|c s0 IH]; simpl; [lia|].
    destruct (Py.is_space c); simpl; lia. }
  unfold Py.strip, Py.rstrip, Py.len.
  rewrite length_reverse.
  pose proof (Hl (reverse (Py.lstrip s))) as H1. rewrite length_reverse in H1.
  pose proof (Hl s). lia.
Qed.

(** X28.  [extract_text_from_pdf] fails in two ways only: the file is rejected
    by [validate_file], and the error of the validation, of status 400,
    is passed on as it is; or the reader raises, which is answered with
    status 500 (an HTTP error of the reader itself is passed on).  A page
    that cannot be read and a failing pdfminer fail nothing.  In the
    result every page text is stripped and not empty with its length as
    character count, page numbers start at 1 and increase strictly, the
    number of extracted pages is the number of page texts and at most one
    when the document has no page, and the stripped full text is not
    longer than the character total. *)
Theorem extract_text_outcomes (name : option text)
    (file_content : list Byte.byte)
    (reader : res (list (res (option text)))) (pdfminer : res (option text)) :
  match extract_text_from_pdf name file_content reader pdfminer with
  | Ret x =>
      validate_file name file_content = Ret true /\
      (exists pages, reader = Ret pages /\
         (extracted_pages x <= Z.max 1 (Py.len pages))%Z) /\
      Forall (fun p => page_text p <> [] /\ stripped (page_text p) /\
                       page_char_count p = Py.len (page_text p) /\
                       (1 <= page_number p)%Z) (page_texts x) /\
      Sorted Z.lt (map page_number (page_texts x)) /\
      extracted_pages x = Py.len (page_texts x) /\
      (Py.len (full_text x) <= total_characters x)%Z /\
      (file_size x <= max_file_size)%Z
  | Raise e =>
      validate_file name file_content = Raise e \/
      (validate_file name file_content = Ret true /\
       exists e', reader = Raise e' /\
         (e = e' \/
          e = HTTPException 500 (str "Error processing PDF: " ++ exn_str e')))
  end.
Proof.
  unfold extract_text_from_pdf, Res.try_except, mbind, res_bind, Res.bind.
  destruct (validate_file name file_content) as [r|e] eqn:Hv.
  2: { destruct (validate_file_raise _ _ _ Hv) as [detail ->]. by left. }
  pose proof (validate_file_ret _ _ _ Hv) as [-> Hsize].
  destruct reader as [pages|e'].
  2: { destruct e'; right; (split; [done|]); eexists; split; eauto. }
  destruct (read_pages 0 pages [] []) as [ft pts] eqn:Hr.
  apply read_pages_invariant in Hr as (H1 & H2 & H3);
    [|constructor|constructor|lia].
  assert (Hgood : Forall (fun p => page_text p <> [] /\ stripped (page_text p) /\
                    page_char_count p = Py.len (page_text p) /\
                    (1 <= page_number p)%Z) pts).
  { eapply Forall_impl; [exact H1|]. intros p (? & ? & ? & ?). do 3 (split; [done|]). lia. }
  assert (Hone : forall t, PyMore.truthy (Py.strip t) = true ->
            Forall (fun p => page_text p <> [] /\ stripped (page_text p) /\
                      page_char_count p = Py.len (page_text p) /\
                      (1 <= page_number p)%Z)
              [{| page_number := 1; page_text := Py.strip t;
                  page_char_count := Py.len (Py.strip t) |}]).
  { intros t Ht. constructor; [|constructor]. simpl.
    unfold PyMore.truthy in Ht. apply negb_true_iff, bool_decide_eq_false in Ht.
    split; [done|]. split; [apply strip_stripped|]. split; [done|lia]. }
  assert (Hcount : (Py.len pts <= Z.max 1 (Py.len pages))%Z)
    by (unfold Py.len in *; simpl in *; lia).
  unfold with_pdfminer.
  destruct (Py.len (Py.strip ft) <? 50)%Z.
  - destruct pdfminer as [t|]; simpl.
    + destruct (PyMore.truthy (Py.strip (default [] t))) eqn:Ht; simpl.
      * split; [done|]. split; [exists pages; split; [done|]|].
        { unfold Py.len. simpl. lia. }
        split; [by apply Hone|]. split; [repeat constructor|].
        split; [done|]. split; [apply len_strip_le|done].
      * split; [done|]. split; [by exists pages|].
        split; [done|]. split; [done|]. split; [done|].
        split; [apply len_strip_le|done].
    + split; [done|]. split; [by exists pages|].
      split; [done|]. split; [done|]. split; [done|].
      split; [apply len_strip_le|done].
  - simpl. split; [done|]. split; [by exists pages|].
    split; [done|]. split; [done|]. split; [done|].
    split; [apply len_strip_le|done].
Qed.

End PdfProcessorFacts.

(** ** The allowed origins *)

Module ConfigFacts.
Import Config Spec SpecMore PyFacts.

Lemma filter_truthy_nonempty (l : list text) :
  Forall (fun o => o <> []) (List.filter PyMore.truthy l).
Proof.
  apply Forall_forall. intros o Ho.
  apply list_elem_of_In, filter_In in Ho as [_ Ho].
  unfold PyMore.truthy in Ho. by apply negb_true_iff, bool_decide_eq_false in Ho.
Qed.

Lemma stripped_parts_stripped (parts : list text) :
  Forall stripped (stripped_parts parts).
Proof.
  unfold stripped_parts. apply Forall_forall. intros o Ho.
  apply list_elem_of_In, filter_In in Ho as [Ho _].
  apply in_map_iff in Ho as (p & <- & _). apply strip_stripped.
Qed.

(** X29.  [get_cors_origins] never returns an empty origin.  An unset or empty
    setting gives the two default origins, a setting of white space alone
    gives no origin at all; and for a setting that is not a bracketed
    list, or is one that parses as JSON, every origin has no white space
    around it. *)
Theorem cors_origins_are_not_empty (value : option text)
    (json_loads : text -> res (option (list text))) :
  Forall (fun o => o <> []) (get_cors_origins value json_loads) /\
  (value = None \/ value = Some [] ->
   get_cors_origins value json_loads = _CORS_DEFAULT) /\
  (forall v, value = Some v -> v <> [] -> Py.strip v = [] ->
     get_cors_origins value json_loads = []) /\
  (forall v, value = Some v ->
     (Py.startswith (str "[") (Py.strip v)
      && PyMore.endswith (str "]") (Py.strip v) = false \/
      exists parsed, json_loads (Py.strip v) = Ret (Some parsed)) ->
     Forall stripped (get_cors_origins value json_loads)).
Proof.
  assert (Hdefault : Forall (fun o : text => o <> []) _CORS_DEFAULT /\
                     Forall stripped _CORS_DEFAULT).
  { unfold _CORS_DEFAULT. split; repeat constructor; try done;
      intros c [= <-]; reflexivity. }
  unfold get_cors_origins.
  destruct value as [[|c v]|].
  - split; [apply Hdefault|]. split; [done|]. split; [by intros ? [= <-]|].
    intros ? _ _. apply Hdefault.
  - destruct (Py.strip (c :: v)) as [|c' s] eqn:Hs.
    + split; [constructor|]. split; [by intros [|]|].
      split; [done|]. intros ? _ _. constructor.
    + split; [|split; [by intros [|]|split]].
      * destruct (Py.startswith _ _ && PyMore.endswith _ _);
          [|apply filter_truthy_nonempty].
        destruct (json_loads (c' :: s)) as [[parsed|]|];
          apply filter_truthy_nonempty.
      * intros v0 [= <-] _ Hv. by rewrite Hs in Hv.
      * intros v0 [= <-] [Hb|[parsed Hp]]; rewrite Hs in *.
        -- rewrite Hb. apply stripped_parts_stripped.
        -- destruct (Py.startswith _ _ && PyMore.endswith _ _);
             [|apply stripped_parts_stripped].
           rewrite Hp. apply stripped_parts_stripped.
  - split; [apply Hdefault|]. split; [done|]. split; [done|].
    intros ? [=].
Qed.

End ConfigFacts.

(** ** The excerpt of a citation *)

Module CitationSpansFacts.
Import VectorSearch CitationSpans SubstringFacts Spec SpecMore.

Lemma length_slice {A} (a b : nat) (l : list A) :
  (length (PyMore.slice a b l) <= b - a)%nat.
Proof. unfold PyMore.slice. rewrite length_take. lia. Qed.

Lemma length_span_at content word pos :
  (length (span_at content word pos) <= length word + 106)%nat.
Proof.
  unfold span_at.
  pose proof (length_slice (pos - 50)
                (Nat.min (length content) (pos + length word + 50)) content) as H.
  destruct (0 <? pos - 50)%nat, (_ <? length content)%nat;
    rewrite ?length_app; change (length (str "...")) with 3%nat; lia.
Qed.

Lemma span_at_contains content word pos :
  PyMore.find word (Py.lower content) = Some pos ->
  Py.contains word (Py.lower (span_at content word pos)) = true.
Proof.
  intros Hf. apply find_spec in Hf as (pre & post & Hl & Hpos).
  assert (Hlen : length content = (length pre + length word + length post)%nat).
  { rewrite <- (lower_length content), Hl, !length_app. lia. }
  assert (Hslice : exists a b,
            Py.lower (PyMore.slice (pos - 50)
                        (Nat.min (length content) (pos + length word + 50))
                        content) = a ++ word ++ b).
  { unfold PyMore.slice, Py.lower. rewrite <- firstn_map, <- skipn_map.
    fold (Py.lower content). rewrite Hl.
    rewrite drop_app_le by lia.
    exists (drop (pos - 50) pre).
    rewrite take_app_ge by (rewrite length_drop; lia).
    rewrite take_app_ge by (rewrite length_drop; lia).
    eexists. reflexivity. }
  destruct Hslice as (a & b & Hs).
  unfold span_at.
  destruct (0 <? pos - 50)%nat, (_ <? length content)%nat;
    rewrite ?lower_app, Hs; apply contains_spec.
  - exists (Py.lower (str "...") ++ a), (b ++ Py.lower (str "...")).
    by rewrite <- !app_assoc.
  - exists (Py.lower (str "...") ++ a), b. by rewrite <- !app_assoc.
  - exists a, (b ++ Py.lower (str "...")). by rewrite <- !app_assoc.
  - by exists a, b.
Qed.

Lemma first_match_spec content : forall words,
  match first_match content (Py.lower content) words with
  | None =>
      Forall (fun w => Py.contains w (Py.lower content) = false) words
  | Some span =>
      exists before w after pos,
        words = before ++ w :: after /\
        Forall (fun v => Py.contains v (Py.lower content) = false) before /\
        PyMore.find w (Py.lower content) = Some pos /\
        span = span_at content w pos
  end.
Proof.
  induction words as [|word words IH]; simpl; [constructor|].
  destruct (Py.contains word (Py.lower content)) eqn:Hc.
  - apply find_contains in Hc as [pos Hpos]. rewrite Hpos.
    by exists [], word, words, pos.
  - destruct (first_match content (Py.lower content) words) as [span|].
    + destruct IH as (before & w & after & pos & -> & Hb & Hf & ->).
      exists (word :: before), w, after, pos.
      repeat split; try done. by constructor.
    + by constructor.
Qed.

(** X30.  The excerpt of a citation of the course pipeline.  When a word of the
    query occurs in the content (without regard to letter case), the
    excerpt is cut around the first occurrence of the first such word: it
    contains that word and has at most 106 characters more than the word.
    When no word of the query occurs, it is the content, cut to 200
    characters and an ellipsis when longer.  One citation is made for each
    result, with the score of the result as its confidence. *)
Theorem citation_excerpt (content query : text) :
  (forall before w after,
     Py.split (Py.lower query) = before ++ w :: after ->
     Forall (fun v => Py.contains v (Py.lower content) = false) before ->
     Py.contains w (Py.lower content) = true ->
     Py.contains w (Py.lower (best_span content query)) = true /\
     (length (best_span content query) <= length w + 106)%nat) /\
  (Forall (fun w => Py.contains w (Py.lower content) = false)
          (Py.split (Py.lower query)) ->
   best_span content query
   = if (200 <? length content)%nat then take 200 content ++ str "..."
     else content) /\
  (forall search_results,
     map confidence (get_citations_from_results search_results query)
       = map vsr_score search_results /\
     map cit_content (get_citations_from_results search_results query)
       = map (fun r => best_span (cc_content (vsr_content r)) query)
             search_results).
Proof.
  unfold best_span.
  pose proof (first_match_spec content (Py.split (Py.lower query))) as Hm.
  split; [|split].
  - intros before w after Hw Hb Hc.
    destruct (first_match _ _ _) as [span|].
    + destruct Hm as (before' & w' & after' & pos & Hw' & Hb' & Hf & ->).
      assert (Hsame : before' = before /\ w' = w).
      { rewrite Hw in Hw'. clear Hw.
        revert before' Hw' Hb'. induction before as [|v before IH];
          intros [|v' before'] Hw' Hb'; simpl in *.
        - by injection Hw' as <- _.
        - injection Hw' as -> _. apply Forall_cons in Hb' as [Hv _]. congruence.
        - injection Hw' as <- _. apply Forall_cons in Hb as [Hv _].
          assert (is_Some (PyMore.find v (Py.lower content))) by eauto.
          apply find_contains in H. congruence.
        - injection Hw' as <- Hw'.
          apply Forall_cons in Hb as [_ Hb].
          apply Forall_cons in Hb' as [_ Hb'].
          destruct (IH Hb before' Hw' Hb') as [-> ->]. done. }
      destruct Hsame as [-> ->]. simpl.
      split; [by apply span_at_contains|apply length_span_at].
    + rewrite Hw in Hm. apply Forall_app in Hm as [_ Hm].
      apply Forall_cons in Hm as [Hm _]. congruence.
  - intros Hnone. destruct (first_match _ _ _) as [span|]; [|done].
    destruct Hm as (before & w & after & pos & Hw & _ & Hf & _).
    rewrite Hw in Hnone. apply Forall_app in Hnone as [_ Hnone].
    apply Forall_cons in Hnone as [Hnone _].
    assert (is_Some (PyMore.find w (Py.lower content))) by eauto.
    apply find_contains in H. congruence.
  - intros search_results. unfold get_citations_from_results.
    rewrite !map_map. done.
Qed.

End CitationSpansFacts.

(** ** The theorems above at concrete inputs *)

Module FurtherScenarios.
Import CacheService CacheMaintenance LcVectorStore DocumentService DocumentChat
  Spec SpecMore Scenario ScenarioMore.
Local Open Scope Q_scope.

(** The stored entry is expired at time 1400: the statistics count it,
    and after the clean-up they count nothing. *)
Lemma stats_after_cleanup_witness :
  exists before after,
    get_cache_stats two_chars demo_cache_stored 1400 = Ret before /\
    get_cache_stats two_chars (cleanup_expired demo_cache_stored 1400) 1400
      = Ret after /\
    total_entries before = 1%Z /\ expired_entries before = 1%Z /\
    expired_entries after = 0%Z /\ total_entries after = 0%Z.
Proof.
  destruct (get_cache_stats two_chars demo_cache_stored 1400)
    as [before|] eqn:Hb; [|vm_compute in Hb; discriminate].
  destruct (get_cache_stats two_chars
              (cleanup_expired demo_cache_stored 1400) 1400)
    as [after|] eqn:Ha; [|vm_compute in Ha; discriminate].
  destruct (CacheMoreFacts.stats_after_cleanup two_chars
              demo_cache_stored 1400 before after Hb Ha)
    as (Htotal & Hexp & Htot & Hact).
  exists before, after. split; [done|]. split; [done|].
  vm_compute in Hb. injection Hb as <-. simpl in *.
  split; [done|]. split; [done|]. split; [done|]. by rewrite Htot.
Defined.

(** A vector of five components cut to three. *)
Lemma normalize_dim_length_witness :
  Py.len (LocalEmbeddings._normalize_dim 3 [1; 2; 3; 4; 5]) = 3%Z.
Proof.
  refine (proj1 (EmbeddingFacts.normalize_dim_length 3 [1; 2; 3; 4; 5] _)).
  discriminate.
Defined.

(** The store that scores two passages answers although the database
    cannot be reached. *)
Lemma vector_results_take_precedence_witness :
  exists results,
    search_documents store_distance db_down (str "AWS score") None 5
      = Ret results /\
    results ≡ₚ map vector_result [(d1, 0.5); (d2, spec_similarity 2)].
Proof.
  destruct (RetrievalMoreFacts.vector_results_take_precedence
              store_distance db_down (str "AWS score") None 5
              [(d1, 0.5); (d2, spec_similarity 2)])
    as [(results & Hr & Hp & _) _].
  - vm_compute. reflexivity.
  - discriminate.
  - by exists results.
Defined.

(** The world of the search trees cites its one passage. *)
Lemma citations_follow_ranking_witness :
  exists response log,
    Eff.run (document_chat_answer world_trees (ask "define recursion"))
      = (Ret response, log) /\
    length (citations response) = 1%nat.
Proof.
  destruct (Eff.run (document_chat_answer world_trees (ask "define recursion")))
    as [[response|] log] eqn:Hrun; [|vm_compute in Hrun; discriminate].
  exists response, log. split; [done|].
  refine (proj1 (DocumentChatMoreFacts.citations_follow_ranking world_trees
                   (ask "define recursion")
                   [vector_result (d_trees, 0.4)] response log _ _ Hrun)).
  - vm_compute. reflexivity.
  - reflexivity.
Defined.

(** With the rate limit reached, the world of the search trees still
    answers, and cites its passage. *)
Lemma model_failure_is_answered_witness :
  exists response call,
    Eff.run (document_chat_answer world_limited (ask "define recursion"))
      = (Ret response, [call]) /\
    resp_usage response = [] /\
    length (citations response) = 1%nat.
Proof.
  destruct (DocumentChatMoreFacts.model_failure_is_answered world_limited
              (ask "define recursion") (vector_result (d_trees, 0.4)) []
              (RateLimitError
                 (str "API rate limit exceeded. Rate limit exceeded")))
    as [Hapi _].
  - vm_compute. reflexivity.
  - reflexivity.
  - destruct Hapi as (response & call & before & after & Hrun & _ & Hu & Hc).
    + reflexivity.
    + repeat constructor; discriminate.
    + exists response, call. split; [done|]. split; [done|].
      rewrite Hc. reflexivity.
Defined.

End FurtherScenarios.
